(** * Task, note and video-reference store of the popup extension

    A shallow embedding of the storage-backed CRUD layer ([storage.js],
    [task.js]), of the installation handler of [background.js], of the
    YouTube helpers ([youtube.js]), of the form and click handlers of
    [popup.js] and of the input validators ([inputvalidator.js]), followed
    by the properties the specification states about them and by further
    properties read off the code.

    JavaScript values are an inductive type, objects are finite maps from
    property names to values, and every operation runs in a state and
    exception monad over the host environment (the extension storage area,
    the wall clock, the random source, the time zone). *)

From Stdlib Require Import ZArith Ascii String List Bool Lia.
From stdpp Require Import gmap strings list fin_maps pretty.

Local Set Warnings "-register-all".

(** ** JavaScript values *)

(** Numbers are restricted to the integers: the only numbers the modelled
    code produces are millisecond timestamps.  A string is its sequence of
    code units, here in the range 0..255. *)
Inductive value :=
| VUndefined
| VNull
| VBool (b : bool)
| VNum (n : Z)
| VStr (s : string)
| VArr (l : list value)
| VObj (m : gmap string value).

(** [!v] is [negb (truthy v)]. *)
Definition truthy (v : value) : bool :=
  match v with
  | VUndefined | VNull => false
  | VBool b => b
  | VNum n => negb (n =? 0)%Z
  | VStr EmptyString => false
  | VStr _ => true
  | VArr _ | VObj _ => true
  end.

Definition typeof (v : value) : string :=
  match v with
  | VUndefined => "undefined"
  | VNull => "object"
  | VBool _ => "boolean"
  | VNum _ => "number"
  | VStr _ => "string"
  | VArr _ | VObj _ => "object"
  end.

(** [a === b].  Primitives compare by value.  Objects and arrays compare by
    reference; every comparison in the modelled code has a value read back
    from the storage area on one side and a caller's argument on the
    other, and those never share a reference. *)
Definition strict_eq (a b : value) : bool :=
  match a, b with
  | VUndefined, VUndefined => true
  | VNull, VNull => true
  | VBool x, VBool y => Bool.eqb x y
  | VNum x, VNum y => (x =? y)%Z
  | VStr x, VStr y => String.eqb x y
  | _, _ => false
  end.

(** [a || b] *)
Definition or_else (a b : value) : value := if truthy a then a else b.

(** [s] between double quotes, for the messages that quote a field name. *)
Definition quoted (s : string) : string :=
  String (ascii_of_nat 34) (s +:+ String (ascii_of_nat 34) EmptyString).

(** ** Exceptions and completions *)

Inductive exn :=
| InvalidInputError (message : string)
| StorageError (message : string) (originalError : exn)
| TypeError
| BackendError.

Inductive completion (A : Type) :=
| Return (a : A)
| Throw (e : exn).
Arguments Return {A} a.
Arguments Throw {A} e.

Definition cbind {A B} (c : completion A) (k : A -> completion B) : completion B :=
  match c with
  | Return a => k a
  | Throw e => Throw e
  end.

#[export] Instance completion_ret : MRet completion := fun _ a => Return a.
#[export] Instance completion_bind : MBind completion := fun _ _ k c => cbind c k.

(** ** Property access *)

(** Index keys of an array or of a string, as own enumerable properties. *)
Definition indexed (l : list value) : gmap string value :=
  list_to_map (imap (fun i v => (pretty i, v)) l).

Definition chars (s : string) : list value :=
  map (fun c => VStr (String c EmptyString)) (list_ascii_of_string s).

(** The own enumerable properties copied by [{...v}]. *)
Definition own_props (v : value) : gmap string value :=
  match v with
  | VObj m => m
  | VArr l => indexed l
  | VStr s => indexed (chars s)
  | _ => ∅
  end.

(** [v.p] for a data field [p].  Reading a property of [undefined] or
    [null] throws; a missing property reads as [undefined].  Inherited
    members ([length], [push], ...) are modelled by the operations that
    use them, not through this function. *)
Definition get_prop (v : value) (p : string) : completion value :=
  match v with
  | VUndefined | VNull => Throw TypeError
  | _ => Return (default VUndefined (own_props v !! p))
  end.

(** [v.p = x] in strict mode (ES modules).  Arrays carry no named data
    fields in this model. *)
Definition set_prop (v : value) (p : string) (x : value) : completion value :=
  match v with
  | VObj m => Return (VObj (<[p := x]> m))
  | _ => Throw TypeError
  end.

(** The receiver of an array method ([push], [find], [findIndex], [filter],
    [some]): anything that is not an array has no such method. *)
Definition as_array (v : value) : completion (list value) :=
  match v with
  | VArr l => Return l
  | _ => Throw TypeError
  end.

(** [cb = x => x.p === k] and [x => x.p !== k] *)
Definition prop_is (p : string) (k : value) (x : value) : completion bool :=
  r ← get_prop x p; Return (strict_eq r k).

Definition prop_is_not (p : string) (k : value) (x : value) : completion bool :=
  r ← get_prop x p; Return (negb (strict_eq r k)).

(** [Array.prototype.findIndex]; [None] stands for [-1]. *)
Fixpoint findIndex (cb : value -> completion bool) (l : list value) : completion (option nat) :=
  match l with
  | [] => Return None
  | x :: l' =>
      b ← cb x;
      if b : bool then Return (Some 0)
      else (r ← findIndex cb l'; Return (option_map S r))
  end.

(** [Array.prototype.find]; [VUndefined] when nothing matches. *)
Fixpoint find (cb : value -> completion bool) (l : list value) : completion value :=
  match l with
  | [] => Return VUndefined
  | x :: l' => b ← cb x; if b : bool then Return x else find cb l'
  end.

(** [Array.prototype.filter] *)
Fixpoint filter_arr (cb : value -> completion bool) (l : list value) : completion (list value) :=
  match l with
  | [] => Return []
  | x :: l' =>
      b ← cb x;
      r ← filter_arr cb l';
      Return (if b : bool then x :: r else r)
  end.

(** [Array.prototype.some] *)
Fixpoint some (cb : value -> completion bool) (l : list value) : completion bool :=
  match l with
  | [] => Return false
  | x :: l' => b ← cb x; if b : bool then Return true else some cb l'
  end.

(** ** The host environment *)

Record World := mkWorld {
  local : gmap string value;       (* contents of chrome.storage.local *)
  unavailable : bool;              (* chrome.storage.local.get rejects *)
  quota_exceeded : bool;           (* chrome.storage.local.set rejects *)
  writes : list (string * value);  (* set calls issued so far, newest first *)
  clock : nat -> Z;                (* the n-th reading of Date.now() *)
  reads : nat;                     (* readings taken so far *)
  secure_random : bool;            (* crypto.randomUUID is available *)
  entropy : nat -> string;         (* the n-th string drawn from the random source *)
  draws : nat;                     (* strings drawn so far *)
  tz_offset : Z;                   (* local time minus UTC, in minutes *)
  lenient_dates : bool;            (* the engine's date parser rolls an overlong day over *)
  URL_protocol : string -> option string (* protocol of new URL(s); None when it throws *)
}.

Definition with_local (m : gmap string value) (ws : list (string * value)) (w : World) : World :=
  mkWorld m (unavailable w) (quota_exceeded w) ws (clock w) (reads w)
          (secure_random w) (entropy w) (draws w) (tz_offset w) (lenient_dates w) (URL_protocol w).

Definition tick (w : World) : World :=
  mkWorld (local w) (unavailable w) (quota_exceeded w) (writes w) (clock w) (S (reads w))
          (secure_random w) (entropy w) (draws w) (tz_offset w) (lenient_dates w) (URL_protocol w).

Definition drawn (w : World) : World :=
  mkWorld (local w) (unavailable w) (quota_exceeded w) (writes w) (clock w) (reads w)
          (secure_random w) (entropy w) (S (draws w)) (tz_offset w) (lenient_dates w) (URL_protocol w).

(** ** The monad of asynchronous operations

    An [async] function runs to completion or to a rejection; a rejection
    does not undo the effects that preceded it. *)
Definition JS (A : Type) : Type := World -> completion A * World.

#[export] Instance JS_ret : MRet JS := fun _ a w => (Return a, w).
#[export] Instance JS_bind : MBind JS := fun _ _ k m w =>
  match m w with
  | (Return a, w') => k a w'
  | (Throw e, w') => (Throw e, w')
  end.

Definition throw {A} (e : exn) : JS A := fun w => (Throw e, w).

Definition lift {A} (c : completion A) : JS A := fun w => (c, w).

(** [try { m } catch (error) { h error }] *)
Definition try_catch {A} (m : JS A) (h : exn -> JS A) : JS A := fun w =>
  match m w with
  | (Return a, w') => (Return a, w')
  | (Throw e, w') => h e w'
  end.

(** [Date.now()] *)
Definition Date_now : JS Z := fun w => (Return (clock w (reads w)), tick w).

(** ** chrome.storage.local

    The storage area hands back what was stored: its serialisation is taken
    as the identity on the values kept in it. *)

(** [chrome.storage.local.get(key)]: an object holding [key] when present. *)
Definition chrome_storage_local_get (key : string) : JS (gmap string value) := fun w =>
  if unavailable w then (Throw BackendError, w)
  else (Return (match local w !! key with
                | Some v => {[ key := v ]}
                | None => ∅
                end), w).

(** [chrome.storage.local.set({ [key]: value })] *)
Definition chrome_storage_local_set (key : string) (v : value) : JS unit := fun w =>
  if quota_exceeded w then (Throw BackendError, with_local (local w) ((key, v) :: writes w) w)
  else (Return tt, with_local (<[key := v]> (local w)) ((key, v) :: writes w) w).

(** [chrome.storage.local.set(items)] for an object literal with several
    keys, given as its pairs in source order: one call, all of it stored
    or none. *)
Definition chrome_storage_local_set_items (items : list (string * value)) : JS unit := fun w =>
  if quota_exceeded w then (Throw BackendError, with_local (local w) (rev items ++ writes w) w)
  else (Return tt,
        with_local (foldl (fun m kv => <[kv.1 := kv.2]> m) (local w) items)
                   (rev items ++ writes w) w).

(** [chrome.storage.local.remove(key)] and [chrome.storage.local.clear()].
    They store nothing, so no quota applies to them; they reject when the
    storage area cannot be reached. *)
Definition chrome_storage_local_remove (key : string) : JS unit := fun w =>
  if unavailable w then (Throw BackendError, w)
  else (Return tt, with_local (delete key (local w)) (writes w) w).

Definition chrome_storage_local_clear : JS unit := fun w =>
  if unavailable w then (Throw BackendError, w)
  else (Return tt, with_local ∅ (writes w) w).

(** ** storage.js *)

Module StorageManager.

(** [STORAGE_KEYS] *)
Definition TASKS : string := "marketingProductivityExtension_tasks".
Definition NOTES : string := "marketingProductivityExtension_notes".
Definition SETTINGS : string := "marketingProductivityExtension_settings".

Definition getItem (key : string) (defaultValue : value) : JS value :=
  try_catch
    (result ← chrome_storage_local_get key;
     let r := default VUndefined (result !! key) in
     mret (if negb (strict_eq r VUndefined) then r else defaultValue))
    (fun error => throw error).

Definition setItem (key : string) (v : value) : JS unit :=
  try_catch (chrome_storage_local_set key v) (fun error => throw error).

Definition getAllTasks : JS value := getItem TASKS (VArr []).

Definition saveAllTasks (tasks : value) : JS unit := setItem TASKS tasks.

Definition getAllNotes : JS value := getItem NOTES (VArr []).

Definition getSettings : JS value := getItem SETTINGS (VObj ∅).

Definition removeItem (key : string) : JS unit :=
  try_catch (chrome_storage_local_remove key) (fun error => throw error).

Definition clearAll : JS unit :=
  try_catch chrome_storage_local_clear (fun error => throw error).

Definition saveAllNotes (notes : value) : JS unit := setItem NOTES notes.

Definition saveSettings (settings : value) : JS unit := setItem SETTINGS settings.

End StorageManager.

(** ** Numbers in base 36 and the random source *)

Definition digit36 (d : Z) : ascii :=
  ascii_of_nat (Z.to_nat (if (d <? 10)%Z then 48 + d else 87 + d)%Z).

Fixpoint to_radix36 (fuel : nat) (n : Z) (acc : string) : string :=
  match fuel with
  | O => acc
  | S fuel' =>
      let acc' := String (digit36 (n mod 36)) acc in
      if (n <? 36)%Z then acc' else to_radix36 fuel' (n / 36) acc'
  end.

(** [n.toString(36)] for an integer [n] *)
Definition toString36 (n : Z) : string :=
  if (n <? 0)%Z then "-" +:+ to_radix36 (S (Z.to_nat (Z.log2 (- n)))) (- n) ""
  else to_radix36 (S (Z.to_nat (Z.log2 n))) n "".

(** One string from the random source: the result of [crypto.randomUUID()]
    when that is available, of [Math.random().toString(36)] otherwise. *)
Definition draw : JS string := fun w => (Return (entropy w (draws w)), drawn w).

(** ** task.js *)

Module TaskManager.

Definition _getTasks : JS value :=
  try_catch StorageManager.getAllTasks
    (fun error => throw (StorageError "Failed to retrieve tasks due to storage error." error)).

Definition _saveTasks (tasks : value) : JS unit :=
  try_catch (StorageManager.saveAllTasks tasks)
    (fun error => throw (StorageError "Failed to save tasks due to storage error." error)).

Definition _generateUniqueId : JS value := fun w =>
  if secure_random w then (u ← draw; mret (VStr u)) w
  else (now ← Date_now;
        r ← draw;
        mret (VStr ("_" +:+ toString36 now +:+ "_" +:+ substring 2 9 r))) w.

Definition createTask (taskData : value) : JS value :=
  let invalid :=
    throw (InvalidInputError ("Invalid task data. A " +:+ quoted "title"
                              +:+ " is required to create a task.")) in
  if negb (truthy taskData) || negb (String.eqb (typeof taskData) "object") then invalid
  else
    title ← lift (get_prop taskData "title");
    if negb (truthy title) then invalid
    else
      tasks ← _getTasks;
      now ← Date_now;
      id ← _generateUniqueId;
      description ← lift (get_prop taskData "description");
      dueDate ← lift (get_prop taskData "dueDate");
      let newTask := VObj (<["id" := id]>
                          (<["title" := title]>
                          (<["description" := or_else description (VStr "")]>
                          (<["dueDate" := or_else dueDate VNull]>
                          (<["isComplete" := VBool false]>
                          (<["createdAt" := VNum now]>
                          (<["updatedAt" := VNum now]>
                          (<["subtasks" := VArr []]> ∅)))))))) in
      arr ← lift (as_array tasks);
      _saveTasks (VArr (arr ++ [newTask]));;
      mret newTask.

Definition getTaskById (id : value) : JS value :=
  if negb (truthy id)
  then throw (InvalidInputError "Task ID must be provided to retrieve a task.")
  else
    tasks ← _getTasks;
    arr ← lift (as_array tasks);
    r ← lift (find (prop_is "id" id) arr);
    mret (or_else r VNull).

Definition getAllTasks : JS value := _getTasks.

Definition updateTask (id newData : value) : JS value :=
  if negb (truthy id) || negb (String.eqb (typeof newData) "object") || strict_eq newData VNull
  then throw (InvalidInputError "Task ID and valid new data object are required to update a task.")
  else
    tasks ← _getTasks;
    arr ← lift (as_array tasks);
    taskIndex ← lift (findIndex (prop_is "id" id) arr);
    match taskIndex with
    | None => mret VNull
    | Some i =>
        let old := default VUndefined (arr !! i) in
        old_id ← lift (get_prop old "id");
        old_subtasks ← lift (get_prop old "subtasks");
        now ← Date_now;
        let updatedTask := VObj (<["updatedAt" := VNum now]>
                                (<["subtasks" := old_subtasks]>
                                (<["id" := old_id]>
                                (own_props newData ∪ own_props old)))) in
        _saveTasks (VArr (<[i := updatedTask]> arr));;
        mret updatedTask
    end.

Definition deleteTask (id : value) : JS value :=
  if negb (truthy id)
  then throw (InvalidInputError "Task ID must be provided to delete a task.")
  else
    tasks ← _getTasks;
    arr ← lift (as_array tasks);
    let initialLength := length arr in
    filteredTasks ← lift (filter_arr (prop_is_not "id" id) arr);
    if Nat.eqb (length filteredTasks) initialLength then mret (VBool false)
    else
      _saveTasks (VArr filteredTasks);;
      mret (VBool true).

Definition markTaskStatus (id isComplete : value) : JS value :=
  if negb (truthy id) || negb (String.eqb (typeof isComplete) "boolean")
  then throw (InvalidInputError
                "Task ID and a boolean status (isComplete) are required to mark task status.")
  else updateTask id (VObj {[ "isComplete" := isComplete ]}).

Definition addSubtask (taskId subtaskData : value) : JS value :=
  let invalid :=
    throw (InvalidInputError
      ("Parent Task ID and valid subtask data with a " +:+ quoted "title"
   +:+ " are required to add a subtask.")) in
  if negb (truthy taskId) || negb (truthy subtaskData)
     || negb (String.eqb (typeof subtaskData) "object")
  then invalid
  else
    title ← lift (get_prop subtaskData "title");
    if negb (truthy title) then invalid
    else
      tasks ← _getTasks;
      arr ← lift (as_array tasks);
      taskIndex ← lift (findIndex (prop_is "id" taskId) arr);
      match taskIndex with
      | None => mret VNull
      | Some i =>
          now ← Date_now;
          id ← _generateUniqueId;
          let newSubtask := VObj (<["id" := id]>
                                 (<["title" := title]>
                                 (<["isComplete" := VBool false]>
                                 (<["createdAt" := VNum now]>
                                 (<["updatedAt" := VNum now]> ∅))))) in
          let task := default VUndefined (arr !! i) in
          subtasks ← lift (get_prop task "subtasks" ≫= as_array);
          task1 ← lift (set_prop task "subtasks" (VArr (subtasks ++ [newSubtask])));
          task2 ← lift (set_prop task1 "updatedAt" (VNum now));
          _saveTasks (VArr (<[i := task2]> arr));;
          mret newSubtask
      end.

Definition deleteSubtask (taskId subtaskId : value) : JS value :=
  if negb (truthy taskId) || negb (truthy subtaskId)
  then throw (InvalidInputError
                "Parent Task ID and Subtask ID must be provided to delete a subtask.")
  else
    tasks ← _getTasks;
    arr ← lift (as_array tasks);
    taskIndex ← lift (findIndex (prop_is "id" taskId) arr);
    match taskIndex with
    | None => mret (VBool false)
    | Some i =>
        let task := default VUndefined (arr !! i) in
        subtasks ← lift (get_prop task "subtasks" ≫= as_array);
        let initialSubtaskCount := length subtasks in
        remaining ← lift (filter_arr (prop_is_not "id" subtaskId) subtasks);
        task1 ← lift (set_prop task "subtasks" (VArr remaining));
        if Nat.eqb (length remaining) initialSubtaskCount then mret (VBool false)
        else
          now ← Date_now;
          task2 ← lift (set_prop task1 "updatedAt" (VNum now));
          _saveTasks (VArr (<[i := task2]> arr));;
          mret (VBool true)
    end.

Definition markSubtaskStatus (taskId subtaskId isComplete : value) : JS value :=
  if negb (truthy taskId) || negb (truthy subtaskId)
     || negb (String.eqb (typeof isComplete) "boolean")
  then throw (InvalidInputError
    "Parent Task ID, Subtask ID, and a boolean status (isComplete) are required to mark subtask status.")
  else
    tasks ← _getTasks;
    arr ← lift (as_array tasks);
    taskIndex ← lift (findIndex (prop_is "id" taskId) arr);
    match taskIndex with
    | None => mret VNull
    | Some i =>
        let task := default VUndefined (arr !! i) in
        subtasks ← lift (get_prop task "subtasks" ≫= as_array);
        subtaskIndex ← lift (findIndex (prop_is "id" subtaskId) subtasks);
        match subtaskIndex with
        | None => mret VNull
        | Some j =>
            let sub := default VUndefined (subtasks !! j) in
            sub1 ← lift (set_prop sub "isComplete" isComplete);
            now1 ← Date_now;
            sub2 ← lift (set_prop sub1 "updatedAt" (VNum now1));
            task1 ← lift (set_prop task "subtasks" (VArr (<[j := sub2]> subtasks)));
            now2 ← Date_now;
            task2 ← lift (set_prop task1 "updatedAt" (VNum now2));
            _saveTasks (VArr (<[i := task2]> arr));;
            mret sub2
        end
    end.

End TaskManager.

(** ** background.js *)

Module BackgroundService.

(** The branches for the reasons ['update'] and ['chrome_update'] only
    write to the console. *)
Definition handleInstalled (details : value) : JS unit :=
  reason ← lift (get_prop details "reason");
  if strict_eq reason (VStr "install") then
    try_catch
      (chrome_storage_local_set_items
         [("tasks", VArr []);
          ("notes", VArr []);
          ("settings", VObj (<["theme" := VStr "light"]>
                            (<["defaultView" := VStr "tasks"]>
                            (<["notificationsEnabled" := VBool true]> ∅))));
          ("youtubeVideos", VArr [])])
      (fun e => mret tt)
  else mret tt.

End BackgroundService.

(** ** Strings and regular expressions *)

Definition code (c : ascii) : nat := nat_of_ascii c.

Definition between (lo hi : nat) (c : ascii) : bool :=
  Nat.leb lo (code c) && Nat.leb (code c) hi.

(** White space and line terminators below code unit 256: TAB, LF, VT, FF,
    CR, SPACE and NBSP.  This is the class [\s], and what [trim] strips. *)
Definition is_space (c : ascii) : bool :=
  between 9 13 c || Nat.eqb (code c) 32 || Nat.eqb (code c) 160.

Definition is_digit (c : ascii) : bool := between 48 57 c.

Fixpoint trimStart (s : string) : string :=
  match s with
  | String c s' => if is_space c then trimStart s' else s
  | EmptyString => EmptyString
  end.

Definition rev_string (s : string) : string :=
  string_of_list_ascii (rev (list_ascii_of_string s)).

(** [s.trim()] *)
Definition trim (s : string) : string :=
  rev_string (trimStart (rev_string (trimStart s))).

(** The fragment of regular expressions the sources use; repetition is
    only ever applied to a character class. *)
Inductive regex :=
| Lit (s : string)
| Class (p : ascii -> bool)
| Seq (r1 r2 : regex)
| Alt (r1 r2 : regex)
| Opt (r : regex)
| Star (p : ascii -> bool)
| Plus (p : ascii -> bool).

Fixpoint strip_prefix (lit s : string) : option string :=
  match lit, s with
  | EmptyString, _ => Some s
  | String a lit', String b s' => if Ascii.eqb a b then strip_prefix lit' s' else None
  | String _ _, EmptyString => None
  end.

(** Greedy repetition of a class: the remainders left by the longest run
    first, then by each shorter one. *)
Fixpoint star (p : ascii -> bool) (s : string) : list string :=
  match s with
  | String c s' => if p c then star p s' ++ [s] else [s]
  | EmptyString => [EmptyString]
  end.

(** The backtracking matcher: [run r s] lists, in the order the engine
    tries them, the remainders of [s] after each way [r] matches a prefix
    of it. *)
Fixpoint run (r : regex) (s : string) : list string :=
  match r with
  | Lit l => match strip_prefix l s with Some t => [t] | None => [] end
  | Class p => match s with
               | String c s' => if p c then [s'] else []
               | EmptyString => []
               end
  | Seq r1 r2 => concat (map (run r2) (run r1 s))
  | Alt r1 r2 => run r1 s ++ run r2 s
  | Opt r1 => run r1 s ++ [s]
  | Star p => star p s
  | Plus p => match s with
              | String c s' => if p c then star p s' else []
              | EmptyString => []
              end
  end.

(** [p{n}] as a capturing group: the captured text and the remainder. *)
Fixpoint capture (n : nat) (p : ascii -> bool) (s : string) : option (string * string) :=
  match n with
  | O => Some (EmptyString, s)
  | S n' =>
      match s with
      | String c s' =>
          if p c then
            match capture n' p s' with
            | Some (g, rest) => Some (String c g, rest)
            | None => None
            end
          else None
      | EmptyString => None
      end
  end.

(** ** youtube.js *)

Module YoutubeManager.

(** [[^\/\n\s]] *)
Definition segment_char (c : ascii) : bool :=
  negb (Nat.eqb (code c) 47 || Nat.eqb (code c) 10 || is_space c).

(** [\S] *)
Definition non_space (c : ascii) : bool := negb (is_space c).

(** [.]: anything but a line terminator *)
Definition dot (c : ascii) : bool := negb (Nat.eqb (code c) 10 || Nat.eqb (code c) 13).

(** [[?&]] *)
Definition query_sep (c : ascii) : bool := Nat.eqb (code c) 63 || Nat.eqb (code c) 38.

(** [[a-zA-Z0-9_-]] *)
Definition id_char (c : ascii) : bool :=
  between 97 122 c || between 65 90 c || between 48 57 c
  || Nat.eqb (code c) 95 || Nat.eqb (code c) 45.

(** [(?:youtube\.com\/(?:[^\/\n\s]+\/\S+\/|(?:v|e(?:mbed)?|shorts)\/|.*[?&]v=)|youtu\.be\/)] *)
Definition prefix : regex :=
  Alt (Seq (Lit "youtube.com/")
           (Alt (Seq (Plus segment_char) (Seq (Lit "/") (Seq (Plus non_space) (Lit "/"))))
           (Alt (Seq (Alt (Lit "v") (Alt (Seq (Lit "e") (Opt (Lit "mbed"))) (Lit "shorts")))
                     (Lit "/"))
                (Seq (Star dot) (Seq (Class query_sep) (Lit "v="))))))
      (Lit "youtu.be/").

(** The first way, in the engine's order, in which the whole expression
    [prefix([a-zA-Z0-9_-]{11})] matches at the start of [s]; the result
    is the text of group 1. *)
Definition match_here (s : string) : option string :=
  head (omap (fun rest => fst <$> capture 11 id_char rest) (run prefix s)).

(** [url.match(regex)]: the leftmost position at which it matches. *)
Fixpoint search (s : string) : option string :=
  match match_here s with
  | Some g => Some g
  | None =>
      match s with
      | String _ s' => search s'
      | EmptyString => None
      end
  end.

Definition extractVideoId (url : value) : value :=
  match url with
  | VStr s =>
      if negb (truthy url) then VNull
      else match search s with
           | Some g => VStr g
           | None => VNull
           end
  | _ => VNull
  end.

Definition getEmbedUrl (videoId : value) : value :=
  match videoId with
  | VStr s =>
      if negb (Nat.eqb (String.length s) 11) then VNull
      else VStr ("https://www.youtube.com/embed/" +:+ s)
  | _ => VNull
  end.

(** The part of the document that [renderVideoEmbed] touches.  An iframe
    is the list of the [setAttribute] calls made on it, in order, and of
    the assignments to its [style]; anything else an element may hold is
    kept as its markup. *)
Inductive node :=
| Iframe (attributes : list (string * value)) (style : list (string * string))
| Markup (html : string).

(** The first argument of [renderVideoEmbed]: an [HTMLElement] with its
    children, or any other value. *)
Inductive target :=
| HTMLElement (children : list node)
| NotAnElement (v : value).

(** The result and the first argument as the call leaves it.
    [extractVideoId] returns a string or [null]; for the string, [!videoId]
    is the test for the empty one. *)
Definition renderVideoEmbed (element : target) (youtubeUrl : value) : bool * target :=
  match element with
  | NotAnElement _ => (false, element)
  | HTMLElement _ =>
      if negb (String.eqb (typeof youtubeUrl) "string") || negb (truthy youtubeUrl)
      then (false, element)
      else
        match extractVideoId youtubeUrl with
        | VStr videoId =>
            if negb (truthy (VStr videoId)) then (false, element)
            else
              let embedUrl := getEmbedUrl (VStr videoId) in
              let iframe :=
                Iframe [("src", embedUrl);
                        ("frameborder", VStr "0");
                        ("allow", VStr "accelerometer; clipboard-write; encrypted-media; gyroscope; picture-in-picture; web-share");
                        ("allowfullscreen", VStr "true");
                        ("title", VStr ("YouTube video player for ID: " +:+ videoId));
                        ("loading", VStr "lazy")]
                       [("width", "100%"); ("height", "100%"); ("border", "none")] in
              (true, HTMLElement ([] ++ [iframe]))
        | _ => (false, element)
        end
  end.

End YoutubeManager.

(** ** Dates

    The part of the built-in [Date] that [isValidDate] uses.  A date-only
    ISO string is read as midnight UTC; [getFullYear], [getMonth] and
    [getDate] answer in local time. *)

Definition msPerDay : Z := 86400000.

(** Day number (days since 1970-01-01) of a civil date, proleptic
    Gregorian calendar, months counted from 1. *)
Definition days_from_civil (y m d : Z) : Z :=
  let y' := if (m <=? 2)%Z then (y - 1)%Z else y in
  let era := (y' / 400)%Z in
  let yoe := (y' - era * 400)%Z in
  let mp := if (m >? 2)%Z then (m - 3)%Z else (m + 9)%Z in
  let doy := ((153 * mp + 2) / 5 + d - 1)%Z in
  let doe := (yoe * 365 + yoe / 4 - yoe / 100 + doy)%Z in
  (era * 146097 + doe - 719468)%Z.

(** The civil date (year, month from 1, day of month) of a day number. *)
Definition civil_from_days (z : Z) : Z * Z * Z :=
  let z' := (z + 719468)%Z in
  let era := (z' / 146097)%Z in
  let doe := (z' - era * 146097)%Z in
  let yoe := ((doe - doe / 1460 + doe / 36524 - doe / 146096) / 365)%Z in
  let doy := (doe - (365 * yoe + yoe / 4 - yoe / 100))%Z in
  let mp := ((5 * doy + 2) / 153)%Z in
  let d := (doy - (153 * mp + 2) / 5 + 1)%Z in
  let m := if (mp <? 10)%Z then (mp + 3)%Z else (mp - 9)%Z in
  let y := (yoe + era * 400)%Z in
  (if (m <=? 2)%Z then (y + 1)%Z else y, m, d).

Definition is_leap (y : Z) : bool :=
  ((y mod 4 =? 0) && negb (y mod 100 =? 0) || (y mod 400 =? 0))%Z.

Definition days_in_month (y m : Z) : Z :=
  if (m =? 2)%Z then (if is_leap y then 29 else 28)%Z
  else if ((m =? 4) || (m =? 6) || (m =? 9) || (m =? 11))%Z then 30%Z
  else 31%Z.

(** [MakeDay]: the day number of day [d] counted from the first of month
    [m]; a day past the end of the month runs into the next one. *)
Definition MakeDay (y m d : Z) : Z := (days_from_civil y m 1 + d - 1)%Z.

(** [parseInt(s, 10)] on a string that starts with a digit: the value of
    its leading digits.  [None] is [NaN]. *)
Fixpoint digits_value (s : string) (acc : Z) : Z :=
  match s with
  | String c s' =>
      if is_digit c then digits_value s' (10 * acc + Z.of_nat (code c) - 48)%Z else acc
  | EmptyString => acc
  end.

Definition parseInt (s : string) : option Z :=
  match s with
  | String c _ => if is_digit c then Some (digits_value s 0) else None
  | EmptyString => None
  end.

(** [/^\d{4}-\d{2}-\d{2}$/] *)
Definition dateFormatRegex : regex :=
  let d := Class is_digit in
  let dash := Lit "-" in
  Seq d (Seq d (Seq d (Seq d (Seq dash (Seq d (Seq d (Seq dash (Seq d d)))))))).

(** [regex.test(s)] for an expression anchored by [^] and [$]. *)
Definition test_anchored (r : regex) (s : string) : bool :=
  existsb (fun rest => String.eqb rest "") (run r s).

(** [new Date(s).getTime()] for [s] of the form YYYY-MM-DD; [None] is
    [NaN].  Month 00 or above 12 and day 00 or above 31 are not dates.  For
    a day above the length of the month the engines differ: a lenient
    parser carries it into the next month, a strict one gives [NaN]. *)
Definition Date_parse (lenient : bool) (s : string) : option Z :=
  let y := digits_value (substring 0 4 s) 0 in
  let m := digits_value (substring 5 2 s) 0 in
  let d := digits_value (substring 8 2 s) 0 in
  if ((m <? 1) || (m >? 12) || (d <? 1) || (d >? 31))%Z then None
  else if negb lenient && (d >? days_in_month y m)%Z then None
  else Some (MakeDay y m d * msPerDay)%Z.

(** [LocalTime(t)], then year, month (from 1) and day of month. *)
Definition local_civil (w : World) (t : Z) : Z * Z * Z :=
  civil_from_days ((t + tz_offset w * 60000) / msPerDay)%Z.

Definition Z_is (a : Z) (b : option Z) : bool :=
  match b with
  | Some b' => (a =? b')%Z
  | None => false
  end.

(** ** inputvalidator.js *)

Definition MAX_SAFE_INTEGER : Z := 9007199254740991.

Definition isValidText (text min max : value) : bool :=
  match text with
  | VStr s =>
      let trimmedText := trim s in
      let minVal := match min with
                    | VNum n => if (n >=? 0)%Z then n else 0%Z
                    | _ => 0%Z
                    end in
      let maxVal := match max with
                    | VNum n => if (n >=? minVal)%Z then n else MAX_SAFE_INTEGER
                    | _ => MAX_SAFE_INTEGER
                    end in
      let len := Z.of_nat (String.length trimmedText) in
      (len >=? minVal)%Z && (len <=? maxVal)%Z
  | _ => false
  end.

(** The URL object is represented by its [protocol] field. *)
Definition isValidUrl (w : World) (url : value) : value :=
  match url with
  | VStr s =>
      if String.eqb (trim s) "" then VNull
      else match URL_protocol w s with
           | Some protocol =>
               if String.eqb protocol "http:" || String.eqb protocol "https:"
               then VObj {[ "protocol" := VStr protocol ]}
               else VNull
           | None => VNull
           end
  | _ => VNull
  end.

Definition isValidDate (w : World) (dateString : value) : bool :=
  match dateString with
  | VStr s =>
      if String.eqb (trim s) "" then false
      else if negb (test_anchored dateFormatRegex s) then false
      else match Date_parse (lenient_dates w) s with
           | None => false
           | Some t =>
               let '(year, month, day) := local_civil w t in
               Z_is year (parseInt (substring 0 4 s))
               && Z_is month (parseInt (substring 5 2 s))
               && Z_is day (parseInt (substring 8 2 s))
           end
  | _ => false
  end.

Definition isNonEmpty (v : value) : bool :=
  match v with
  | VNull | VUndefined => false
  | VStr s => negb (String.eqb (trim s) "")
  | VArr l => negb (Nat.eqb (length l) 0)
  | VObj m => negb (Nat.eqb (size m) 0)
  | _ => true
  end.

(** ** popup.js: adding a video reference *)

(** The message keys of the alerts the handler can raise. *)
Inductive alert :=
| invalidYoutubeUrl
| invalidYoutubeUrlSpecific
| videoAlreadyEmbedded
| embedVideoFailed.

(** The message keys of the alerts the other handlers can raise. *)
Inductive notice :=
| taskContentRequired
| addTaskFailed
| noteTitleRequired
| noteContentRequired
| addNoteFailed
| deleteVideoFailed.

Module PopupManager.
Section Popup.

(** [STORAGE_KEYS.YOUTUBE_VIDEOS]: the key table of [storage.js] has no
    such entry, so the key is left open. *)
Variable YOUTUBE_VIDEOS : string.

(** [crypto.randomUUID()], called without a guard. *)
Definition generateUniqueId : JS value := fun w =>
  if secure_random w then (u ← draw; mret (VStr u)) w
  else (Throw TypeError, w).

(** The handler, from the text of the URL field to the alert it raises,
    or [None] when the new reference was saved (the list is then drawn
    again, which is not part of this model). *)
Definition handleYoutubeEmbed (input : string) : JS (option alert) := fun w =>
  let youtubeUrl := VStr (trim input) in
  if negb (truthy (isValidUrl w youtubeUrl)) then (Return (Some invalidYoutubeUrl), w)
  else
    let videoId := YoutubeManager.extractVideoId youtubeUrl in
    if negb (truthy videoId) then (Return (Some invalidYoutubeUrlSpecific), w)
    else
      try_catch
        (videos ← StorageManager.getItem YOUTUBE_VIDEOS VNull;
         arr ← lift (as_array videos);
         duplicate ← lift (some (prop_is "videoId" videoId) arr);
         if duplicate : bool then mret (Some videoAlreadyEmbedded)
         else
           id ← generateUniqueId;
           now ← Date_now;
           let newVideo := VObj (<["id" := id]>
                                (<["videoId" := videoId]>
                                (<["timestamp" := VNum now]> ∅))) in
           StorageManager.setItem YOUTUBE_VIDEOS (VArr (arr ++ [newVideo]));;
           mret None)
        (fun error => mret (Some embedVideoFailed)) w.

(** The handlers of the task and note forms, from the text of their
    fields ([noteContent] is the markup the editor hands over) to the alert
    they raise, or [None] when the new entry was saved. *)
Definition handleTaskFormSubmit (input : string) : JS (option notice) := fun w =>
  let taskContent := VStr (trim input) in
  if negb (isValidText taskContent (VNum 1) VUndefined)
  then (Return (Some taskContentRequired), w)
  else
    try_catch
      (tasks ← StorageManager.getItem StorageManager.TASKS VNull;
       id ← generateUniqueId;
       now ← Date_now;
       let newTask := VObj (<["id" := id]>
                           (<["content" := taskContent]>
                           (<["completed" := VBool false]>
                           (<["timestamp" := VNum now]> ∅)))) in
       arr ← lift (as_array tasks);
       StorageManager.setItem StorageManager.TASKS (VArr (arr ++ [newTask]));;
       mret None)
      (fun error => mret (Some addTaskFailed)) w.

Definition handleNoteFormSubmit (titleInput noteContent : string) : JS (option notice) := fun w =>
  let noteTitle := VStr (trim titleInput) in
  if negb (isValidText noteTitle (VNum 1) VUndefined)
  then (Return (Some noteTitleRequired), w)
  else if negb (isValidText (VStr noteContent) (VNum 1) VUndefined)
  then (Return (Some noteContentRequired), w)
  else
    try_catch
      (notes ← StorageManager.getItem StorageManager.NOTES VNull;
       id ← generateUniqueId;
       now ← Date_now;
       let newNote := VObj (<["id" := id]>
                           (<["title" := noteTitle]>
                           (<["content" := VStr noteContent]>
                           (<["timestamp" := VNum now]> ∅)))) in
       arr ← lift (as_array notes);
       StorageManager.setItem StorageManager.NOTES (VArr (arr ++ [newNote]));;
       mret None)
      (fun error => mret (Some addNoteFailed)) w.

(** The click listener that [bindEventListeners] puts on the container
    of the videos, for a click inside the item whose [data-id] is
    [videoId] on a target whose [data-action] is [action]. *)
Definition youtubeVideosContainer_click (videoId : string) (action : value)
  : JS (option notice) :=
  try_catch
    (videos ← StorageManager.getItem YOUTUBE_VIDEOS VNull;
     if strict_eq action (VStr "delete-youtube") then
       arr ← lift (as_array videos);
       remaining ← lift (filter_arr (prop_is_not "id" (VStr videoId)) arr);
       StorageManager.setItem YOUTUBE_VIDEOS (VArr remaining);;
       mret None
     else mret None)
    (fun error => mret (Some deleteVideoFailed)).

End Popup.
End PopupManager.

(** * Vocabulary of the statements *)

(** [m.p] on an object known by its property map. *)
Definition field (m : gmap string value) (p : string) : value :=
  default VUndefined (m !! p).

Definition is_object (v : value) : bool :=
  match v with
  | VObj _ => true
  | _ => false
  end.

(** [typeof v === 'object' && v !== null] *)
Definition object_like (v : value) : bool :=
  String.eqb (typeof v) "object" && negb (strict_eq v VNull).

(** The entity [t] carries the identifier [id] in its field [p]. *)
Definition carries (p : string) (id : value) (t : value) : bool :=
  match t with
  | VObj m => strict_eq (field m p) id
  | _ => false
  end.

(** The position of the first entity carrying [id], if any. *)
Fixpoint first_carrier (p : string) (id : value) (l : list value) : option nat :=
  match l with
  | [] => None
  | t :: l' => if carries p id t then Some 0 else option_map S (first_carrier p id l')
  end.

(** The collection kept under a key: what [getItem key []] hands back when
    it is an array. *)
Definition collection (key : string) (w : World) : option (list value) :=
  match local w !! key with
  | Some (VArr l) => Some l
  | Some VUndefined | None => Some []
  | Some _ => None
  end.

(** The world after a [set] call that went through. *)
Definition saved (key : string) (v : value) (w : World) : World :=
  with_local (<[key := v]> (local w)) ((key, v) :: writes w) w.

(** ** What the operations build *)

(** The identifier [_generateUniqueId] hands out in a given world, and the
    world it leaves. *)
Definition generated (w : World) : value :=
  if secure_random w then VStr (entropy w (draws w))
  else VStr ("_" +:+ toString36 (clock w (reads w)) +:+ "_"
             +:+ substring 2 9 (entropy w (draws w))).

Definition after_generate (w : World) : World :=
  if secure_random w then drawn w else drawn (tick w).

(** The object literal of [createTask]. *)
Definition new_task (taskData : gmap string value) (now : Z) (id : value) : gmap string value :=
  <["id" := id]>
    (<["title" := field taskData "title"]>
    (<["description" := or_else (field taskData "description") (VStr "")]>
    (<["dueDate" := or_else (field taskData "dueDate") VNull]>
    (<["isComplete" := VBool false]>
    (<["createdAt" := VNum now]>
    (<["updatedAt" := VNum now]>
    (<["subtasks" := VArr []]> ∅))))))).

(** The object literal of [updateTask]. *)
Definition merged (old : gmap string value) (newData : value) (now : Z) : gmap string value :=
  <["updatedAt" := VNum now]>
    (<["subtasks" := field old "subtasks"]>
       (<["id" := field old "id"]> (own_props newData ∪ old))).

(** The subtask and its parent after [markSubtaskStatus]. *)
Definition marked (sub : gmap string value) (isComplete : value) (now : Z) : gmap string value :=
  <["updatedAt" := VNum now]> (<["isComplete" := isComplete]> sub).

Definition touched (parent : gmap string value) (subtasks : list value) (now : Z)
  : gmap string value :=
  <["updatedAt" := VNum now]> (<["subtasks" := VArr subtasks]> parent).

(** The object literal of [handleYoutubeEmbed]. *)
Definition new_video (id videoId : value) (now : Z) : value :=
  VObj (<["id" := id]> (<["videoId" := videoId]> (<["timestamp" := VNum now]> ∅))).

(** ** Video references *)

(** Eleven characters of [[A-Za-z0-9_-]]. *)
Definition is_video_id (s : string) : bool :=
  Nat.eqb (String.length s) 11
  && forallb YoutubeManager.id_char (list_ascii_of_string s).

(** A stored VideoRef: an object whose [videoId] is a string. *)
Definition is_video_ref (v : value) : bool :=
  match v with
  | VObj m => match field m "videoId" with
              | VStr _ => true
              | _ => false
              end
  | _ => false
  end.

Definition videoId_of (v : value) : string :=
  match v with
  | VObj m => match field m "videoId" with
              | VStr s => s
              | _ => ""
              end
  | _ => ""
  end.

(** The invariant of the collection: VideoRefs, no two with the same
    [videoId]. *)
Definition distinct_videos (refs : list value) : Prop :=
  forallb is_video_ref refs = true /\ NoDup (map videoId_of refs).

(** An index key starts with a digit, so no data field name is one. *)
Definition digit_headed (s : string) : Prop :=
  exists c s', s = String c s' /\ is_digit c = true.

(** ** A concrete world

    Two stored tasks, the first with one subtask; a clock that starts after
    every stored stamp and advances by a millisecond per reading; a random
    source that numbers its identifiers; a browser in the time zone given
    as [tz]. *)

Definition demo_subtask : value :=
  VObj (<["id" := VStr "s1"]>
       (<["title" := VStr "2%"]>
       (<["isComplete" := VBool false]>
       (<["createdAt" := VNum 1700000000100]>
       (<["updatedAt" := VNum 1700000000100]> ∅))))).

Definition demo_task (id title : string) (subtasks : list value) : value :=
  VObj (<["id" := VStr id]>
       (<["title" := VStr title]>
       (<["description" := VStr ""]>
       (<["dueDate" := VNull]>
       (<["isComplete" := VBool false]>
       (<["createdAt" := VNum 1700000000000]>
       (<["updatedAt" := VNum 1700000000100]>
       (<["subtasks" := VArr subtasks]> ∅)))))))).

Definition demo_tasks : list value :=
  [demo_task "t1" "Buy milk" [demo_subtask]; demo_task "t2" "Call the bank" []].

Definition demo_protocol (s : string) : option string :=
  if String.prefix "https://" s then Some "https:"
  else if String.prefix "http://" s then Some "http:"
  else None.

Definition demo_world_at (store : gmap string value) (tz : Z) : World :=
  mkWorld store false false [] (fun n => 1700000001000 + Z.of_nat n)%Z 0
          true (fun n => "uuid-" +:+ pretty n) 0 tz true demo_protocol.

Definition demo_world : World :=
  demo_world_at {[ StorageManager.TASKS := VArr demo_tasks ]} 0.

(** The store with the second task only. *)
Definition demo_world_t2 : World :=
  demo_world_at {[ StorageManager.TASKS := VArr [demo_task "t2" "Call the bank" []] ]} 0.

(** [{ id: "other", subtasks: [], title: "Buy oat milk" }] *)
Definition demo_patch : value :=
  VObj (<["id" := VStr "other"]>
       (<["subtasks" := VArr []]>
       (<["title" := VStr "Buy oat milk"]> ∅))).

Definition demo_videos : list value :=
  [new_video (VStr "v1") (VStr "abc12345678") 1700000000000].

Definition demo_video_world : World :=
  demo_world_at {[ "youtubeVideos" := VArr demo_videos ]} 0.

(** The walk through the task life cycle: create a task, add a subtask,
    mark it complete, delete the task, look the task up.  The result lists
    what each step shows. *)
Definition life_cycle : JS (list value) :=
  task ← TaskManager.createTask (VObj {[ "title" := VStr "Buy milk" ]});
  id ← lift (get_prop task "id");
  complete0 ← lift (get_prop task "isComplete");
  subtasks0 ← lift (get_prop task "subtasks");
  subtask ← TaskManager.addSubtask id (VObj {[ "title" := VStr "2%" ]});
  subId ← lift (get_prop subtask "id");
  parent ← TaskManager.getTaskById id;
  subtasks1 ← lift (get_prop parent "subtasks" ≫= as_array);
  stamp0 ← lift (get_prop task "updatedAt");
  stamp1 ← lift (get_prop parent "updatedAt");
  marked_subtask ← TaskManager.markSubtaskStatus id subId (VBool true);
  complete1 ← lift (get_prop marked_subtask "isComplete");
  deleted ← TaskManager.deleteTask id;
  found ← TaskManager.getTaskById id;
  mret [complete0; subtasks0; VNum (Z.of_nat (length subtasks1));
        VBool (negb (strict_eq stamp0 stamp1)); complete1; deleted; found].

(** ** The rest of the task operations *)

(** The object literal of [addSubtask]. *)
Definition new_subtask (title : value) (now : Z) (id : value) : gmap string value :=
  <["id" := id]>
    (<["title" := title]>
    (<["isComplete" := VBool false]>
    (<["createdAt" := VNum now]>
    (<["updatedAt" := VNum now]> ∅)))).

(** [v.title] is truthy; reading it from [undefined] or [null] throws. *)
Definition has_title (v : value) : bool :=
  match get_prop v "title" with
  | Return t => truthy t
  | Throw _ => false
  end.

(** What the input checks of [createTask] and [addSubtask] ask of the
    data object. *)
Definition titled_object (v : value) : bool :=
  truthy v && String.eqb (typeof v) "object" && has_title v.

Definition is_boolean (v : value) : bool := String.eqb (typeof v) "boolean".

(** A run that ends in an [InvalidInputError], and one that does so in the
    world it started from. *)
Definition raises_invalid_input {A} (run : completion A * World) : Prop :=
  exists message w', run = (Throw (InvalidInputError message), w').

Definition refuses {A} (run : completion A * World) (w : World) : Prop :=
  exists message, run = (Throw (InvalidInputError message), w).

(** A run from [w] that changes nothing in the storage area outside [key],
    and nothing at all when it throws. *)
Definition confined_to (key : string) (w : World) {A} (run : completion A * World) : Prop :=
  (forall k, k <> key -> local (snd run) !! k = local w !! k)
  /\ (forall e, fst run = Throw e -> local (snd run) = local w).

(** The two ways a task operation fails on the storage area. *)
Definition retrieval_fails {A} (run : completion A * World) (w : World) : Prop :=
  run = (Throw (StorageError "Failed to retrieve tasks due to storage error." BackendError), w).

Definition save_failed {A} (r : completion A) : Prop :=
  r = Throw (StorageError "Failed to save tasks due to storage error." BackendError).

(** The concrete world with a storage area that rejects every [get], and
    the one with a storage area that rejects every [set]. *)
Definition demo_world_offline : World :=
  mkWorld {[ StorageManager.TASKS := VArr demo_tasks ]} true false []
          (fun n => 1700000001000 + Z.of_nat n)%Z 0
          true (fun n => "uuid-" +:+ pretty n) 0 0 true demo_protocol.

Definition demo_world_full : World :=
  mkWorld {[ StorageManager.TASKS := VArr demo_tasks ]} false true []
          (fun n => 1700000001000 + Z.of_nat n)%Z 0
          true (fun n => "uuid-" +:+ pretty n) 0 0 true demo_protocol.


Definition demo_world_set_back : World :=
  mkWorld {[ StorageManager.TASKS := VArr demo_tasks ]} false false []
          (fun n => 1600000000000 + Z.of_nat n)%Z 0
          true (fun n => "uuid-" +:+ pretty n) 0 0 true demo_protocol.

(** ** Strings over a class of characters *)

(** Every character of [s] is in the class [p]. *)
Fixpoint every (p : ascii -> bool) (s : string) : bool :=
  match s with
  | String c s' => p c && every p s'
  | EmptyString => true
  end.

(** [r] is empty or starts with a character an identifier may hold. *)
Definition id_headed (r : string) : Prop :=
  match r with
  | String c _ => YoutubeManager.id_char c = true
  | EmptyString => True
  end.

(** ** Calendar dates *)

(** The value of a decimal digit. *)
Definition digit_of (c : ascii) : Z := (Z.of_nat (code c) - 48)%Z.

(** The text YYYY-MM-DD with the given characters for its digits. *)
Definition date_text (y1 y2 y3 y4 m1 m2 d1 d2 : ascii) : string :=
  String y1 (String y2 (String y3 (String y4 (String "-"
    (String m1 (String m2 (String "-" (String d1 (String d2 EmptyString))))))))).

(** [s] is of the form YYYY-MM-DD and names a day of the proleptic
    Gregorian calendar: a month from 01 to 12 and a day from 01 to the
    length of that month in that year. *)
Definition calendar_date (s : string) : bool :=
  let y := digits_value (substring 0 4 s) 0 in
  let m := digits_value (substring 5 2 s) 0 in
  let d := digits_value (substring 8 2 s) 0 in
  (test_anchored dateFormatRegex s
   && (1 <=? m) && (m <=? 12) && (1 <=? d) && (d <=? days_in_month y m))%Z.

(** The date that day [d] of month [m] falls on when the days past the
    end of the month are carried into the next one. *)
Definition carried (y m d : Z) : Z * Z * Z :=
  if (d <=? days_in_month y m)%Z then (y, m, d)
  else (y, m + 1, d - days_in_month y m)%Z.

Definition same_date (a b : Z * Z * Z) : bool :=
  let '(y1, m1, d1) := a in
  let '(y2, m2, d2) := b in
  ((y1 =? y2) && (m1 =? m2) && (d1 =? d2))%Z.

(** [P] holds of 0, 1, ..., [n - 1]. *)
Fixpoint below (n : nat) (P : Z -> bool) : bool :=
  match n with
  | O => true
  | S k => P (Z.of_nat k) && below k P
  end.

Definition is_array (v : value) : bool :=
  match v with
  | VArr _ => true
  | _ => false
  end.

(** ** Installation *)


(** What [handleInstalled] stores under ['settings']. *)
Definition installed_settings : value :=
  VObj (<["theme" := VStr "light"]>
       (<["defaultView" := VStr "tasks"]>
       (<["notificationsEnabled" := VBool true]> ∅))).

(** Three stored notes, two of which share an identifier. *)
Definition demo_note (id body : string) : value :=
  VObj (<["id" := VStr id]>
       (<["body" := VStr body]>
       (<["createdAt" := VNum 1700000000000]>
       (<["updatedAt" := VNum 1700000000000]> ∅)))).

Definition demo_notes : list value :=
  [demo_note "n1" "first"; demo_note "n2" "second"; demo_note "n1" "third"].

Definition demo_note_world : World :=
  demo_world_at {[ StorageManager.NOTES := VArr demo_notes ]} 0.

(** ** Entries made by the popup *)

(** The object literal of [handleTaskFormSubmit]. *)
Definition popup_task (content : string) (now : Z) (id : value) : gmap string value :=
  <["id" := id]>
    (<["content" := VStr content]>
    (<["completed" := VBool false]>
    (<["timestamp" := VNum now]> ∅))).

Definition is_element (element : YoutubeManager.target) : bool :=
  match element with
  | YoutubeManager.HTMLElement _ => true
  | YoutubeManager.NotAnElement _ => false
  end.

(** The iframe that [renderVideoEmbed] builds for an identifier. *)
Definition embed_frame (id : string) : YoutubeManager.node :=
  YoutubeManager.Iframe
    [("src", VStr ("https://www.youtube.com/embed/" +:+ id));
     ("frameborder", VStr "0");
     ("allow", VStr "accelerometer; clipboard-write; encrypted-media; gyroscope; picture-in-picture; web-share");
     ("allowfullscreen", VStr "true");
     ("title", VStr ("YouTube video player for ID: " +:+ id));
     ("loading", VStr "lazy")]
    [("width", "100%"); ("height", "100%"); ("border", "none")].

(** * Properties *)

(** ** Running the monad *)

Ltac js_unfold :=
  unfold mbind, mret, JS_bind, JS_ret, completion_bind, completion_ret,
         cbind, lift, throw, try_catch in *.

(** ** The embedding on concrete inputs *)

Example extractVideoId_forms :
  map YoutubeManager.extractVideoId
      [VStr "https://youtu.be/abc12345678";
       VStr "https://www.youtube.com/watch?v=abc12345678";
       VStr "https://www.youtube.com/watch?list=PL1&v=abc12345678&t=3";
       VStr "https://www.youtube.com/embed/abc12345678";
       VStr "https://www.youtube.com/shorts/abc12345678";
       VStr "https://example.com/watch?v=abc12345678";
       VStr "https://youtu.be/short";
       VStr "";
       VNum 7]
  = [VStr "abc12345678"; VStr "abc12345678"; VStr "abc12345678"; VStr "abc12345678";
     VStr "abc12345678"; VNull; VNull; VNull; VNull].
Proof. vm_compute. reflexivity. Qed.

Example civil_dates :
  days_from_civil 1970 1 1 = 0%Z
  /\ days_from_civil 2023 2 28 = 19416%Z
  /\ civil_from_days 19416 = (2023, 2, 28)%Z
  /\ civil_from_days (-1) = (1969, 12, 31)%Z
  /\ civil_from_days (days_from_civil 2024 2 29) = (2024, 2, 29)%Z
  /\ MakeDay 2023 2 30 = days_from_civil 2023 3 2.
Proof. vm_compute. repeat split; reflexivity. Qed.

Example isValidDate_in_UTC :
  map (isValidDate (demo_world_at ∅ 0))
      [VStr "2023-02-28"; VStr "2023-02-30"; VStr "2024-02-29"; VStr "2023-13-01";
       VStr "2023-2-28"; VStr "2023-02-28 "; VStr ""; VNull]
  = [true; false; true; false; false; false; false; false].
Proof. vm_compute. reflexivity. Qed.

Example toString36_values :
  toString36 0 = "0" /\ toString36 35 = "z" /\ toString36 36 = "10"
  /\ toString36 1700000000000 = "loyw3v28".
Proof. vm_compute. repeat split; reflexivity. Qed.

Example trim_values : trim "  a b  " = "a b" /\ trim "   " = "" /\ trim "" = "".
Proof. vm_compute. repeat split; reflexivity. Qed.

(** ** The storage layer *)

Lemma getItem_available key d w :
  unavailable w = false ->
  StorageManager.getItem key d w =
    (Return (let r := default VUndefined (local w !! key) in
             if strict_eq r VUndefined then d else r), w).
Proof.
  intros Hav. unfold StorageManager.getItem, chrome_storage_local_get. js_unfold.
  rewrite Hav. destruct (local w !! key) as [v|] eqn:E; cbn.
  - rewrite lookup_singleton_eq. cbn. destruct (strict_eq v VUndefined); reflexivity.
  - rewrite lookup_empty. reflexivity.
Qed.

Lemma getItem_collection key l w :
  unavailable w = false -> collection key w = Some l ->
  StorageManager.getItem key (VArr []) w = (Return (VArr l), w).
Proof.
  intros Hav Hc. rewrite getItem_available by assumption.
  unfold collection in Hc. destruct (local w !! key) as [[]|]; cbn in *; congruence.
Qed.

Lemma _getTasks_collection l w :
  unavailable w = false -> collection StorageManager.TASKS w = Some l ->
  TaskManager._getTasks w = (Return (VArr l), w).
Proof.
  intros Hav Hc. unfold TaskManager._getTasks, StorageManager.getAllTasks, try_catch.
  rewrite (getItem_collection _ l) by assumption. reflexivity.
Qed.

Lemma _saveTasks_ok v w :
  quota_exceeded w = false ->
  TaskManager._saveTasks v w = (Return tt, saved StorageManager.TASKS v w).
Proof.
  intros Hq. unfold TaskManager._saveTasks, StorageManager.saveAllTasks,
    StorageManager.setItem, chrome_storage_local_set. js_unfold. rewrite Hq. reflexivity.
Qed.

(** ** Array searches over collections of objects *)

Lemma prop_is_object p k t :
  is_object t = true -> prop_is p k t = Return (carries p k t).
Proof. destruct t; try discriminate. reflexivity. Qed.

Lemma prop_is_not_object p k t :
  is_object t = true -> prop_is_not p k t = Return (negb (carries p k t)).
Proof. destruct t; try discriminate. reflexivity. Qed.

Lemma findIndex_objects p k l :
  forallb is_object l = true ->
  findIndex (prop_is p k) l = Return (first_carrier p k l).
Proof.
  induction l as [|t l IH]; cbn [forallb findIndex first_carrier]; [reflexivity|].
  intros [Ht Hl]%andb_prop. rewrite prop_is_object by assumption.
  cbn. destruct (carries p k t); [reflexivity|]. rewrite IH by assumption. reflexivity.
Qed.

Lemma first_carrier_None p k l :
  first_carrier p k l = None <-> existsb (carries p k) l = false.
Proof.
  induction l as [|t l IH]; cbn; [tauto|].
  destruct (carries p k t); cbn; [split; discriminate|].
  rewrite <- IH. destruct (first_carrier p k l); cbn; split; congruence.
Qed.

Lemma first_carrier_Some p k l i :
  first_carrier p k l = Some i ->
  exists t, l !! i = Some t /\ carries p k t = true
            /\ existsb (carries p k) (take i l) = false.
Proof.
  revert i. induction l as [|t l IH]; cbn; intros i; [discriminate|].
  destruct (carries p k t) eqn:E.
  - intros [= <-]. exists t. auto.
  - destruct (first_carrier p k l) as [j|]; cbn; [|discriminate].
    intros [= <-]. destruct (IH j eq_refl) as (t' & ? & ? & ?).
    exists t'. cbn. rewrite E. auto.
Qed.

Lemma find_objects p k l :
  forallb is_object l = true ->
  find (prop_is p k) l =
    Return (match first_carrier p k l with
            | Some i => default VUndefined (l !! i)
            | None => VUndefined
            end).
Proof.
  induction l as [|t l IH]; cbn [forallb find first_carrier]; [reflexivity|].
  intros [Ht Hl]%andb_prop. rewrite prop_is_object by assumption.
  cbn. destruct (carries p k t); [reflexivity|]. rewrite IH by assumption.
  destruct (first_carrier p k l); reflexivity.
Qed.

Lemma filter_arr_objects p k l :
  forallb is_object l = true ->
  filter_arr (prop_is_not p k) l = Return (List.filter (fun t => negb (carries p k t)) l).
Proof.
  induction l as [|t l IH]; cbn [forallb filter_arr List.filter]; [reflexivity|].
  intros [Ht Hl]%andb_prop. rewrite prop_is_not_object by assumption.
  cbn. rewrite IH by assumption. reflexivity.
Qed.

Lemma filter_none_carries p k l :
  existsb (carries p k) l = false ->
  List.filter (fun t => negb (carries p k t)) l = l.
Proof.
  induction l as [|t l IH]; cbn; [reflexivity|].
  intros [Ht Hl]%orb_false_elim. rewrite Ht. cbn. rewrite IH by assumption. reflexivity.
Qed.

Lemma filter_length_le {A} (f : A -> bool) l : length (List.filter f l) <= length l.
Proof. induction l as [|x l IH]; cbn; [lia|]. destruct (f x); cbn; lia. Qed.

Lemma filter_some_carries p k l :
  existsb (carries p k) l = true ->
  length (List.filter (fun t => negb (carries p k t)) l) < length l.
Proof.
  induction l as [|t l IH]; cbn; [discriminate|].
  destruct (carries p k t); cbn.
  - intros _. pose proof (filter_length_le (fun t => negb (carries p k t)) l). lia.
  - intros H. specialize (IH H). lia.
Qed.

(** ** A missing target *)

Lemma guard_update id newData :
  truthy id = true -> object_like newData = true ->
  negb (truthy id) || negb (String.eqb (typeof newData) "object") || strict_eq newData VNull
  = false.
Proof.
  unfold object_like. intros -> [-> Hn]%andb_prop.
  apply negb_true_iff in Hn. rewrite Hn. reflexivity.
Qed.

Section NotFound.

Variable w : World.
Variable arr : list value.
Hypothesis Hav : unavailable w = false.
Hypothesis Hcoll : collection StorageManager.TASKS w = Some arr.
Hypothesis Hobj : forallb is_object arr = true.

Lemma getTaskById_missing id :
  truthy id = true -> existsb (carries "id" id) arr = false ->
  TaskManager.getTaskById id w = (Return VNull, w).
Proof using Hav Hcoll Hobj.
  intros Hid Hno. unfold TaskManager.getTaskById. rewrite Hid. cbn [negb].
  js_unfold. rewrite (_getTasks_collection arr) by assumption. cbn.
  rewrite find_objects by assumption.
  apply first_carrier_None in Hno. rewrite Hno. reflexivity.
Qed.

Lemma updateTask_missing id newData :
  truthy id = true -> object_like newData = true ->
  existsb (carries "id" id) arr = false ->
  TaskManager.updateTask id newData w = (Return VNull, w).
Proof using Hav Hcoll Hobj.
  intros Hid Hnd Hno. unfold TaskManager.updateTask.
  rewrite guard_update by assumption.
  js_unfold. rewrite (_getTasks_collection arr) by assumption. cbn.
  rewrite findIndex_objects by assumption.
  apply first_carrier_None in Hno. rewrite Hno. reflexivity.
Qed.

Lemma deleteTask_missing id :
  truthy id = true -> existsb (carries "id" id) arr = false ->
  TaskManager.deleteTask id w = (Return (VBool false), w).
Proof using Hav Hcoll Hobj.
  intros Hid Hno. unfold TaskManager.deleteTask. rewrite Hid. cbn [negb].
  js_unfold. rewrite (_getTasks_collection arr) by assumption. cbn.
  rewrite filter_arr_objects by assumption.
  rewrite filter_none_carries by assumption.
  rewrite Nat.eqb_refl. reflexivity.
Qed.

Lemma deleteTask_present id :
  quota_exceeded w = false ->
  truthy id = true -> existsb (carries "id" id) arr = true ->
  TaskManager.deleteTask id w =
    (Return (VBool true),
     saved StorageManager.TASKS
           (VArr (List.filter (fun t => negb (carries "id" id t)) arr)) w).
Proof using Hav Hcoll Hobj.
  intros Hq Hid Hyes. unfold TaskManager.deleteTask. rewrite Hid. cbn [negb].
  js_unfold. rewrite (_getTasks_collection arr) by assumption. cbn.
  rewrite filter_arr_objects by assumption.
  pose proof (filter_some_carries _ _ _ Hyes) as Hlt.
  destruct (Nat.eqb_spec (length (List.filter (fun t => negb (carries "id" id t)) arr))
                         (length arr)) as [E|_]; [lia|].
  rewrite _saveTasks_ok by assumption. reflexivity.
Qed.

Lemma deleteSubtask_no_parent taskId subtaskId :
  truthy taskId = true -> truthy subtaskId = true ->
  existsb (carries "id" taskId) arr = false ->
  TaskManager.deleteSubtask taskId subtaskId w = (Return (VBool false), w).
Proof using Hav Hcoll Hobj.
  intros Ht Hs Hno. unfold TaskManager.deleteSubtask. rewrite Ht, Hs. cbn [negb orb].
  js_unfold. rewrite (_getTasks_collection arr) by assumption. cbn.
  rewrite findIndex_objects by assumption.
  apply first_carrier_None in Hno. rewrite Hno. reflexivity.
Qed.

Lemma deleteSubtask_no_subtask taskId subtaskId i m subs :
  truthy taskId = true -> truthy subtaskId = true ->
  first_carrier "id" taskId arr = Some i ->
  arr !! i = Some (VObj m) ->
  field m "subtasks" = VArr subs ->
  forallb is_object subs = true ->
  existsb (carries "id" subtaskId) subs = false ->
  TaskManager.deleteSubtask taskId subtaskId w = (Return (VBool false), w).
Proof using Hav Hcoll Hobj.
  intros Ht Hs Hi Hm Hsub Hsobj Hno.
  unfold TaskManager.deleteSubtask. rewrite Ht, Hs. cbn [negb orb].
  js_unfold. rewrite (_getTasks_collection arr) by assumption. cbn.
  rewrite findIndex_objects by assumption. rewrite Hi, Hm. cbn.
  fold (field m "subtasks"). rewrite Hsub. cbn.
  rewrite filter_arr_objects by assumption.
  rewrite filter_none_carries by assumption.
  rewrite Nat.eqb_refl. reflexivity.
Qed.

End NotFound.

(** ** Updating a task *)

Lemma collection_saved key l w :
  collection key (saved key (VArr l) w) = Some l.
Proof. unfold collection, saved. cbn. rewrite lookup_insert_eq. reflexivity. Qed.

Lemma updateTask_found w arr id newData i old :
  unavailable w = false -> quota_exceeded w = false ->
  collection StorageManager.TASKS w = Some arr ->
  forallb is_object arr = true ->
  truthy id = true -> object_like newData = true ->
  first_carrier "id" id arr = Some i ->
  arr !! i = Some (VObj old) ->
  TaskManager.updateTask id newData w =
    (Return (VObj (merged old newData (clock w (reads w)))),
     saved StorageManager.TASKS
           (VArr (<[i := VObj (merged old newData (clock w (reads w)))]> arr)) (tick w)).
Proof.
  intros Hav Hq Hcoll Hobj Hid Hnd Hi Hold. unfold TaskManager.updateTask.
  rewrite guard_update by assumption.
  js_unfold. rewrite (_getTasks_collection arr) by assumption. cbn.
  rewrite findIndex_objects by assumption. rewrite Hi, Hold. cbn.
  rewrite _saveTasks_ok by assumption. reflexivity.
Qed.

Lemma carrier_is_object p k (l : list value) i t :
  l !! i = Some t -> carries p k t = true -> exists m, t = VObj m.
Proof. intros _. destruct t; try discriminate. eauto. Qed.

(** C1: on a stored collection of task objects, [updateTask id newData]
    with an [id] carried by a stored task and any object [newData]
    (whatever [id], [subtasks] or [updatedAt] it supplies) returns a task
    whose [id] and [subtasks] are those of the first stored task carrying
    [id], whose [updatedAt] is the reading of the clock, and whose every
    other field is [newData]'s where [newData] has it and the stored
    task's otherwise; the collection kept afterwards is the old one with
    that task replaced by the returned one. *)
Theorem updateTask_preserves_id_and_subtasks
    (w : World) (arr : list value) (id newData : value) :
  unavailable w = false -> quota_exceeded w = false ->
  collection StorageManager.TASKS w = Some arr ->
  forallb is_object arr = true ->
  truthy id = true -> object_like newData = true ->
  existsb (carries "id" id) arr = true ->
  exists (i : nat) (old new : gmap string value) (w' : World),
    arr !! i = Some (VObj old)
    /\ strict_eq (field old "id") id = true
    /\ existsb (carries "id" id) (take i arr) = false
    /\ TaskManager.updateTask id newData w = (Return (VObj new), w')
    /\ field new "id" = field old "id"
    /\ field new "subtasks" = field old "subtasks"
    /\ field new "updatedAt" = VNum (clock w (reads w))
    /\ (forall p, p <> "id" -> p <> "subtasks" -> p <> "updatedAt" ->
        field new p = match own_props newData !! p with
                      | Some v => v
                      | None => field old p
                      end)
    /\ collection StorageManager.TASKS w' = Some (<[i := VObj new]> arr).
Proof.
  intros Hav Hq Hcoll Hobj Hid Hnd Hyes.
  destruct (first_carrier "id" id arr) as [i|] eqn:Hi.
  2: { apply first_carrier_None in Hi. congruence. }
  destruct (first_carrier_Some _ _ _ _ Hi) as (t & Hlook & Hcar & Hbefore).
  destruct (carrier_is_object _ _ _ _ _ Hlook Hcar) as [old ->].
  exists i, old, (merged old newData (clock w (reads w))). eexists.
  split; [exact Hlook|]. split; [exact Hcar|]. split; [exact Hbefore|].
  split; [apply (updateTask_found w arr id newData i old); assumption|].
  unfold merged, field.
  split; [rewrite lookup_insert_ne, lookup_insert_ne, lookup_insert_eq by discriminate;
          reflexivity|].
  split; [rewrite lookup_insert_ne, lookup_insert_eq by discriminate; reflexivity|].
  split; [rewrite lookup_insert_eq; reflexivity|].
  split.
  - intros p H1 H2 H3. rewrite !lookup_insert_ne by congruence.
    rewrite lookup_union. destruct (own_props newData !! p), (old !! p); reflexivity.
  - apply collection_saved.
Qed.

Lemma updateTask_preserves_id_and_subtasks_witness :
  exists (i : nat) (old new : gmap string value) (w' : World),
    demo_tasks !! i = Some (VObj old)
    /\ strict_eq (field old "id") (VStr "t1") = true
    /\ existsb (carries "id" (VStr "t1")) (take i demo_tasks) = false
    /\ TaskManager.updateTask (VStr "t1") demo_patch demo_world = (Return (VObj new), w')
    /\ field new "id" = field old "id"
    /\ field new "subtasks" = field old "subtasks"
    /\ field new "updatedAt" = VNum (clock demo_world (reads demo_world))
    /\ (forall p, p <> "id" -> p <> "subtasks" -> p <> "updatedAt" ->
        field new p = match own_props demo_patch !! p with
                      | Some v => v
                      | None => field old p
                      end)
    /\ collection StorageManager.TASKS w' = Some (<[i := VObj new]> demo_tasks).
Proof.
  apply (updateTask_preserves_id_and_subtasks demo_world demo_tasks (VStr "t1") demo_patch);
    reflexivity.
Defined.

(** C3: on a stored collection of task objects and for an [id] that no
    stored task carries, [getTaskById] returns [null], [updateTask] returns
    [null] and [deleteTask] returns [false], none of them throwing; and
    when exactly one stored task carries [id], [deleteTask] returns [true]
    and keeps the collection without that task. *)
Theorem not_found_is_not_an_error (w : World) (arr : list value) (id : value) :
  unavailable w = false ->
  collection StorageManager.TASKS w = Some arr ->
  forallb is_object arr = true ->
  truthy id = true ->
  (existsb (carries "id" id) arr = false ->
     TaskManager.getTaskById id w = (Return VNull, w)
     /\ (forall newData, object_like newData = true ->
         TaskManager.updateTask id newData w = (Return VNull, w))
     /\ TaskManager.deleteTask id w = (Return (VBool false), w))
  /\ (quota_exceeded w = false ->
      forall l1 t l2,
        arr = l1 ++ t :: l2 -> carries "id" id t = true ->
        existsb (carries "id" id) l1 = false -> existsb (carries "id" id) l2 = false ->
        fst (TaskManager.deleteTask id w) = Return (VBool true)
        /\ collection StorageManager.TASKS (snd (TaskManager.deleteTask id w))
           = Some (l1 ++ l2)).
Proof.
  intros Hav Hcoll Hobj Hid. split.
  - intros Hno. split; [|split].
    + apply (getTaskById_missing w arr); assumption.
    + intros newData Hnd. apply (updateTask_missing w arr); assumption.
    + apply (deleteTask_missing w arr); assumption.
  - intros Hq l1 t l2 -> Ht H1 H2.
    rewrite (deleteTask_present w (l1 ++ t :: l2)); try assumption.
    2: { rewrite existsb_app. cbn. rewrite Ht. apply orb_true_r. }
    cbn [fst snd]. split; [reflexivity|].
    rewrite collection_saved. f_equal.
    rewrite List.filter_app. cbn. rewrite Ht. cbn.
    rewrite !filter_none_carries by assumption. reflexivity.
Qed.

Lemma not_found_is_not_an_error_witness :
  (TaskManager.getTaskById (VStr "t1") demo_world_t2 = (Return VNull, demo_world_t2)
   /\ TaskManager.updateTask (VStr "t1") demo_patch demo_world_t2
      = (Return VNull, demo_world_t2)
   /\ TaskManager.deleteTask (VStr "t1") demo_world_t2
      = (Return (VBool false), demo_world_t2))
  /\ fst (TaskManager.deleteTask (VStr "t1") demo_world) = Return (VBool true)
  /\ collection StorageManager.TASKS (snd (TaskManager.deleteTask (VStr "t1") demo_world))
     = Some [demo_task "t2" "Call the bank" []].
Proof.
  split.
  - destruct (proj1 (not_found_is_not_an_error demo_world_t2
                       [demo_task "t2" "Call the bank" []] (VStr "t1")
                       eq_refl eq_refl eq_refl eq_refl) eq_refl)
      as (Hget & Hupd & Hdel).
    split; [exact Hget|]. split; [apply Hupd; reflexivity | exact Hdel].
  - apply (proj2 (not_found_is_not_an_error demo_world demo_tasks (VStr "t1")
                    eq_refl eq_refl eq_refl eq_refl)
                 eq_refl [] (demo_task "t1" "Buy milk" [demo_subtask])
                 [demo_task "t2" "Call the bank" []]); reflexivity.
Defined.

(** C6: while the storage area answers, [getItem] on a key that holds
    nothing returns the default it was given, and the collection accessors,
    which pass the empty array as that default, return the empty array. *)
Theorem loadAll_never_written (w : World) :
  unavailable w = false ->
  (forall key defaultValue, local w !! key = None ->
     StorageManager.getItem key defaultValue w = (Return defaultValue, w))
  /\ (local w !! StorageManager.TASKS = None ->
      StorageManager.getAllTasks w = (Return (VArr []), w)
      /\ TaskManager.getAllTasks w = (Return (VArr []), w))
  /\ (local w !! StorageManager.NOTES = None ->
      StorageManager.getAllNotes w = (Return (VArr []), w)).
Proof.
  intros Hav.
  assert (Hget : forall key d, local w !! key = None ->
                 StorageManager.getItem key d w = (Return d, w)).
  { intros key d Hnone. rewrite getItem_available by assumption.
    rewrite Hnone. reflexivity. }
  split; [exact Hget|]. split.
  - intros Hnone. split.
    + apply Hget, Hnone.
    + apply _getTasks_collection; [assumption|]. unfold collection. rewrite Hnone. reflexivity.
  - intros Hnone. apply Hget, Hnone.
Qed.

Lemma loadAll_never_written_witness :
  StorageManager.getItem "youtubeVideos" (VArr []) (demo_world_at ∅ 0)
    = (Return (VArr []), demo_world_at ∅ 0)
  /\ StorageManager.getAllTasks (demo_world_at ∅ 0) = (Return (VArr []), demo_world_at ∅ 0)
  /\ TaskManager.getAllTasks (demo_world_at ∅ 0) = (Return (VArr []), demo_world_at ∅ 0).
Proof.
  destruct (loadAll_never_written (demo_world_at ∅ 0) eq_refl) as (Hget & Htasks & _).
  split; [apply Hget; reflexivity|]. apply Htasks. reflexivity.
Defined.

(** C8: on a stored collection of task objects, when the target is
    missing the mutating operations give their negative result and leave
    the world as it was, the storage area and the log of [set] calls
    included: [updateTask] returns [null], [deleteTask] returns [false],
    and [deleteSubtask] returns [false] both when no task carries the
    parent id and when the parent has no subtask carrying the subtask id. *)
Theorem not_found_issues_no_write (w : World) (arr : list value) :
  unavailable w = false ->
  collection StorageManager.TASKS w = Some arr ->
  forallb is_object arr = true ->
  (forall id newData,
      truthy id = true -> object_like newData = true ->
      existsb (carries "id" id) arr = false ->
      TaskManager.updateTask id newData w = (Return VNull, w))
  /\ (forall id,
      truthy id = true -> existsb (carries "id" id) arr = false ->
      TaskManager.deleteTask id w = (Return (VBool false), w))
  /\ (forall taskId subtaskId,
      truthy taskId = true -> truthy subtaskId = true ->
      existsb (carries "id" taskId) arr = false ->
      TaskManager.deleteSubtask taskId subtaskId w = (Return (VBool false), w))
  /\ (forall taskId subtaskId i parent subs,
      truthy taskId = true -> truthy subtaskId = true ->
      first_carrier "id" taskId arr = Some i ->
      arr !! i = Some (VObj parent) ->
      field parent "subtasks" = VArr subs ->
      forallb is_object subs = true ->
      existsb (carries "id" subtaskId) subs = false ->
      TaskManager.deleteSubtask taskId subtaskId w = (Return (VBool false), w)).
Proof.
  intros Hav Hcoll Hobj. repeat split.
  - intros. apply (updateTask_missing w arr); assumption.
  - intros. apply (deleteTask_missing w arr); assumption.
  - intros. apply (deleteSubtask_no_parent w arr); assumption.
  - intros. eapply (deleteSubtask_no_subtask w arr); eassumption.
Qed.

Lemma not_found_issues_no_write_witness :
  TaskManager.updateTask (VStr "t9") demo_patch demo_world = (Return VNull, demo_world)
  /\ TaskManager.deleteTask (VStr "t9") demo_world = (Return (VBool false), demo_world)
  /\ TaskManager.deleteSubtask (VStr "t9") (VStr "s1") demo_world
     = (Return (VBool false), demo_world)
  /\ TaskManager.deleteSubtask (VStr "t1") (VStr "s9") demo_world
     = (Return (VBool false), demo_world).
Proof.
  destruct (not_found_issues_no_write demo_world demo_tasks eq_refl eq_refl eq_refl)
    as (Hupd & Hdel & Hparent & Hsub).
  split; [apply Hupd; reflexivity|].
  split; [apply Hdel; reflexivity|].
  split; [apply Hparent; reflexivity|].
  eapply (Hsub (VStr "t1") (VStr "s9") 0); reflexivity.
Defined.

(** ** Creating a task *)

Lemma _generateUniqueId_run w :
  TaskManager._generateUniqueId w = (Return (generated w), after_generate w).
Proof.
  unfold TaskManager._generateUniqueId, generated, after_generate.
  destruct (secure_random w) eqn:E; reflexivity.
Qed.

Lemma createTask_rejects w taskData :
  truthy (field taskData "title") = false ->
  exists message,
    TaskManager.createTask (VObj taskData) w = (Throw (InvalidInputError message), w).
Proof.
  intros Ht. unfold TaskManager.createTask. cbn. js_unfold. cbn.
  fold (field taskData "title"). rewrite Ht. cbn. eexists. reflexivity.
Qed.

Lemma createTask_accepts w taskData arr :
  truthy (field taskData "title") = true ->
  unavailable w = false -> quota_exceeded w = false ->
  collection StorageManager.TASKS w = Some arr ->
  TaskManager.createTask (VObj taskData) w =
    (Return (VObj (new_task taskData (clock w (reads w)) (generated (tick w)))),
     saved StorageManager.TASKS
       (VArr (arr ++ [VObj (new_task taskData (clock w (reads w)) (generated (tick w)))]))
       (after_generate (tick w))).
Proof.
  intros Ht Hav Hq Hcoll. unfold TaskManager.createTask. cbn. js_unfold. cbn.
  fold (field taskData "title"). rewrite Ht. cbn.
  rewrite (_getTasks_collection arr) by assumption. cbn.
  rewrite _generateUniqueId_run. cbn.
  rewrite _saveTasks_ok.
  2: { unfold after_generate. destruct (secure_random (tick w)); exact Hq. }
  reflexivity.
Qed.






(** ** Marking a subtask *)

Lemma markSubtaskStatus_found w arr taskId subtaskId b i parent subs j sub :
  unavailable w = false -> quota_exceeded w = false ->
  collection StorageManager.TASKS w = Some arr ->
  forallb is_object arr = true ->
  truthy taskId = true -> truthy subtaskId = true ->
  first_carrier "id" taskId arr = Some i ->
  arr !! i = Some (VObj parent) ->
  field parent "subtasks" = VArr subs ->
  forallb is_object subs = true ->
  first_carrier "id" subtaskId subs = Some j ->
  subs !! j = Some (VObj sub) ->
  let sub' := marked sub (VBool b) (clock w (reads w)) in
  let parent' := touched parent (<[j := VObj sub']> subs) (clock w (S (reads w))) in
  TaskManager.markSubtaskStatus taskId subtaskId (VBool b) w =
    (Return (VObj sub'),
     saved StorageManager.TASKS (VArr (<[i := VObj parent']> arr)) (tick (tick w))).
Proof.
  intros Hav Hq Hcoll Hobj Ht Hs Hi Hparent Hsubs Hsobj Hj Hsub sub' parent'.
  unfold TaskManager.markSubtaskStatus. rewrite Ht, Hs.
  replace (String.eqb (typeof (VBool b)) "boolean") with true by reflexivity.
  cbn [negb orb]. js_unfold. rewrite (_getTasks_collection arr) by assumption. cbn.
  rewrite findIndex_objects by assumption. rewrite Hi, Hparent. cbn.
  fold (field parent "subtasks"). rewrite Hsubs. cbn.
  rewrite findIndex_objects by assumption. rewrite Hj, Hsub. cbn.
  rewrite _saveTasks_ok by assumption. reflexivity.
Qed.

(** C4, as the code has it: for a stored task (the first carrying
    [taskId]) with a subtask (the first carrying [subtaskId]),
    [markSubtaskStatus] sets the subtask's [isComplete], stamps the subtask
    with one reading of the clock and the parent with the next, keeps the
    collection with the parent so updated and returns the updated subtask.
    The readings are stored as they are, compared with nothing: a new stamp
    is at or after the prior one exactly when the clock reads so. *)
Theorem markSubtaskStatus_stamps
    (w : World) (arr : list value) (taskId subtaskId : value) (b : bool)
    (i j : nat) (parent sub : gmap string value) (subs : list value)
    (prior_sub prior_parent : Z) :
  unavailable w = false -> quota_exceeded w = false ->
  collection StorageManager.TASKS w = Some arr ->
  forallb is_object arr = true ->
  truthy taskId = true -> truthy subtaskId = true ->
  first_carrier "id" taskId arr = Some i ->
  arr !! i = Some (VObj parent) ->
  field parent "subtasks" = VArr subs ->
  forallb is_object subs = true ->
  first_carrier "id" subtaskId subs = Some j ->
  subs !! j = Some (VObj sub) ->
  field sub "updatedAt" = VNum prior_sub ->
  field parent "updatedAt" = VNum prior_parent ->
  exists (sub' parent' : gmap string value) (w' : World) (stamp_sub stamp_parent : Z),
    TaskManager.markSubtaskStatus taskId subtaskId (VBool b) w = (Return (VObj sub'), w')
    /\ field sub' "isComplete" = VBool b
    /\ field sub' "updatedAt" = VNum stamp_sub
    /\ stamp_sub = clock w (reads w)
    /\ ((prior_sub <= stamp_sub)%Z <-> (prior_sub <= clock w (reads w))%Z)
    /\ (forall p, p <> "isComplete" -> p <> "updatedAt" -> field sub' p = field sub p)
    /\ collection StorageManager.TASKS w' = Some (<[i := VObj parent']> arr)
    /\ field parent' "subtasks" = VArr (<[j := VObj sub']> subs)
    /\ field parent' "updatedAt" = VNum stamp_parent
    /\ stamp_parent = clock w (S (reads w))
    /\ ((prior_parent <= stamp_parent)%Z <-> (prior_parent <= clock w (S (reads w)))%Z)
    /\ (forall p, p <> "subtasks" -> p <> "updatedAt" -> field parent' p = field parent p).
Proof.
  intros Hav Hq Hcoll Hobj Ht Hs Hi Hparent Hsubs Hsobj Hj Hsub Hps Hpp.
  exists (marked sub (VBool b) (clock w (reads w))).
  exists (touched parent (<[j := VObj (marked sub (VBool b) (clock w (reads w)))]> subs)
                  (clock w (S (reads w)))).
  eexists. exists (clock w (reads w)), (clock w (S (reads w))).
  split; [eapply markSubtaskStatus_found; eassumption|].
  unfold marked, touched, field.
  split; [rewrite lookup_insert_ne, lookup_insert_eq by discriminate; reflexivity|].
  split; [rewrite lookup_insert_eq; reflexivity|].
  split; [reflexivity|].
  split; [reflexivity|].
  split; [intros p H1 H2; rewrite !lookup_insert_ne by congruence; reflexivity|].
  split; [apply collection_saved|].
  split; [rewrite lookup_insert_ne, lookup_insert_eq by discriminate; reflexivity|].
  split; [rewrite lookup_insert_eq; reflexivity|].
  split; [reflexivity|].
  split; [reflexivity|].
  intros p H1 H2. rewrite !lookup_insert_ne by congruence. reflexivity.
Qed.

Lemma markSubtaskStatus_stamps_witness :
  exists (sub' parent' : gmap string value) (w' : World) (stamp_sub stamp_parent : Z),
    TaskManager.markSubtaskStatus (VStr "t1") (VStr "s1") (VBool true) demo_world
    = (Return (VObj sub'), w')
    /\ field sub' "isComplete" = VBool true
    /\ field sub' "updatedAt" = VNum stamp_sub
    /\ stamp_sub = clock demo_world (reads demo_world)
    /\ ((1700000000100 <= stamp_sub)%Z
        <-> (1700000000100 <= clock demo_world (reads demo_world))%Z)
    /\ (forall p, p <> "isComplete" -> p <> "updatedAt" ->
        field sub' p = field (own_props demo_subtask) p)
    /\ collection StorageManager.TASKS w' = Some (<[0 := VObj parent']> demo_tasks)
    /\ field parent' "subtasks" = VArr (<[0 := VObj sub']> [demo_subtask])
    /\ field parent' "updatedAt" = VNum stamp_parent
    /\ stamp_parent = clock demo_world (S (reads demo_world))
    /\ ((1700000000100 <= stamp_parent)%Z
        <-> (1700000000100 <= clock demo_world (S (reads demo_world)))%Z)
    /\ (forall p, p <> "subtasks" -> p <> "updatedAt" ->
        field parent' p = field (own_props (demo_task "t1" "Buy milk" [demo_subtask])) p).
Proof.
  apply (markSubtaskStatus_stamps demo_world demo_tasks (VStr "t1") (VStr "s1") true
           0 0 (own_props (demo_task "t1" "Buy milk" [demo_subtask]))
           (own_props demo_subtask) [demo_subtask] 1700000000100 1700000000100);
    reflexivity.
Defined.

(** The claim as the specification words it fails where the wall clock has
    been set back: the subtask stamped 1700000000100 and its parent come
    out of the call with earlier stamps. *)
Lemma markSubtaskStatus_stamp_goes_back :
  exists (sub' parent' : gmap string value) (w' : World),
    TaskManager.markSubtaskStatus (VStr "t1") (VStr "s1") (VBool true) demo_world_set_back
    = (Return (VObj sub'), w')
    /\ field (own_props demo_subtask) "updatedAt" = VNum 1700000000100
    /\ field sub' "updatedAt" = VNum 1600000000000
    /\ collection StorageManager.TASKS w' = Some (<[0 := VObj parent']> demo_tasks)
    /\ field (own_props (demo_task "t1" "Buy milk" [demo_subtask])) "updatedAt"
       = VNum 1700000000100
    /\ field parent' "updatedAt" = VNum 1600000000001
    /\ (1600000000001 < 1700000000100)%Z.
Proof.
  eexists. eexists. eexists.
  split.
  { apply (markSubtaskStatus_found demo_world_set_back demo_tasks (VStr "t1") (VStr "s1") true
             0 (own_props (demo_task "t1" "Buy milk" [demo_subtask])) [demo_subtask]
             0 (own_props demo_subtask)); reflexivity. }
  split; [reflexivity|]. split; [reflexivity|].
  split; [apply collection_saved|].
  split; [reflexivity|]. split; [reflexivity|]. reflexivity.
Qed.

(** ** Video identifiers *)

Lemma capture_shape n p s g rest :
  capture n p s = Some (g, rest) ->
  String.length g = n /\ forallb p (list_ascii_of_string g) = true.
Proof.
  revert s g rest. induction n as [|n IH]; cbn; intros s g rest.
  - intros [= <- <-]. auto.
  - destruct s as [|c s]; [discriminate|].
    destruct (p c) eqn:Hc; [|discriminate].
    destruct (capture n p s) as [[g' rest']|] eqn:E; [|discriminate].
    intros [= <- <-]. destruct (IH _ _ _ E) as [Hlen Hall].
    cbn. rewrite Hlen, Hc, Hall. auto.
Qed.

Lemma head_omap_Some {A B} (f : A -> option B) (l : list A) (b : B) :
  head (omap f l) = Some b -> exists a, a ∈ l /\ f a = Some b.
Proof.
  induction l as [|a l IH]; cbn; [discriminate|].
  destruct (f a) as [b'|] eqn:E; cbn.
  - intros [= <-]. exists a. split; [left | assumption].
  - intros H. destruct (IH H) as (a' & Hin & Hf). exists a'. split; [right|]; assumption.
Qed.

Lemma match_here_shape s g :
  YoutubeManager.match_here s = Some g -> is_video_id g = true.
Proof.
  unfold YoutubeManager.match_here. intros H.
  apply head_omap_Some in H as (rest & _ & Hcap).
  destruct (capture 11 YoutubeManager.id_char rest) as [[g' rest']|] eqn:E; [|discriminate].
  cbn in Hcap. injection Hcap as <-.
  destruct (capture_shape _ _ _ _ _ E) as [Hlen Hall].
  unfold is_video_id. rewrite Hlen, Hall. reflexivity.
Qed.

Lemma search_shape s g :
  YoutubeManager.search s = Some g -> is_video_id g = true.
Proof.
  induction s as [|c s IH]; cbn [YoutubeManager.search].
  - destruct (YoutubeManager.match_here "") eqn:E; [|discriminate].
    intros [= <-]. eapply match_here_shape, E.
  - destruct (YoutubeManager.match_here (String c s)) eqn:E.
    + intros [= <-]. eapply match_here_shape, E.
    + exact IH.
Qed.

Lemma extractVideoId_cases url :
  YoutubeManager.extractVideoId url = VNull
  \/ exists s, YoutubeManager.extractVideoId url = VStr s /\ is_video_id s = true.
Proof.
  destruct url; cbn; auto.
  destruct s as [|c s']; cbn [truthy negb]; auto.
  destruct (YoutubeManager.search (String c s')) as [g|] eqn:E; auto.
  right. exists g. split; [reflexivity|]. eapply search_shape, E.
Qed.

(** C9: for every input, [extractVideoId] returns [null] or a string of
    exactly eleven characters of [[A-Za-z0-9_-]]; and whenever it is not
    [null], [getEmbedUrl] of it is the embed URL of that identifier, not
    [null]. *)
Theorem extractVideoId_shape (url : value) :
  (YoutubeManager.extractVideoId url = VNull
   \/ exists s, YoutubeManager.extractVideoId url = VStr s
                /\ String.length s = 11
                /\ forallb YoutubeManager.id_char (list_ascii_of_string s) = true)
  /\ (YoutubeManager.extractVideoId url <> VNull ->
      exists s, YoutubeManager.extractVideoId url = VStr s
                /\ YoutubeManager.getEmbedUrl (YoutubeManager.extractVideoId url)
                   = VStr ("https://www.youtube.com/embed/" +:+ s)).
Proof.
  destruct (extractVideoId_cases url) as [Hnull | (s & Hs & Hid)].
  - split; [left; assumption | congruence].
  - unfold is_video_id in Hid. apply andb_prop in Hid as [Hlen Hall].
    apply Nat.eqb_eq in Hlen. split.
    + right. exists s. auto.
    + intros _. exists s. split; [assumption|].
      rewrite Hs. cbn. rewrite Hlen. reflexivity.
Qed.

Lemma extractVideoId_shape_witness :
  exists s, YoutubeManager.extractVideoId (VStr "https://youtu.be/abc12345678") = VStr s
            /\ YoutubeManager.getEmbedUrl
                 (YoutubeManager.extractVideoId (VStr "https://youtu.be/abc12345678"))
               = VStr ("https://www.youtube.com/embed/" +:+ s).
Proof.
  apply (proj2 (extractVideoId_shape (VStr "https://youtu.be/abc12345678"))).
  vm_compute. discriminate.
Defined.

(** ** Adding a video reference *)

Lemma some_objects p k l :
  forallb is_object l = true ->
  some (prop_is p k) l = Return (existsb (carries p k) l).
Proof.
  induction l as [|t l IH]; cbn [forallb some existsb]; [reflexivity|].
  intros [Ht Hl]%andb_prop. rewrite prop_is_object by assumption.
  cbn. destruct (carries p k t); [reflexivity|]. apply IH, Hl.
Qed.

Lemma video_refs_are_objects refs :
  forallb is_video_ref refs = true -> forallb is_object refs = true.
Proof.
  induction refs as [|v refs IH]; cbn; [reflexivity|].
  intros [Hv Hr]%andb_prop. rewrite IH by assumption.
  destruct v; try discriminate. reflexivity.
Qed.

Lemma carries_videoId refs vid :
  forallb is_video_ref refs = true ->
  existsb (carries "videoId" (VStr vid)) refs = true <-> In vid (map videoId_of refs).
Proof.
  induction refs as [|v refs IH]; cbn; [intros _; split; [discriminate | tauto]|].
  intros [Hv Hr]%andb_prop. rewrite orb_true_iff, (IH Hr).
  destruct v as [| | | | | |m]; try discriminate. cbn in *.
  destruct (field m "videoId") as [| | | |s| |]; try discriminate. cbn.
  rewrite String.eqb_eq. tauto.
Qed.

Lemma new_video_ref id vid now :
  is_video_ref (new_video id (VStr vid) now) = true
  /\ videoId_of (new_video id (VStr vid) now) = vid.
Proof.
  unfold is_video_ref, videoId_of, new_video, field.
  rewrite lookup_insert_ne, lookup_insert_eq by discriminate. auto.
Qed.

Lemma handleYoutubeEmbed_run key input w refs :
  local w !! key = Some (VArr refs) ->
  forallb is_object refs = true ->
  PopupManager.handleYoutubeEmbed key input w =
    let youtubeUrl := VStr (trim input) in
    let videoId := YoutubeManager.extractVideoId youtubeUrl in
    let added := VArr (refs ++ [new_video (VStr (entropy w (draws w))) videoId
                                          (clock w (reads w))]) in
    if negb (truthy (isValidUrl w youtubeUrl)) then (Return (Some invalidYoutubeUrl), w)
    else if negb (truthy videoId) then (Return (Some invalidYoutubeUrlSpecific), w)
    else if unavailable w then (Return (Some embedVideoFailed), w)
    else if existsb (carries "videoId" videoId) refs
         then (Return (Some videoAlreadyEmbedded), w)
    else if negb (secure_random w) then (Return (Some embedVideoFailed), w)
    else if quota_exceeded w
         then (Return (Some embedVideoFailed),
               with_local (local w) ((key, added) :: writes w) (tick (drawn w)))
    else (Return None, saved key added (tick (drawn w))).
Proof.
  intros Hstore Hobj. unfold PopupManager.handleYoutubeEmbed. cbv zeta.
  destruct (negb (truthy (isValidUrl w (VStr (trim input))))); [reflexivity|].
  destruct (negb (truthy (YoutubeManager.extractVideoId (VStr (trim input)))));
    [reflexivity|].
  unfold StorageManager.getItem, chrome_storage_local_get,
    PopupManager.generateUniqueId, StorageManager.setItem, chrome_storage_local_set,
    Date_now, draw.
  js_unfold.
  destruct (unavailable w) eqn:Hav; [reflexivity|].
  rewrite Hstore. rewrite lookup_singleton_eq. cbn.
  rewrite some_objects by assumption.
  destruct (existsb _ refs); [reflexivity|].
  destruct (secure_random w) eqn:Hsec; cbn; [|reflexivity].
  destruct (quota_exceeded w) eqn:Hq; reflexivity.
Qed.

(** C5: on a stored collection of VideoRefs with pairwise distinct
    [videoId]s, an input whose extracted identifier is the [videoId] of a
    stored ref is turned down with an alert (the duplicate alert when the
    URL passes validation and the storage area answers) and the world, the
    collection with it, stays as it was; every run of the handler, on any
    input, leaves a collection that still has pairwise distinct [videoId]s,
    either the old one or the old one with one ref added; and the
    short-link and the watch form of one video extract the same
    identifier. *)
Theorem duplicate_video_rejected (key : string) (w : World) (refs : list value) :
  local w !! key = Some (VArr refs) ->
  distinct_videos refs ->
  (forall input vid,
      YoutubeManager.extractVideoId (VStr (trim input)) = VStr vid ->
      In vid (map videoId_of refs) ->
      exists a,
        PopupManager.handleYoutubeEmbed key input w = (Return (Some a), w)
        /\ (truthy (isValidUrl w (VStr (trim input))) = true -> unavailable w = false ->
            a = videoAlreadyEmbedded))
  /\ (forall input,
      exists refs',
        local (snd (PopupManager.handleYoutubeEmbed key input w)) !! key = Some (VArr refs')
        /\ distinct_videos refs'
        /\ (refs' = refs \/ exists ref, refs' = refs ++ [ref]))
  /\ YoutubeManager.extractVideoId (VStr "https://youtu.be/abc12345678")
     = VStr "abc12345678"
  /\ YoutubeManager.extractVideoId (VStr "https://www.youtube.com/watch?v=abc12345678")
     = VStr "abc12345678".
Proof.
  intros Hstore [Hrefs Hdistinct].
  pose proof (video_refs_are_objects _ Hrefs) as Hobj.
  split; [|split; [|split; vm_compute; reflexivity]].
  - intros input vid Hvid Hin.
    rewrite (handleYoutubeEmbed_run key input w refs) by assumption. cbv zeta.
    rewrite Hvid.
    apply (carries_videoId refs vid Hrefs) in Hin. rewrite Hin.
    assert (Htruthy : truthy (VStr vid) = true).
    { destruct (extractVideoId_cases (VStr (trim input))) as [E | (s & E & Hs)];
        [congruence|].
      rewrite Hvid in E. injection E as ->. destruct s; [discriminate | reflexivity]. }
    rewrite Htruthy. cbn [negb].
    destruct (truthy (isValidUrl w (VStr (trim input)))); cbn [negb].
    + destruct (unavailable w); eexists; (split; [reflexivity|]); intros; congruence.
    + eexists. split; [reflexivity|]. discriminate.
  - intros input.
    rewrite (handleYoutubeEmbed_run key input w refs) by assumption. cbv zeta.
    assert (Hsame : exists refs', local w !! key = Some (VArr refs')
                                  /\ distinct_videos refs'
                                  /\ (refs' = refs \/ exists ref, refs' = refs ++ [ref])).
    { exists refs. split; [assumption|]. split; [split; assumption | left; reflexivity]. }
    destruct (negb (truthy (isValidUrl w (VStr (trim input))))); [exact Hsame|].
    destruct (extractVideoId_cases (VStr (trim input))) as [E | (vid & E & Hs)];
      rewrite E.
    { exact Hsame. }
    destruct (negb (truthy (VStr vid))); [exact Hsame|].
    destruct (unavailable w); [exact Hsame|].
    destruct (existsb (carries "videoId" (VStr vid)) refs) eqn:Hdup; [exact Hsame|].
    destruct (negb (secure_random w)); [exact Hsame|].
    destruct (quota_exceeded w); [exact Hsame|].
    eexists. split; [cbn; apply lookup_insert_eq|]. split; [|right; eexists; reflexivity].
    fold (new_video (VStr (entropy w (draws w))) (VStr vid) (clock w (reads w))).
    destruct (new_video_ref (VStr (entropy w (draws w))) vid (clock w (reads w)))
      as [Hnew_ref Hnew_id].
    split.
    + rewrite forallb_app, Hrefs. cbn [forallb]. rewrite Hnew_ref. reflexivity.
    + rewrite map_app. cbn [map]. rewrite Hnew_id.
      apply NoDup_app. split; [assumption|]. split.
      * intros x Hx [->|[]]%list_elem_of_In. apply list_elem_of_In in Hx.
        apply (carries_videoId refs _ Hrefs) in Hx. congruence.
      * apply NoDup_singleton.
Qed.

Lemma demo_videos_distinct : distinct_videos demo_videos.
Proof. split; [reflexivity|]. apply NoDup_singleton. Qed.

Lemma duplicate_video_rejected_witness :
  PopupManager.handleYoutubeEmbed "youtubeVideos"
    " https://www.youtube.com/watch?v=abc12345678 " demo_video_world
  = (Return (Some videoAlreadyEmbedded), demo_video_world)
  /\ (exists refs',
        local (snd (PopupManager.handleYoutubeEmbed "youtubeVideos"
                      "https://youtu.be/zyx98765432" demo_video_world))
          !! "youtubeVideos" = Some (VArr refs')
        /\ distinct_videos refs'
        /\ (refs' = demo_videos \/ exists ref, refs' = demo_videos ++ [ref])).
Proof.
  destruct (duplicate_video_rejected "youtubeVideos" demo_video_world demo_videos
              eq_refl demo_videos_distinct) as (Hdup & Hinv & _).
  split.
  - destruct (Hdup " https://www.youtube.com/watch?v=abc12345678 " "abc12345678")
      as (a & Hrun & Ha).
    + vm_compute. reflexivity.
    + left. reflexivity.
    + rewrite Hrun, (Ha eq_refl eq_refl). reflexivity.
  - apply Hinv.
Defined.

(** ** Dates in local time *)

Lemma same_local_day (d tz : Z) :
  (0 <= tz < 1440)%Z -> ((d * msPerDay + tz * 60000) / msPerDay = d)%Z.
Proof.
  intros H. unfold msPerDay. symmetry.
  apply (Z.div_unique _ _ _ (tz * 60000)); lia.
Qed.

Lemma previous_local_day (d tz : Z) :
  (-1440 <= tz < 0)%Z -> ((d * msPerDay + tz * 60000) / msPerDay = d - 1)%Z.
Proof.
  intros H. unfold msPerDay. symmetry.
  apply (Z.div_unique _ _ _ (86400000 + tz * 60000)); lia.
Qed.

Lemma isValidDate_parsed (w : World) (s : string) (d : Z) :
  String.eqb (trim s) "" = false ->
  test_anchored dateFormatRegex s = true ->
  Date_parse (lenient_dates w) s = Some (d * msPerDay)%Z ->
  isValidDate w (VStr s) =
    let '(year, month, day) :=
      civil_from_days ((d * msPerDay + tz_offset w * 60000) / msPerDay)%Z in
    Z_is year (parseInt (substring 0 4 s))
    && Z_is month (parseInt (substring 5 2 s))
    && Z_is day (parseInt (substring 8 2 s)).
Proof.
  intros Htrim Hfmt Hparse. unfold isValidDate. rewrite Htrim, Hfmt, Hparse.
  reflexivity.
Qed.

(** C7, as the code has it: [isValidDate("2023-02-30")] is [false]
    wherever the local time is within a day of UTC, but
    [isValidDate("2023-02-28")] is [true] only where the local time is not
    behind UTC: the string is read as midnight UTC and compared with the
    year, month and day of the local time, which west of UTC is still the
    27th. *)
Theorem isValidDate_reads_local_fields (w : World) :
  (-1440 < tz_offset w < 1440)%Z ->
  isValidDate w (VStr "2023-02-30") = false
  /\ isValidDate w (VStr "2023-02-28") = (0 <=? tz_offset w)%Z.
Proof.
  intros Htz. split.
  - destruct (lenient_dates w) eqn:Hlen.
    + rewrite (isValidDate_parsed w "2023-02-30" 19418);
        [| vm_compute; reflexivity | vm_compute; reflexivity
         | rewrite Hlen; vm_compute; reflexivity].
      destruct (Z.leb_spec 0 (tz_offset w)).
      * rewrite same_local_day by lia. vm_compute. reflexivity.
      * rewrite previous_local_day by lia. vm_compute. reflexivity.
    + unfold isValidDate. rewrite Hlen. vm_compute. reflexivity.
  - rewrite (isValidDate_parsed w "2023-02-28" 19416);
      [| vm_compute; reflexivity | vm_compute; reflexivity
       | destruct (lenient_dates w); vm_compute; reflexivity].
    destruct (Z.leb_spec 0 (tz_offset w)).
    + rewrite same_local_day by lia. vm_compute. reflexivity.
    + rewrite previous_local_day by lia. vm_compute. reflexivity.
Qed.

(** The check in a browser set to UTC-05:00. *)
Lemma isValidDate_reads_local_fields_witness :
  isValidDate (demo_world_at ∅ (-300)) (VStr "2023-02-30") = false
  /\ isValidDate (demo_world_at ∅ (-300)) (VStr "2023-02-28") = false.
Proof.
  apply (isValidDate_reads_local_fields (demo_world_at ∅ (-300))). cbn. lia.
Defined.

(** ** The input check of [createTask] *)

Lemma pretty_N_char_digit x : is_digit (pretty_N_char x) = true.
Proof. unfold pretty_N_char. repeat case_match; reflexivity. Qed.

Lemma pretty_N_go_digit_headed x s :
  digit_headed s -> digit_headed (pretty_N_go x s).
Proof.
  revert s. induction (N.lt_wf_0 x) as [x _ IH]; intros s Hs.
  assert (x = 0 \/ 0 < x)%N as [-> | Hpos] by lia.
  - rewrite pretty_N_go_0. exact Hs.
  - rewrite pretty_N_go_step by assumption. apply IH.
    + apply N.div_lt; [assumption | reflexivity].
    + eexists _, _. split; [reflexivity | apply pretty_N_char_digit].
Qed.

Lemma pretty_nat_digit_headed (n : nat) : digit_headed (pretty n).
Proof.
  unfold pretty, pretty_nat, pretty, pretty_N.
  destruct (decide (N.of_nat n = 0%N)) as [_ | Hne].
  - eexists _, _. split; reflexivity.
  - rewrite pretty_N_go_step by lia. apply pretty_N_go_digit_headed.
    eexists _, _. split; [reflexivity | apply pretty_N_char_digit].
Qed.

Lemma indexed_no_field (l : list value) (p : string) :
  ~ digit_headed p -> indexed l !! p = None.
Proof.
  intros Hp. unfold indexed. apply not_elem_of_list_to_map_1.
  intros (kv & -> & Hin)%list_elem_of_fmap_1.
  apply list_elem_of_lookup in Hin as [i Hi].
  rewrite list_lookup_imap in Hi.
  destruct (l !! i) as [v|]; [|discriminate].
  cbn in Hi. injection Hi as <-. cbn in Hp. apply Hp, pretty_nat_digit_headed.
Qed.

Lemma title_not_index : ~ digit_headed "title".
Proof. intros (c & s & [= <- <-] & Hc). discriminate. Qed.

Lemma createTask_rejects_non_object w taskData :
  is_object taskData = false ->
  exists message,
    TaskManager.createTask taskData w = (Throw (InvalidInputError message), w).
Proof.
  intros Hno. unfold TaskManager.createTask.
  destruct taskData as [| |b|n|s|l|m]; try discriminate;
    try (cbn; eexists; reflexivity).
  - destruct b; cbn; eexists; reflexivity.
  - destruct (truthy (VNum n)); cbn; eexists; reflexivity.
  - destruct (truthy (VStr s)); cbn; eexists; reflexivity.
  - cbn [truthy typeof negb orb]. replace (String.eqb "object" "object") with true by reflexivity.
    cbn [negb]. js_unfold. unfold get_prop, own_props.
    rewrite (indexed_no_field l "title" title_not_index). cbn. eexists. reflexivity.
Qed.

Lemma _getTasks_cases w :
  (exists v, TaskManager._getTasks w = (Return v, w))
  \/ (exists message e, TaskManager._getTasks w = (Throw (StorageError message e), w)).
Proof.
  unfold TaskManager._getTasks, StorageManager.getAllTasks, StorageManager.getItem,
    chrome_storage_local_get. js_unfold.
  destruct (unavailable w); [right; eexists _, _; reflexivity|].
  left. eexists. reflexivity.
Qed.

Lemma _saveTasks_cases v w :
  (exists w', TaskManager._saveTasks v w = (Return tt, w'))
  \/ (exists message e w', TaskManager._saveTasks v w = (Throw (StorageError message e), w')).
Proof.
  unfold TaskManager._saveTasks, StorageManager.saveAllTasks, StorageManager.setItem,
    chrome_storage_local_set. js_unfold.
  destruct (quota_exceeded w); [right; eexists _, _, _; reflexivity|].
  left. eexists. reflexivity.
Qed.

Lemma createTask_passes_check w taskData :
  truthy (field taskData "title") = true ->
  forall message w',
    TaskManager.createTask (VObj taskData) w <> (Throw (InvalidInputError message), w').
Proof.
  intros Ht message w'. unfold TaskManager.createTask. cbn. js_unfold. cbn.
  fold (field taskData "title"). rewrite Ht. cbn.
  destruct (_getTasks_cases w) as [[v ->] | (m & e & ->)]; [|discriminate].
  cbn. rewrite _generateUniqueId_run. cbn.
  destruct v; cbn; try discriminate.
  match goal with
  | |- context [TaskManager._saveTasks ?v ?w0] =>
      destruct (_saveTasks_cases v w0) as [[w1 ->] | (m & e & w1 & ->)]
  end; discriminate.
Qed.

(** C10: [createTask] throws [InvalidInputError] on anything that is not
    an object and on an object whose [title] is falsy, and on nothing else;
    for a truthy [title], a string of white space included, the task is
    created with that very title, although [isValidText] with minimum
    length 1 turns a string of white space down. *)
Theorem createTask_title_check (w : World) :
  (forall taskData,
      is_object taskData = false ->
      exists message,
        TaskManager.createTask taskData w = (Throw (InvalidInputError message), w))
  /\ (forall taskData,
      truthy (field taskData "title") = false ->
      exists message,
        TaskManager.createTask (VObj taskData) w = (Throw (InvalidInputError message), w))
  /\ (forall taskData,
      truthy (field taskData "title") = true ->
      forall message w',
        TaskManager.createTask (VObj taskData) w <> (Throw (InvalidInputError message), w'))
  /\ (forall taskData arr,
      truthy (field taskData "title") = true ->
      unavailable w = false -> quota_exceeded w = false ->
      collection StorageManager.TASKS w = Some arr ->
      exists (t : gmap string value) (w' : World),
        TaskManager.createTask (VObj taskData) w = (Return (VObj t), w')
        /\ field t "title" = field taskData "title"
        /\ collection StorageManager.TASKS w' = Some (arr ++ [VObj t]))
  /\ (forall s,
      s <> "" -> trim s = "" ->
      truthy (VStr s) = true /\ isValidText (VStr s) (VNum 1) VUndefined = false)
  /\ trim " " = "".
Proof.
  split; [intros; apply createTask_rejects_non_object; assumption|].
  split; [intros; apply createTask_rejects; assumption|].
  split; [intros; apply createTask_passes_check; assumption|].
  split; [|split].
  - intros taskData arr Ht Hav Hq Hcoll. eexists _, _.
    split; [apply createTask_accepts; eassumption|].
    split; [reflexivity | apply collection_saved].
  - intros s Hne Htrim. split.
    + destruct s; [congruence | reflexivity].
    + unfold isValidText. rewrite Htrim. reflexivity.
  - reflexivity.
Qed.

Lemma createTask_title_check_witness :
  (exists (t : gmap string value) (w' : World),
      TaskManager.createTask (VObj {[ "title" := VStr " " ]}) demo_world
      = (Return (VObj t), w')
      /\ field t "title" = field {[ "title" := VStr " " ]} "title"
      /\ collection StorageManager.TASKS w' = Some (demo_tasks ++ [VObj t]))
  /\ truthy (VStr " ") = true
  /\ isValidText (VStr " ") (VNum 1) VUndefined = false.
Proof.
  destruct (createTask_title_check demo_world) as (_ & _ & _ & Hmake & Hblank & Htrim).
  split.
  - apply (Hmake {[ "title" := VStr " " ]} demo_tasks); reflexivity.
  - apply (Hblank " "); [discriminate | exact Htrim].
Defined.

(** ** Negative results and writes *)

(** Case analysis along a run: on the outcome of each storage call, then
    on every remaining branch. *)
Ltac split_run H :=
  repeat match type of H with
         | context [TaskManager._getTasks ?w0] =>
             let v := fresh "v" in let m := fresh "m" in let e := fresh "e" in
             let Hg := fresh "Hg" in
             destruct (_getTasks_cases w0) as [[v Hg] | (m & e & Hg)]; rewrite Hg in H
         | context [TaskManager._saveTasks ?v0 ?w0] =>
             let w1 := fresh "w" in let m := fresh "m" in let e := fresh "e" in
             let Hs := fresh "Hs" in
             destruct (_saveTasks_cases v0 w0) as [[w1 Hs] | (m & e & w1 & Hs)];
             rewrite Hs in H
         | context [match ?x with _ => _ end] => destruct x eqn:?
         | context [if ?x then _ else _] => destruct x eqn:?
         end.

Lemma updateTask_null_no_write id newData w w' :
  TaskManager.updateTask id newData w = (Return VNull, w') -> w' = w.
Proof.
  intros H. unfold TaskManager.updateTask in H. js_unfold. unfold Date_now in H.
  split_run H; try discriminate; congruence.
Qed.

Lemma deleteTask_false_no_write id w w' :
  TaskManager.deleteTask id w = (Return (VBool false), w') -> w' = w.
Proof.
  intros H. unfold TaskManager.deleteTask in H. js_unfold.
  split_run H; try discriminate; congruence.
Qed.

Lemma deleteSubtask_false_no_write taskId subtaskId w w' :
  TaskManager.deleteSubtask taskId subtaskId w = (Return (VBool false), w') -> w' = w.
Proof.
  intros H. unfold TaskManager.deleteSubtask in H. js_unfold. unfold Date_now in H.
  split_run H; try discriminate; congruence.
Qed.

Lemma addSubtask_null_no_write taskId subtaskData w w' :
  TaskManager.addSubtask taskId subtaskData w = (Return VNull, w') -> w' = w.
Proof.
  intros H. unfold TaskManager.addSubtask in H. js_unfold. unfold Date_now in H.
  split_run H; try discriminate; congruence.
Qed.

Lemma markSubtaskStatus_null_no_write taskId subtaskId isComplete w w' :
  TaskManager.markSubtaskStatus taskId subtaskId isComplete w = (Return VNull, w') ->
  w' = w.
Proof.
  intros H. unfold TaskManager.markSubtaskStatus in H. js_unfold. unfold Date_now in H.
  split_run H; try discriminate; try congruence.
  all: repeat match goal with
              | Hc : set_prop ?v _ _ = Return _ |- _ =>
                  destruct v; try discriminate; injection Hc as <-
              end; discriminate.
Qed.

(** X2: in any world, whatever is stored and whether or not the storage
    area answers, a run of [updateTask], [addSubtask] or
    [markSubtaskStatus] that returns [null], or of [deleteTask] or
    [deleteSubtask] that returns [false], ends in the world it started
    from: no [set] call was issued. *)
Theorem negative_result_means_no_write (w w' : World) :
  (forall id newData,
      TaskManager.updateTask id newData w = (Return VNull, w') -> w' = w)
  /\ (forall id,
      TaskManager.deleteTask id w = (Return (VBool false), w') -> w' = w)
  /\ (forall taskId subtaskId,
      TaskManager.deleteSubtask taskId subtaskId w = (Return (VBool false), w') -> w' = w)
  /\ (forall taskId subtaskData,
      TaskManager.addSubtask taskId subtaskData w = (Return VNull, w') -> w' = w)
  /\ (forall taskId subtaskId isComplete,
      TaskManager.markSubtaskStatus taskId subtaskId isComplete w = (Return VNull, w') ->
      w' = w).
Proof.
  repeat match goal with |- _ /\ _ => split end; intros.
  - eapply updateTask_null_no_write; eassumption.
  - eapply deleteTask_false_no_write; eassumption.
  - eapply deleteSubtask_false_no_write; eassumption.
  - eapply addSubtask_null_no_write; eassumption.
  - eapply markSubtaskStatus_null_no_write; eassumption.
Qed.

(** ** Deleting, then looking up *)

Lemma filter_keeps_objects (f : value -> bool) l :
  forallb is_object l = true -> forallb is_object (List.filter f l) = true.
Proof.
  induction l as [|t l IH]; cbn; [reflexivity|].
  intros [Ht Hl]%andb_prop. destruct (f t); cbn; [rewrite Ht|]; apply IH, Hl.
Qed.

Lemma filter_drops_carriers p k l :
  existsb (carries p k) (List.filter (fun t => negb (carries p k t)) l) = false.
Proof.
  induction l as [|t l IH]; cbn; [reflexivity|].
  destruct (carries p k t) eqn:E; cbn; [|rewrite E]; exact IH.
Qed.

(** X1: whatever [deleteTask id] answers, a [getTaskById id] that follows
    it returns [null]. *)
Theorem deleteTask_then_getTaskById (w : World) (arr : list value) (id : value) :
  unavailable w = false -> quota_exceeded w = false ->
  collection StorageManager.TASKS w = Some arr ->
  forallb is_object arr = true ->
  truthy id = true ->
  exists (b : bool) (w' : World),
    TaskManager.deleteTask id w = (Return (VBool b), w')
    /\ b = existsb (carries "id" id) arr
    /\ TaskManager.getTaskById id w' = (Return VNull, w').
Proof.
  intros Hav Hq Hcoll Hobj Hid.
  destruct (existsb (carries "id" id) arr) eqn:Hex.
  - eexists true, _. split; [apply (deleteTask_present w arr); assumption|].
    split; [reflexivity|].
    apply (getTaskById_missing _ (List.filter (fun t => negb (carries "id" id t)) arr));
      [exact Hav | apply collection_saved | apply filter_keeps_objects, Hobj
       | exact Hid | apply filter_drops_carriers].
  - eexists false, _. split; [apply (deleteTask_missing w arr); assumption|].
    split; [reflexivity|]. apply (getTaskById_missing w arr); assumption.
Qed.

Lemma deleteTask_then_getTaskById_witness :
  exists (b : bool) (w' : World),
    TaskManager.deleteTask (VStr "t1") demo_world = (Return (VBool b), w')
    /\ b = existsb (carries "id" (VStr "t1")) demo_tasks
    /\ TaskManager.getTaskById (VStr "t1") w' = (Return VNull, w').
Proof.
  apply (deleteTask_then_getTaskById demo_world demo_tasks (VStr "t1")); reflexivity.
Defined.

(** The life cycle on an empty store: the created task is incomplete
    and has no subtasks; after [addSubtask] the parent has one subtask and
    another [updatedAt]; the marked subtask is complete; [deleteTask]
    answers [true] and the lookup that follows answers [null]. *)
Theorem life_cycle_runs :
  fst (life_cycle (demo_world_at ∅ 0))
  = Return [VBool false; VArr []; VNum 1; VBool true; VBool true; VBool true; VNull].
Proof. vm_compute. reflexivity. Qed.

(** * Further properties of the code *)

(** ** Adding and deleting a subtask *)

Lemma after_generate_flags w :
  unavailable (after_generate w) = unavailable w
  /\ quota_exceeded (after_generate w) = quota_exceeded w
  /\ local (after_generate w) = local w
  /\ writes (after_generate w) = writes w.
Proof. unfold after_generate. destruct (secure_random w); auto. Qed.

Lemma addSubtask_found w arr taskId subtaskData i parent subs :
  unavailable w = false -> quota_exceeded w = false ->
  collection StorageManager.TASKS w = Some arr ->
  forallb is_object arr = true ->
  truthy taskId = true -> truthy (field subtaskData "title") = true ->
  first_carrier "id" taskId arr = Some i ->
  arr !! i = Some (VObj parent) ->
  field parent "subtasks" = VArr subs ->
  let now := clock w (reads w) in
  let subtask := VObj (new_subtask (field subtaskData "title") now (generated (tick w))) in
  TaskManager.addSubtask taskId (VObj subtaskData) w =
    (Return subtask,
     saved StorageManager.TASKS
           (VArr (<[i := VObj (touched parent (subs ++ [subtask]) now)]> arr))
           (after_generate (tick w))).
Proof.
  intros Hav Hq Hcoll Hobj Ht Htitle Hi Hparent Hsubs now subtask.
  unfold TaskManager.addSubtask. rewrite Ht. cbn [truthy typeof negb orb].
  replace (String.eqb "object" "object") with true by reflexivity. cbn [negb].
  js_unfold. cbn [get_prop own_props]. fold (field subtaskData "title").
  rewrite Htitle. cbn [negb].
  rewrite (_getTasks_collection arr) by assumption. cbn [as_array].
  rewrite findIndex_objects by assumption. rewrite Hi, Hparent.
  unfold Date_now. rewrite _generateUniqueId_run. cbn.
  fold (field parent "subtasks"). rewrite Hsubs. cbn.
  rewrite _saveTasks_ok by (rewrite (proj1 (proj2 (after_generate_flags (tick w)))); exact Hq).
  reflexivity.
Qed.

(** X3: [addSubtask] on the first task carrying [taskId], whose [subtasks]
    is an array: the new subtask carries the generator's identifier and the
    given title, is incomplete, and has [createdAt = updatedAt =] the
    reading of the clock; it is put at the end of the parent's subtasks,
    the parent's [updatedAt] becomes that same reading, every other field
    of the parent stays, and the collection is kept with the parent so
    updated. *)
Theorem addSubtask_appends
    (w : World) (arr : list value) (taskId : value) (subtaskData : gmap string value)
    (i : nat) (parent : gmap string value) (subs : list value) :
  unavailable w = false -> quota_exceeded w = false ->
  collection StorageManager.TASKS w = Some arr ->
  forallb is_object arr = true ->
  truthy taskId = true -> truthy (field subtaskData "title") = true ->
  first_carrier "id" taskId arr = Some i ->
  arr !! i = Some (VObj parent) ->
  field parent "subtasks" = VArr subs ->
  exists (sub parent' : gmap string value) (w' : World),
    TaskManager.addSubtask taskId (VObj subtaskData) w = (Return (VObj sub), w')
    /\ field sub "id" = generated (tick w)
    /\ field sub "title" = field subtaskData "title"
    /\ field sub "isComplete" = VBool false
    /\ field sub "createdAt" = VNum (clock w (reads w))
    /\ field sub "updatedAt" = VNum (clock w (reads w))
    /\ collection StorageManager.TASKS w' = Some (<[i := VObj parent']> arr)
    /\ field parent' "subtasks" = VArr (subs ++ [VObj sub])
    /\ field parent' "updatedAt" = VNum (clock w (reads w))
    /\ (forall p, p <> "subtasks" -> p <> "updatedAt" -> field parent' p = field parent p).
Proof.
  intros Hav Hq Hcoll Hobj Ht Htitle Hi Hparent Hsubs.
  eexists _, _, _. split; [eapply addSubtask_found; eassumption|].
  unfold new_subtask.
  do 5 (split; [reflexivity|]).
  split; [apply collection_saved|].
  unfold touched, field.
  split; [rewrite lookup_insert_ne, lookup_insert_eq by discriminate; reflexivity|].
  split; [rewrite lookup_insert_eq; reflexivity|].
  intros p H1 H2. rewrite !lookup_insert_ne by congruence. reflexivity.
Qed.

Lemma addSubtask_appends_witness :
  exists (sub parent' : gmap string value) (w' : World),
    TaskManager.addSubtask (VStr "t2") (VObj {[ "title" := VStr "Ask for a statement" ]})
      demo_world = (Return (VObj sub), w')
    /\ field sub "id" = generated (tick demo_world)
    /\ field sub "title" = field {[ "title" := VStr "Ask for a statement" ]} "title"
    /\ field sub "isComplete" = VBool false
    /\ field sub "createdAt" = VNum (clock demo_world (reads demo_world))
    /\ field sub "updatedAt" = VNum (clock demo_world (reads demo_world))
    /\ collection StorageManager.TASKS w' = Some (<[1 := VObj parent']> demo_tasks)
    /\ field parent' "subtasks" = VArr ([] ++ [VObj sub])
    /\ field parent' "updatedAt" = VNum (clock demo_world (reads demo_world))
    /\ (forall p, p <> "subtasks" -> p <> "updatedAt" ->
        field parent' p = field (own_props (demo_task "t2" "Call the bank" [])) p).
Proof.
  apply (addSubtask_appends demo_world demo_tasks (VStr "t2")
           {[ "title" := VStr "Ask for a statement" ]} 1
           (own_props (demo_task "t2" "Call the bank" [])) []); reflexivity.
Defined.

Lemma deleteSubtask_found w arr taskId subtaskId i parent subs :
  unavailable w = false -> quota_exceeded w = false ->
  collection StorageManager.TASKS w = Some arr ->
  forallb is_object arr = true ->
  truthy taskId = true -> truthy subtaskId = true ->
  first_carrier "id" taskId arr = Some i ->
  arr !! i = Some (VObj parent) ->
  field parent "subtasks" = VArr subs ->
  forallb is_object subs = true ->
  existsb (carries "id" subtaskId) subs = true ->
  TaskManager.deleteSubtask taskId subtaskId w =
    (Return (VBool true),
     saved StorageManager.TASKS
       (VArr (<[i := VObj (touched parent
                             (List.filter (fun s => negb (carries "id" subtaskId s)) subs)
                             (clock w (reads w)))]> arr))
       (tick w)).
Proof.
  intros Hav Hq Hcoll Hobj Ht Hs Hi Hparent Hsubs Hsobj Hyes.
  unfold TaskManager.deleteSubtask. rewrite Ht, Hs. cbn [negb orb].
  js_unfold. rewrite (_getTasks_collection arr) by assumption. cbn [as_array].
  rewrite findIndex_objects by assumption. rewrite Hi, Hparent. cbn.
  fold (field parent "subtasks"). rewrite Hsubs. cbn.
  rewrite filter_arr_objects by assumption.
  pose proof (filter_some_carries _ _ _ Hyes) as Hlt.
  destruct (Nat.eqb_spec (length (List.filter (fun t => negb (carries "id" subtaskId t)) subs))
                         (length subs)) as [E|_]; [lia|].
  rewrite _saveTasks_ok by assumption. reflexivity.
Qed.

(** X4: [deleteSubtask] on the first task carrying [taskId], one of whose
    subtasks carries [subtaskId]: it returns [true]; the parent keeps, in
    their order, exactly the subtasks that do not carry [subtaskId], so
    none carrying it is left; the parent's [updatedAt] becomes the reading
    of the clock and its other fields stay; the collection is kept with the
    parent so updated. *)
Theorem deleteSubtask_removes
    (w : World) (arr : list value) (taskId subtaskId : value)
    (i : nat) (parent : gmap string value) (subs : list value) :
  unavailable w = false -> quota_exceeded w = false ->
  collection StorageManager.TASKS w = Some arr ->
  forallb is_object arr = true ->
  truthy taskId = true -> truthy subtaskId = true ->
  first_carrier "id" taskId arr = Some i ->
  arr !! i = Some (VObj parent) ->
  field parent "subtasks" = VArr subs ->
  forallb is_object subs = true ->
  existsb (carries "id" subtaskId) subs = true ->
  exists (parent' : gmap string value) (rest : list value) (w' : World),
    TaskManager.deleteSubtask taskId subtaskId w = (Return (VBool true), w')
    /\ rest = List.filter (fun s => negb (carries "id" subtaskId s)) subs
    /\ existsb (carries "id" subtaskId) rest = false
    /\ length rest < length subs
    /\ collection StorageManager.TASKS w' = Some (<[i := VObj parent']> arr)
    /\ field parent' "subtasks" = VArr rest
    /\ field parent' "updatedAt" = VNum (clock w (reads w))
    /\ (forall p, p <> "subtasks" -> p <> "updatedAt" -> field parent' p = field parent p).
Proof.
  intros Hav Hq Hcoll Hobj Ht Hs Hi Hparent Hsubs Hsobj Hyes.
  eexists _, _, _. split; [eapply deleteSubtask_found; eassumption|].
  split; [reflexivity|]. split; [apply filter_drops_carriers|].
  split; [apply filter_some_carries, Hyes|].
  split; [apply collection_saved|].
  unfold touched, field.
  split; [rewrite lookup_insert_ne, lookup_insert_eq by discriminate; reflexivity|].
  split; [rewrite lookup_insert_eq; reflexivity|].
  intros p H1 H2. rewrite !lookup_insert_ne by congruence. reflexivity.
Qed.

Lemma deleteSubtask_removes_witness :
  exists (parent' : gmap string value) (rest : list value) (w' : World),
    TaskManager.deleteSubtask (VStr "t1") (VStr "s1") demo_world = (Return (VBool true), w')
    /\ rest = List.filter (fun s => negb (carries "id" (VStr "s1") s)) [demo_subtask]
    /\ existsb (carries "id" (VStr "s1")) rest = false
    /\ length rest < length [demo_subtask]
    /\ collection StorageManager.TASKS w' = Some (<[0 := VObj parent']> demo_tasks)
    /\ field parent' "subtasks" = VArr rest
    /\ field parent' "updatedAt" = VNum (clock demo_world (reads demo_world))
    /\ (forall p, p <> "subtasks" -> p <> "updatedAt" ->
        field parent' p = field (own_props (demo_task "t1" "Buy milk" [demo_subtask])) p).
Proof.
  apply (deleteSubtask_removes demo_world demo_tasks (VStr "t1") (VStr "s1") 0
           (own_props (demo_task "t1" "Buy milk" [demo_subtask])) [demo_subtask]);
    reflexivity.
Defined.

(** ** Marking a task *)

(** X5: [markTaskStatus] refuses a status that is not a boolean; for an
    identifier no stored task carries it returns [null]; otherwise it sets
    [isComplete] on the first task carrying the identifier and stamps
    [updatedAt] with the reading of the clock, every other field, [id] and
    [subtasks] among them, staying as it was, and keeps the collection with
    that task replaced. *)
Theorem markTaskStatus_sets_flag (w : World) (arr : list value) (id isComplete : value) :
  unavailable w = false -> quota_exceeded w = false ->
  collection StorageManager.TASKS w = Some arr ->
  forallb is_object arr = true ->
  truthy id = true ->
  (is_boolean isComplete = false ->
   exists message,
     TaskManager.markTaskStatus id isComplete w = (Throw (InvalidInputError message), w))
  /\ (is_boolean isComplete = true ->
      existsb (carries "id" id) arr = false ->
      TaskManager.markTaskStatus id isComplete w = (Return VNull, w))
  /\ (forall i old,
      is_boolean isComplete = true ->
      first_carrier "id" id arr = Some i -> arr !! i = Some (VObj old) ->
      exists (new : gmap string value) (w' : World),
        TaskManager.markTaskStatus id isComplete w = (Return (VObj new), w')
        /\ field new "isComplete" = isComplete
        /\ field new "updatedAt" = VNum (clock w (reads w))
        /\ (forall p, p <> "isComplete" -> p <> "updatedAt" -> field new p = field old p)
        /\ collection StorageManager.TASKS w' = Some (<[i := VObj new]> arr)).
Proof.
  intros Hav Hq Hcoll Hobj Hid.
  unfold TaskManager.markTaskStatus, is_boolean. rewrite Hid. cbn [negb orb].
  split; [|split].
  - intros ->. cbn. eexists. reflexivity.
  - intros -> Hno. cbn [negb]. apply (updateTask_missing w arr); auto.
  - intros i old -> Hi Hold. cbn [negb].
    eexists _, _. split; [eapply updateTask_found; eauto|].
    unfold merged, field. cbn [own_props].
    split.
    { rewrite !lookup_insert_ne by discriminate. rewrite lookup_union.
      rewrite lookup_singleton_eq. destruct (old !! "isComplete"); reflexivity. }
    split; [rewrite lookup_insert_eq; reflexivity|].
    split; [|apply collection_saved].
    intros p H1 H2. rewrite lookup_insert_ne by congruence.
    destruct (decide (p = "subtasks")) as [-> | Hs];
      [rewrite lookup_insert_eq; reflexivity | rewrite lookup_insert_ne by congruence].
    destruct (decide (p = "id")) as [-> | Hi'];
      [rewrite lookup_insert_eq; reflexivity | rewrite lookup_insert_ne by congruence].
    rewrite lookup_union, lookup_singleton_ne by congruence.
    destruct (old !! p); reflexivity.
Qed.

Lemma markTaskStatus_sets_flag_witness :
  (exists message,
      TaskManager.markTaskStatus (VStr "t1") (VStr "yes") demo_world
      = (Throw (InvalidInputError message), demo_world))
  /\ TaskManager.markTaskStatus (VStr "t9") (VBool true) demo_world = (Return VNull, demo_world)
  /\ (exists (new : gmap string value) (w' : World),
        TaskManager.markTaskStatus (VStr "t2") (VBool true) demo_world
        = (Return (VObj new), w')
        /\ field new "isComplete" = VBool true
        /\ field new "updatedAt" = VNum (clock demo_world (reads demo_world))
        /\ (forall p, p <> "isComplete" -> p <> "updatedAt" ->
            field new p = field (own_props (demo_task "t2" "Call the bank" [])) p)
        /\ collection StorageManager.TASKS w' = Some (<[1 := VObj new]> demo_tasks)).
Proof.
  split; [|split].
  - apply (proj1 (markTaskStatus_sets_flag demo_world demo_tasks (VStr "t1") (VStr "yes")
                    eq_refl eq_refl eq_refl eq_refl eq_refl)). reflexivity.
  - apply (proj1 (proj2 (markTaskStatus_sets_flag demo_world demo_tasks (VStr "t9")
                           (VBool true) eq_refl eq_refl eq_refl eq_refl eq_refl)));
      reflexivity.
  - apply (proj2 (proj2 (markTaskStatus_sets_flag demo_world demo_tasks (VStr "t2")
                           (VBool true) eq_refl eq_refl eq_refl eq_refl eq_refl))
                 1 (own_props (demo_task "t2" "Call the bank" []))); reflexivity.
Defined.

(** ** Input checks *)

(** The array primitives and the property accesses throw nothing but
    [TypeError]. *)
Lemma get_prop_Throw v p e : get_prop v p = Throw e -> e = TypeError.
Proof. destruct v; cbn; congruence. Qed.

Lemma set_prop_Throw v p x e : set_prop v p x = Throw e -> e = TypeError.
Proof. destruct v; cbn; congruence. Qed.

Lemma as_array_Throw v e : as_array v = Throw e -> e = TypeError.
Proof. destruct v; cbn; congruence. Qed.

Lemma prop_is_Throw p k x e : prop_is p k x = Throw e -> e = TypeError.
Proof. destruct x; cbn; congruence. Qed.

Lemma prop_is_not_Throw p k x e : prop_is_not p k x = Throw e -> e = TypeError.
Proof. destruct x; cbn; congruence. Qed.

Section CallbackThrows.

Variable cb : value -> completion bool.
Hypothesis cb_Throw : forall x e, cb x = Throw e -> e = TypeError.

Lemma findIndex_Throw l e : findIndex cb l = Throw e -> e = TypeError.
Proof using cb_Throw.
  induction l as [|x l IH]; cbn; [discriminate|]. js_unfold.
  destruct (cb x) as [[]|e'] eqn:E; [discriminate | | intros [= <-]; eauto].
  destruct (findIndex cb l); [discriminate | intros [= <-]; eauto].
Qed.

Lemma find_Throw l e : find cb l = Throw e -> e = TypeError.
Proof using cb_Throw.
  induction l as [|x l IH]; cbn; [discriminate|]. js_unfold.
  destruct (cb x) as [[]|e'] eqn:E; [discriminate | exact IH | intros [= <-]; eauto].
Qed.

Lemma filter_arr_Throw l e : filter_arr cb l = Throw e -> e = TypeError.
Proof using cb_Throw.
  induction l as [|x l IH]; cbn; [discriminate|]. js_unfold.
  destruct (cb x) as [b|e'] eqn:E; [| intros [= <-]; eauto].
  destruct (filter_arr cb l); [discriminate | intros [= <-]; eauto].
Qed.

Lemma some_Throw l e : some cb l = Throw e -> e = TypeError.
Proof using cb_Throw.
  induction l as [|x l IH]; cbn; [discriminate|]. js_unfold.
  destruct (cb x) as [[]|e'] eqn:E; [discriminate | exact IH | intros [= <-]; eauto].
Qed.

End CallbackThrows.

(** Case analysis along a run, naming the exception of every step that
    throws. *)
Ltac name_throw :=
  repeat match goal with
         | Hc : match ?c with _ => _ end = Throw _ |- _ =>
             destruct c eqn:?; [| injection Hc as ?; subst]
         | Hc : get_prop _ _ = Throw ?e |- _ => apply get_prop_Throw in Hc; subst e
         | Hc : set_prop _ _ _ = Throw ?e |- _ => apply set_prop_Throw in Hc; subst e
         | Hc : as_array _ = Throw ?e |- _ => apply as_array_Throw in Hc; subst e
         | Hc : findIndex (prop_is _ _) _ = Throw ?e |- _ =>
             apply (findIndex_Throw _ (prop_is_Throw _ _)) in Hc; subst e
         | Hc : find (prop_is _ _) _ = Throw ?e |- _ =>
             apply (find_Throw _ (prop_is_Throw _ _)) in Hc; subst e
         | Hc : filter_arr (prop_is_not _ _) _ = Throw ?e |- _ =>
             apply (filter_arr_Throw _ (prop_is_not_Throw _ _)) in Hc; subst e
         | Hc : some (prop_is _ _) _ = Throw ?e |- _ =>
             apply (some_Throw _ (prop_is_Throw _ _)) in Hc; subst e
         end.

Ltac run_cases H :=
  unfold Date_now in H;
  repeat match type of H with
         | context [TaskManager._generateUniqueId ?w0] =>
             rewrite (_generateUniqueId_run w0) in H
         | context [TaskManager._getTasks ?w0] =>
             let v := fresh "v" in let m := fresh "m" in let e := fresh "e" in
             let Hg := fresh "Hg" in
             destruct (_getTasks_cases w0) as [[v Hg] | (m & e & Hg)]; rewrite Hg in H
         | context [TaskManager._saveTasks ?v0 ?w0] =>
             let w1 := fresh "w" in let m := fresh "m" in let e := fresh "e" in
             let Hs := fresh "Hs" in
             destruct (_saveTasks_cases v0 w0) as [[w1 Hs] | (m & e & w1 & Hs)];
             rewrite Hs in H
         | context [match ?x with _ => _ end] => destruct x eqn:?
         | context [if ?x then _ else _] => destruct x eqn:?
         end;
  name_throw.

Ltac refuse_now := eexists; reflexivity.

Ltac never_invalid H :=
  destruct H as (?message & ?w' & H); js_unfold; run_cases H; discriminate.

(** X6: each task operation raises [InvalidInputError] exactly when its
    arguments fail its input check, whatever the storage area holds and
    whether or not it answers, and then ends in the world it started
    from. *)
Theorem invalid_input_exactly (w : World) :
  (forall taskData,
      if titled_object taskData
      then ~ raises_invalid_input (TaskManager.createTask taskData w)
      else refuses (TaskManager.createTask taskData w) w)
  /\ (forall id,
      if truthy id
      then ~ raises_invalid_input (TaskManager.getTaskById id w)
      else refuses (TaskManager.getTaskById id w) w)
  /\ (forall id newData,
      if truthy id && object_like newData
      then ~ raises_invalid_input (TaskManager.updateTask id newData w)
      else refuses (TaskManager.updateTask id newData w) w)
  /\ (forall id,
      if truthy id
      then ~ raises_invalid_input (TaskManager.deleteTask id w)
      else refuses (TaskManager.deleteTask id w) w)
  /\ (forall id isComplete,
      if truthy id && is_boolean isComplete
      then ~ raises_invalid_input (TaskManager.markTaskStatus id isComplete w)
      else refuses (TaskManager.markTaskStatus id isComplete w) w)
  /\ (forall taskId subtaskData,
      if truthy taskId && titled_object subtaskData
      then ~ raises_invalid_input (TaskManager.addSubtask taskId subtaskData w)
      else refuses (TaskManager.addSubtask taskId subtaskData w) w)
  /\ (forall taskId subtaskId,
      if truthy taskId && truthy subtaskId
      then ~ raises_invalid_input (TaskManager.deleteSubtask taskId subtaskId w)
      else refuses (TaskManager.deleteSubtask taskId subtaskId w) w)
  /\ (forall taskId subtaskId isComplete,
      if truthy taskId && truthy subtaskId && is_boolean isComplete
      then ~ raises_invalid_input
             (TaskManager.markSubtaskStatus taskId subtaskId isComplete w)
      else refuses (TaskManager.markSubtaskStatus taskId subtaskId isComplete w) w).
Proof.
  unfold refuses, titled_object, has_title, object_like, is_boolean.
  repeat split.
  - intros taskData. unfold TaskManager.createTask.
    destruct (truthy taskData) eqn:Ht; cbn [andb negb orb]; [|refuse_now].
    destruct (String.eqb (typeof taskData) "object") eqn:Hty; cbn [andb negb orb];
      [|refuse_now].
    js_unfold. destruct (get_prop taskData "title") as [title|e] eqn:Hp.
    + destruct (truthy title) eqn:Htitle; cbn [negb]; [|refuse_now].
      intros H. never_invalid H.
    + destruct taskData; discriminate.
  - intros id. unfold TaskManager.getTaskById.
    destruct (truthy id); cbn [negb]; [|refuse_now]. intros H. never_invalid H.
  - intros id newData. unfold TaskManager.updateTask.
    destruct (truthy id); cbn [andb negb orb]; [|refuse_now].
    destruct (String.eqb (typeof newData) "object"); cbn [andb negb orb]; [|refuse_now].
    destruct (strict_eq newData VNull); cbn [negb]; [refuse_now|].
    intros H. never_invalid H.
  - intros id. unfold TaskManager.deleteTask.
    destruct (truthy id); cbn [negb]; [|refuse_now]. intros H. never_invalid H.
  - intros id isComplete. unfold TaskManager.markTaskStatus.
    destruct (truthy id) eqn:Hid; cbn [andb negb orb]; [|refuse_now].
    destruct (String.eqb (typeof isComplete) "boolean"); cbn [negb]; [|refuse_now].
    unfold TaskManager.updateTask. rewrite Hid. cbn [negb orb typeof strict_eq].
    replace (String.eqb "object" "object") with true by reflexivity. cbn [negb orb].
    intros H. never_invalid H.
  - intros taskId subtaskData. unfold TaskManager.addSubtask.
    destruct (truthy taskId); cbn [andb negb orb]; [|refuse_now].
    destruct (truthy subtaskData) eqn:Ht; cbn [andb negb orb]; [|refuse_now].
    destruct (String.eqb (typeof subtaskData) "object"); cbn [andb negb orb];
      [|refuse_now].
    js_unfold. destruct (get_prop subtaskData "title") as [title|e] eqn:Hp.
    + destruct (truthy title) eqn:Htitle; cbn [negb]; [|refuse_now].
      intros H. never_invalid H.
    + destruct subtaskData; discriminate.
  - intros taskId subtaskId. unfold TaskManager.deleteSubtask.
    destruct (truthy taskId); cbn [andb negb orb]; [|refuse_now].
    destruct (truthy subtaskId); cbn [negb]; [|refuse_now].
    intros H. never_invalid H.
  - intros taskId subtaskId isComplete. unfold TaskManager.markSubtaskStatus.
    destruct (truthy taskId); cbn [andb negb orb]; [|refuse_now].
    destruct (truthy subtaskId); cbn [andb negb orb]; [|refuse_now].
    destruct (String.eqb (typeof isComplete) "boolean"); cbn [negb]; [|refuse_now].
    intros H. never_invalid H.
Qed.

(** ** What a task operation can change *)

Lemma _getTasks_run w :
  TaskManager._getTasks w =
    if unavailable w
    then (Throw (StorageError "Failed to retrieve tasks due to storage error." BackendError), w)
    else (Return (let r := default VUndefined (local w !! StorageManager.TASKS) in
                  if strict_eq r VUndefined then VArr [] else r), w).
Proof.
  unfold TaskManager._getTasks, StorageManager.getAllTasks.
  destruct (unavailable w) eqn:Hav.
  - unfold StorageManager.getItem, chrome_storage_local_get. js_unfold. rewrite Hav.
    reflexivity.
  - unfold try_catch. rewrite getItem_available by assumption. reflexivity.
Qed.

Lemma _saveTasks_run v w :
  TaskManager._saveTasks v w =
    if quota_exceeded w
    then (Throw (StorageError "Failed to save tasks due to storage error." BackendError),
          with_local (local w) ((StorageManager.TASKS, v) :: writes w) w)
    else (Return tt, saved StorageManager.TASKS v w).
Proof.
  unfold TaskManager._saveTasks, StorageManager.saveAllTasks, StorageManager.setItem,
    chrome_storage_local_set. js_unfold. destruct (quota_exceeded w); reflexivity.
Qed.

Ltac trace_run H :=
  unfold Date_now in H;
  repeat (first
    [ match type of H with
      | context [TaskManager._getTasks ?w0] => rewrite (_getTasks_run w0) in H
      | context [TaskManager._saveTasks ?v0 ?w0] => rewrite (_saveTasks_run v0 w0) in H
      | context [TaskManager._generateUniqueId ?w0] =>
          rewrite (_generateUniqueId_run w0) in H
      end
    | match type of H with
      | context [if ?x then _ else _] => destruct x eqn:?
      end
    | match type of H with
      | context [match ?x with _ => _ end] => destruct x eqn:?
      end ];
    cbv beta iota in H);
  injection H as <- <-.

Ltac confined_now :=
  unfold confined_to, saved; cbn [fst snd local with_local tick drawn];
  rewrite ?(fun w => proj1 (proj2 (proj2 (after_generate_flags w))));
  cbn [local tick];
  split;
  [ intros ?k ?Hk; rewrite ?lookup_insert_ne by congruence; reflexivity
  | intros ?e ?He; try discriminate; reflexivity ].

Ltac confined_run :=
  match goal with
  | |- confined_to _ ?w ?run =>
      let H := fresh "H" in
      destruct run as [?r ?w'] eqn:H; js_unfold; trace_run H; confined_now
  end.

(** X7: a task operation never changes the storage area outside the tasks
    key, and one that throws, for whatever reason, has changed nothing in
    it: the only write is the last step of a run that returns. *)
Theorem task_operations_are_confined (w : World) :
  (forall taskData,
      confined_to StorageManager.TASKS w (TaskManager.createTask taskData w))
  /\ (forall id, confined_to StorageManager.TASKS w (TaskManager.getTaskById id w))
  /\ confined_to StorageManager.TASKS w (TaskManager.getAllTasks w)
  /\ (forall id newData,
      confined_to StorageManager.TASKS w (TaskManager.updateTask id newData w))
  /\ (forall id, confined_to StorageManager.TASKS w (TaskManager.deleteTask id w))
  /\ (forall id isComplete,
      confined_to StorageManager.TASKS w (TaskManager.markTaskStatus id isComplete w))
  /\ (forall taskId subtaskData,
      confined_to StorageManager.TASKS w (TaskManager.addSubtask taskId subtaskData w))
  /\ (forall taskId subtaskId,
      confined_to StorageManager.TASKS w (TaskManager.deleteSubtask taskId subtaskId w))
  /\ (forall taskId subtaskId isComplete,
      confined_to StorageManager.TASKS w
        (TaskManager.markSubtaskStatus taskId subtaskId isComplete w)).
Proof.
  repeat match goal with |- _ /\ _ => split end; intros.
  all: try (unfold TaskManager.createTask; confined_run).
  all: try (unfold TaskManager.getTaskById; confined_run).
  all: try (unfold TaskManager.getAllTasks; confined_run).
  all: try (unfold TaskManager.markTaskStatus, TaskManager.updateTask; confined_run).
  all: try (unfold TaskManager.updateTask; confined_run).
  all: try (unfold TaskManager.deleteTask; confined_run).
  all: try (unfold TaskManager.addSubtask; confined_run).
  all: try (unfold TaskManager.deleteSubtask; confined_run).
  all: unfold TaskManager.markSubtaskStatus; confined_run.
Qed.

(** ** Failures of the storage area *)

Ltac retrieval_fails_now Hav :=
  unfold retrieval_fails; cbn [negb orb]; js_unfold; rewrite _getTasks_run, Hav;
  reflexivity.

(** X8: when the storage area rejects reads, every task operation whose
    arguments pass its input check throws the [StorageError] of
    [_getTasks], which carries the storage area's own error, and ends in
    the world it started from. *)
Theorem unavailable_storage_surfaces (w : World) :
  unavailable w = true ->
  (forall taskData, titled_object taskData = true ->
     retrieval_fails (TaskManager.createTask taskData w) w)
  /\ (forall id, truthy id = true -> retrieval_fails (TaskManager.getTaskById id w) w)
  /\ retrieval_fails (TaskManager.getAllTasks w) w
  /\ (forall id newData, truthy id = true -> object_like newData = true ->
      retrieval_fails (TaskManager.updateTask id newData w) w)
  /\ (forall id, truthy id = true -> retrieval_fails (TaskManager.deleteTask id w) w)
  /\ (forall id isComplete, truthy id = true -> is_boolean isComplete = true ->
      retrieval_fails (TaskManager.markTaskStatus id isComplete w) w)
  /\ (forall taskId subtaskData, truthy taskId = true -> titled_object subtaskData = true ->
      retrieval_fails (TaskManager.addSubtask taskId subtaskData w) w)
  /\ (forall taskId subtaskId, truthy taskId = true -> truthy subtaskId = true ->
      retrieval_fails (TaskManager.deleteSubtask taskId subtaskId w) w)
  /\ (forall taskId subtaskId isComplete,
      truthy taskId = true -> truthy subtaskId = true -> is_boolean isComplete = true ->
      retrieval_fails (TaskManager.markSubtaskStatus taskId subtaskId isComplete w) w).
Proof.
  intros Hav. unfold titled_object, has_title, is_boolean.
  repeat match goal with |- _ /\ _ => split end.
  - intros taskData [[Ht Hty]%andb_prop Htitle]%andb_prop.
    unfold TaskManager.createTask. rewrite Ht, Hty. cbn [negb orb].
    destruct (get_prop taskData "title") as [title|]; [|discriminate].
    unfold retrieval_fails. js_unfold. rewrite Htitle. cbn [negb].
    rewrite _getTasks_run, Hav. reflexivity.
  - intros id Hid. unfold TaskManager.getTaskById. rewrite Hid. retrieval_fails_now Hav.
  - unfold TaskManager.getAllTasks. retrieval_fails_now Hav.
  - intros id newData Hid Hnd. unfold TaskManager.updateTask.
    rewrite guard_update by assumption. retrieval_fails_now Hav.
  - intros id Hid. unfold TaskManager.deleteTask. rewrite Hid. retrieval_fails_now Hav.
  - intros id isComplete Hid Hb. unfold TaskManager.markTaskStatus, TaskManager.updateTask.
    rewrite Hid, Hb. cbn [negb orb typeof strict_eq].
    replace (String.eqb "object" "object") with true by reflexivity.
    retrieval_fails_now Hav.
  - intros taskId subtaskData Hid [[Ht Hty]%andb_prop Htitle]%andb_prop.
    unfold TaskManager.addSubtask. rewrite Hid, Ht, Hty. cbn [negb orb].
    destruct (get_prop subtaskData "title") as [title|]; [|discriminate].
    unfold retrieval_fails. js_unfold. rewrite Htitle. cbn [negb].
    rewrite _getTasks_run, Hav. reflexivity.
  - intros taskId subtaskId Ht Hs. unfold TaskManager.deleteSubtask. rewrite Ht, Hs.
    retrieval_fails_now Hav.
  - intros taskId subtaskId isComplete Ht Hs Hb. unfold TaskManager.markSubtaskStatus.
    rewrite Ht, Hs, Hb. retrieval_fails_now Hav.
Qed.

Lemma unavailable_storage_surfaces_witness :
  retrieval_fails
    (TaskManager.createTask (VObj {[ "title" := VStr "Buy milk" ]}) demo_world_offline)
    demo_world_offline
  /\ retrieval_fails (TaskManager.getTaskById (VStr "t1") demo_world_offline)
       demo_world_offline
  /\ retrieval_fails (TaskManager.deleteTask (VStr "t1") demo_world_offline)
       demo_world_offline.
Proof.
  destruct (unavailable_storage_surfaces demo_world_offline eq_refl)
    as (Hcreate & Hget & _ & _ & Hdel & _).
  split; [apply Hcreate; reflexivity|].
  split; [apply Hget; reflexivity | apply Hdel; reflexivity].
Defined.

Ltac quota_run Hq :=
  match goal with
  | |- forall r w', ?run = (r, w') -> _ =>
      let H := fresh "H" in
      intros ?r ?w' H; js_unfold; trace_run H;
      unfold save_failed, saved; cbn [local writes with_local tick drawn];
      rewrite ?(fun w => proj1 (proj2 (proj2 (after_generate_flags w)))),
              ?(fun w => proj2 (proj2 (proj2 (after_generate_flags w))));
      cbn [local writes tick];
      repeat match goal with
             | Hf : quota_exceeded _ = false |- _ =>
                 rewrite ?(fun w => proj1 (proj2 (after_generate_flags w))) in Hf;
                 cbn [quota_exceeded tick] in Hf; congruence
             end;
      (split; [reflexivity | intros Hw; first [reflexivity | congruence]])
  end.

(** X9: when the storage area rejects writes, no task operation changes
    what is stored, and every run in which a write was attempted ends in
    the [StorageError] of [_saveTasks], which carries the storage area's
    own error. *)
Theorem refused_write_surfaces (w : World) :
  quota_exceeded w = true ->
  (forall taskData r w', TaskManager.createTask taskData w = (r, w') ->
     local w' = local w /\ (writes w' <> writes w -> save_failed r))
  /\ (forall id newData r w', TaskManager.updateTask id newData w = (r, w') ->
      local w' = local w /\ (writes w' <> writes w -> save_failed r))
  /\ (forall id r w', TaskManager.deleteTask id w = (r, w') ->
      local w' = local w /\ (writes w' <> writes w -> save_failed r))
  /\ (forall taskId subtaskData r w',
      TaskManager.addSubtask taskId subtaskData w = (r, w') ->
      local w' = local w /\ (writes w' <> writes w -> save_failed r))
  /\ (forall taskId subtaskId r w',
      TaskManager.deleteSubtask taskId subtaskId w = (r, w') ->
      local w' = local w /\ (writes w' <> writes w -> save_failed r))
  /\ (forall taskId subtaskId isComplete r w',
      TaskManager.markSubtaskStatus taskId subtaskId isComplete w = (r, w') ->
      local w' = local w /\ (writes w' <> writes w -> save_failed r)).
Proof.
  intros Hq. repeat match goal with |- _ /\ _ => split end.
  - intros taskData. unfold TaskManager.createTask. quota_run Hq.
  - intros id newData. unfold TaskManager.updateTask. quota_run Hq.
  - intros id. unfold TaskManager.deleteTask. quota_run Hq.
  - intros taskId subtaskData. unfold TaskManager.addSubtask. quota_run Hq.
  - intros taskId subtaskId. unfold TaskManager.deleteSubtask. quota_run Hq.
  - intros taskId subtaskId isComplete. unfold TaskManager.markSubtaskStatus. quota_run Hq.
Qed.

Lemma refused_write_surfaces_witness :
  local (snd (TaskManager.createTask (VObj {[ "title" := VStr "Buy milk" ]})
                demo_world_full)) = local demo_world_full
  /\ save_failed (fst (TaskManager.createTask (VObj {[ "title" := VStr "Buy milk" ]})
                         demo_world_full)).
Proof.
  destruct (proj1 (refused_write_surfaces demo_world_full eq_refl)
              (VObj {[ "title" := VStr "Buy milk" ]}) _ _ (surjective_pairing _))
    as [Hlocal Hfail].
  split; [exact Hlocal|]. apply Hfail. vm_compute. intros [=].
Defined.

(** ** Tasks that share an identifier *)

Lemma first_carrier_app p k l1 t l2 :
  existsb (carries p k) l1 = false -> carries p k t = true ->
  first_carrier p k (l1 ++ t :: l2) = Some (length l1).
Proof.
  induction l1 as [|x l1 IH]; cbn; intros H1 Ht.
  - rewrite Ht. reflexivity.
  - apply orb_false_elim in H1 as [Hx H1]. rewrite Hx, (IH H1 Ht). reflexivity.
Qed.

Lemma getTaskById_found w arr id i t :
  unavailable w = false ->
  collection StorageManager.TASKS w = Some arr ->
  forallb is_object arr = true ->
  truthy id = true ->
  first_carrier "id" id arr = Some i -> arr !! i = Some (VObj t) ->
  TaskManager.getTaskById id w = (Return (VObj t), w).
Proof.
  intros Hav Hcoll Hobj Hid Hi Ht. unfold TaskManager.getTaskById. rewrite Hid. cbn [negb].
  js_unfold. rewrite (_getTasks_collection arr) by assumption. cbn [as_array].
  rewrite find_objects by assumption. rewrite Hi, Ht. reflexivity.
Qed.

(** X10: when two stored tasks carry the same identifier, [getTaskById]
    returns the first, [updateTask] rewrites the first and leaves the
    second as it was, and [deleteTask] removes both. *)
Theorem shared_identifier
    (w : World) (id newData : value) (l1 l2 l3 : list value) (a b : gmap string value) :
  unavailable w = false -> quota_exceeded w = false ->
  collection StorageManager.TASKS w = Some (l1 ++ VObj a :: l2 ++ VObj b :: l3) ->
  forallb is_object (l1 ++ VObj a :: l2 ++ VObj b :: l3) = true ->
  truthy id = true -> object_like newData = true ->
  existsb (carries "id" id) l1 = false ->
  carries "id" id (VObj a) = true -> carries "id" id (VObj b) = true ->
  TaskManager.getTaskById id w = (Return (VObj a), w)
  /\ (exists a' w',
        TaskManager.updateTask id newData w = (Return (VObj a'), w')
        /\ collection StorageManager.TASKS w' = Some (l1 ++ VObj a' :: l2 ++ VObj b :: l3))
  /\ (exists rest w',
        TaskManager.deleteTask id w = (Return (VBool true), w')
        /\ collection StorageManager.TASKS w' = Some rest
        /\ existsb (carries "id" id) rest = false
        /\ length rest + 2 <= length (l1 ++ VObj a :: l2 ++ VObj b :: l3)).
Proof.
  intros Hav Hq Hcoll Hobj Hid Hnd Hl1 Ha Hb.
  pose proof (first_carrier_app "id" id l1 (VObj a) (l2 ++ VObj b :: l3) Hl1 Ha) as Hfirst.
  assert (Hlook : (l1 ++ VObj a :: l2 ++ VObj b :: l3) !! length l1 = Some (VObj a)).
  { rewrite lookup_app_r by lia. rewrite Nat.sub_diag. reflexivity. }
  split; [|split].
  - eapply getTaskById_found; eassumption.
  - eexists _, _. split; [eapply updateTask_found; eassumption|].
    rewrite collection_saved. f_equal.
    replace (length l1) with (length l1 + 0) by lia.
    rewrite insert_app_r. reflexivity.
  - eexists _, _. split.
    { apply (deleteTask_present w (l1 ++ VObj a :: l2 ++ VObj b :: l3)); try assumption.
      rewrite existsb_app. cbn [existsb]. rewrite Ha. apply orb_true_r. }
    split; [apply collection_saved|]. split; [apply filter_drops_carriers|].
    rewrite List.filter_app. cbn [List.filter]. rewrite Ha. cbn [negb].
    rewrite List.filter_app. cbn [List.filter]. rewrite Hb. cbn [negb].
    rewrite !length_app. cbn [length]. rewrite !length_app. cbn [length].
    pose proof (filter_length_le (fun t => negb (carries "id" id t)) l1).
    pose proof (filter_length_le (fun t => negb (carries "id" id t)) l2).
    pose proof (filter_length_le (fun t => negb (carries "id" id t)) l3).
    lia.
Qed.

Lemma shared_identifier_witness :
  let twice := [demo_task "t1" "Buy milk" []; demo_task "t2" "Call the bank" [];
                demo_task "t1" "Buy bread" []] in
  let w := demo_world_at {[ StorageManager.TASKS := VArr twice ]} 0 in
  TaskManager.getTaskById (VStr "t1") w = (Return (demo_task "t1" "Buy milk" []), w)
  /\ (exists a' w',
        TaskManager.updateTask (VStr "t1") demo_patch w = (Return (VObj a'), w')
        /\ collection StorageManager.TASKS w'
           = Some ([] ++ VObj a' :: [demo_task "t2" "Call the bank" []]
                      ++ demo_task "t1" "Buy bread" [] :: []))
  /\ (exists rest w',
        TaskManager.deleteTask (VStr "t1") w = (Return (VBool true), w')
        /\ collection StorageManager.TASKS w' = Some rest
        /\ existsb (carries "id" (VStr "t1")) rest = false
        /\ length rest + 2 <= length twice).
Proof.
  apply (shared_identifier
           (demo_world_at {[ StorageManager.TASKS :=
              VArr [demo_task "t1" "Buy milk" []; demo_task "t2" "Call the bank" [];
                    demo_task "t1" "Buy bread" []] ]} 0)
           (VStr "t1") demo_patch [] [demo_task "t2" "Call the bank" []] []
           (own_props (demo_task "t1" "Buy milk" []))
           (own_props (demo_task "t1" "Buy bread" []))); reflexivity.
Defined.

(** ** Round trips *)

Lemma generated_self w : strict_eq (generated w) (generated w) = true.
Proof. unfold generated. destruct (secure_random w); cbn; apply String.eqb_refl. Qed.

Lemma saved_flags key v w :
  unavailable (saved key v w) = unavailable w
  /\ quota_exceeded (saved key v w) = quota_exceeded w.
Proof. split; reflexivity. Qed.

(** X11: a task that [createTask] has just returned is what [getTaskById]
    returns for its identifier, provided the generated identifier is a
    non-empty string that no stored task carried. *)
Theorem createTask_then_getTaskById
    (w : World) (taskData : gmap string value) (arr : list value) :
  unavailable w = false -> quota_exceeded w = false ->
  collection StorageManager.TASKS w = Some arr ->
  forallb is_object arr = true ->
  truthy (field taskData "title") = true ->
  truthy (generated (tick w)) = true ->
  existsb (carries "id" (generated (tick w))) arr = false ->
  exists (t : gmap string value) (w' : World),
    TaskManager.createTask (VObj taskData) w = (Return (VObj t), w')
    /\ TaskManager.getTaskById (field t "id") w' = (Return (VObj t), w').
Proof.
  intros Hav Hq Hcoll Hobj Htitle Hid Hfresh.
  eexists _, _. split; [apply createTask_accepts; eassumption|].
  eapply (getTaskById_found _ (arr ++ [VObj _]) _ (length arr)).
  - cbn. rewrite (proj1 (after_generate_flags (tick w))). exact Hav.
  - apply collection_saved.
  - rewrite forallb_app, Hobj. reflexivity.
  - exact Hid.
  - apply first_carrier_app; [exact Hfresh|]. cbn. apply generated_self.
  - rewrite lookup_app_r by lia. rewrite Nat.sub_diag. reflexivity.
Qed.

Lemma createTask_then_getTaskById_witness :
  exists (t : gmap string value) (w' : World),
    TaskManager.createTask (VObj {[ "title" := VStr "Buy milk" ]}) demo_world
    = (Return (VObj t), w')
    /\ TaskManager.getTaskById (field t "id") w' = (Return (VObj t), w').
Proof.
  apply (createTask_then_getTaskById demo_world {[ "title" := VStr "Buy milk" ]} demo_tasks);
    reflexivity.
Defined.

Lemma first_carrier_insert p k (l : list value) i t t' :
  l !! i = Some t -> carries p k t' = carries p k t ->
  first_carrier p k (<[i := t']> l) = first_carrier p k l.
Proof.
  revert i. induction l as [|x l IH]; intros i; [discriminate|].
  destruct i as [|i].
  - cbn. intros [= ->] ->. reflexivity.
  - intros Hi Ht. change (<[S i := t']> (x :: l)) with (x :: <[i := t']> l).
    cbn [first_carrier]. rewrite (IH i Hi Ht). reflexivity.
Qed.

Lemma forallb_insert (f : value -> bool) (l : list value) i t :
  forallb f l = true -> f t = true -> forallb f (<[i := t]> l) = true.
Proof.
  revert i. induction l as [|x l IH]; intros i; [reflexivity|].
  cbn. intros [Hx Hl]%andb_prop Ht. destruct i as [|i].
  - cbn. rewrite Ht, Hl. reflexivity.
  - change (<[S i := t]> (x :: l)) with (x :: <[i := t]> l).
    cbn [forallb]. rewrite Hx, (IH i Hl Ht). reflexivity.
Qed.

Lemma new_subtask_carries title now id :
  carries "id" id (VObj (new_subtask title now id)) = strict_eq id id.
Proof. unfold carries, field, new_subtask. rewrite lookup_insert_eq. reflexivity. Qed.

(** X12: deleting the subtask that [addSubtask] has just returned gives
    [true] and leaves the parent with the subtasks it had before the
    addition, provided the generated identifier is a non-empty string that
    no sibling carried; of the parent's other fields only [updatedAt] has
    moved. *)
Theorem addSubtask_then_deleteSubtask
    (w : World) (arr : list value) (taskId : value) (subtaskData : gmap string value)
    (i : nat) (parent : gmap string value) (subs : list value) :
  unavailable w = false -> quota_exceeded w = false ->
  collection StorageManager.TASKS w = Some arr ->
  forallb is_object arr = true ->
  truthy taskId = true -> truthy (field subtaskData "title") = true ->
  first_carrier "id" taskId arr = Some i ->
  arr !! i = Some (VObj parent) ->
  field parent "subtasks" = VArr subs ->
  forallb is_object subs = true ->
  truthy (generated (tick w)) = true ->
  existsb (carries "id" (generated (tick w))) subs = false ->
  exists (sub parent'' : gmap string value) (w' w'' : World),
    TaskManager.addSubtask taskId (VObj subtaskData) w = (Return (VObj sub), w')
    /\ TaskManager.deleteSubtask taskId (field sub "id") w' = (Return (VBool true), w'')
    /\ collection StorageManager.TASKS w'' = Some (<[i := VObj parent'']> arr)
    /\ field parent'' "subtasks" = VArr subs
    /\ (forall p, p <> "subtasks" -> p <> "updatedAt" -> field parent'' p = field parent p).
Proof.
  intros Hav Hq Hcoll Hobj Ht Htitle Hi Hparent Hsubs Hsobj Hid Hfresh.
  pose (now := clock w (reads w)).
  pose (sub := new_subtask (field subtaskData "title") now (generated (tick w))).
  pose (parent' := touched parent (subs ++ [VObj sub]) now).
  pose (w' := saved StorageManager.TASKS (VArr (<[i := VObj parent']> arr))
                    (after_generate (tick w))).
  assert (Hlt : i < length arr) by (eapply lookup_lt_Some; eassumption).
  destruct (after_generate_flags (tick w)) as (Hf1 & Hf2 & _).
  assert (Hdel : TaskManager.deleteSubtask taskId (generated (tick w)) w' =
                 (Return (VBool true),
                  saved StorageManager.TASKS
                    (VArr (<[i := VObj (touched parent'
                             (List.filter (fun s => negb (carries "id" (generated (tick w)) s))
                                          (subs ++ [VObj sub]))
                             (clock w' (reads w')))]> (<[i := VObj parent']> arr)))
                    (tick w'))).
  { apply deleteSubtask_found; try assumption.
    - cbn. rewrite Hf1. exact Hav.
    - cbn. rewrite Hf2. exact Hq.
    - apply collection_saved.
    - apply forallb_insert; [exact Hobj | reflexivity].
    - rewrite (first_carrier_insert _ _ _ _ (VObj parent) _ Hparent); [exact Hi|].
      unfold parent', touched, carries, field.
      rewrite !lookup_insert_ne by discriminate. reflexivity.
    - apply list_lookup_insert_eq. exact Hlt.
    - unfold parent', touched, field.
      rewrite lookup_insert_ne, lookup_insert_eq by discriminate. reflexivity.
    - rewrite forallb_app, Hsobj. reflexivity.
    - rewrite existsb_app. cbn [existsb]. unfold sub.
      rewrite new_subtask_carries, generated_self. rewrite !orb_true_r. reflexivity. }
  exists sub, (touched parent' subs (clock w' (reads w'))), w'. eexists.
  split; [eapply addSubtask_found; eassumption|].
  split.
  { replace (field sub "id") with (generated (tick w)) by reflexivity.
    rewrite Hdel. reflexivity. }
  split.
  { rewrite collection_saved. f_equal. rewrite list_insert_insert_eq. do 3 f_equal.
    rewrite List.filter_app, filter_none_carries by assumption.
    cbn [List.filter]. unfold sub. rewrite new_subtask_carries, generated_self.
    cbn [negb]. apply app_nil_r. }
  unfold touched, parent', touched, field.
  split; [rewrite lookup_insert_ne, lookup_insert_eq by discriminate; reflexivity|].
  intros p H1 H2. rewrite !lookup_insert_ne by congruence. reflexivity.
Qed.

Lemma addSubtask_then_deleteSubtask_witness :
  exists (sub parent'' : gmap string value) (w' w'' : World),
    TaskManager.addSubtask (VStr "t1") (VObj {[ "title" := VStr "Oat" ]}) demo_world
    = (Return (VObj sub), w')
    /\ TaskManager.deleteSubtask (VStr "t1") (field sub "id") w' = (Return (VBool true), w'')
    /\ collection StorageManager.TASKS w'' = Some (<[0 := VObj parent'']> demo_tasks)
    /\ field parent'' "subtasks" = VArr [demo_subtask]
    /\ (forall p, p <> "subtasks" -> p <> "updatedAt" ->
        field parent'' p = field (own_props (demo_task "t1" "Buy milk" [demo_subtask])) p).
Proof.
  apply (addSubtask_then_deleteSubtask demo_world demo_tasks (VStr "t1")
           {[ "title" := VStr "Oat" ]} 0
           (own_props (demo_task "t1" "Buy milk" [demo_subtask])) [demo_subtask]);
    reflexivity.
Defined.
(** ** Reading an identifier back from a URL *)

Lemma every_list p s : every p s = forallb p (list_ascii_of_string s).
Proof. induction s as [|c s IH]; cbn; [reflexivity|]. rewrite IH. reflexivity. Qed.

Lemma id_char_facts c :
  YoutubeManager.id_char c = true ->
  YoutubeManager.segment_char c = true /\ YoutubeManager.non_space c = true /\ YoutubeManager.dot c = true /\ YoutubeManager.query_sep c = false
  /\ Ascii.eqb "/" c = false.
Proof.
  destruct c as [[] [] [] [] [] [] [] []]; vm_compute; intros; repeat split; congruence.
Qed.

Lemma star_id_headed p s : every YoutubeManager.id_char s = true -> Forall id_headed (star p s).
Proof.
  induction s as [|c s IH]; cbn.
  - intros _. repeat constructor.
  - intros [Hc Hs]%andb_prop. destruct (p c).
    + apply Forall_app. split; [apply IH, Hs|]. repeat constructor. exact Hc.
    + repeat constructor. exact Hc.
Qed.

Lemma plus_id_headed p s : every YoutubeManager.id_char s = true -> Forall id_headed (run (Plus p) s).
Proof.
  destruct s as [|c s]; cbn; [constructor|].
  intros [Hc Hs]%andb_prop. destruct (p c); [apply star_id_headed, Hs | constructor].
Qed.

Lemma no_match_on_id_headed (r : regex) (l : list string) :
  (forall s, id_headed s -> run r s = []) ->
  Forall id_headed l -> concat (map (run r) l) = [].
Proof.
  intros Hr. induction 1 as [|s l Hs _ IH]; cbn; [reflexivity|].
  rewrite (Hr s Hs), IH. reflexivity.
Qed.

Lemma slash_not_id_headed s : id_headed s -> run (Lit "/") s = [].
Proof.
  destruct s as [|c s]; cbn [run strip_prefix id_headed]; [reflexivity|]. intros Hc.
  destruct (id_char_facts c Hc) as (_ & _ & _ & _ & ->). reflexivity.
Qed.

Lemma sep_not_id_headed r s : id_headed s -> run (Seq (Class YoutubeManager.query_sep) r) s = [].
Proof.
  destruct s as [|c s]; cbn [run id_headed concat map]; [reflexivity|]. intros Hc.
  destruct (id_char_facts c Hc) as (_ & _ & _ & -> & _). reflexivity.
Qed.

Lemma capture_id s rest :
  is_video_id s = true -> capture 11 YoutubeManager.id_char (s +:+ rest) = Some (s, rest).
Proof.
  unfold is_video_id. rewrite <- every_list. intros [Hlen Hall]%andb_prop.
  apply Nat.eqb_eq in Hlen.
  do 11 (destruct s as [|? s]; [discriminate|]).
  destruct s; [|discriminate].
  cbn in Hall. repeat (apply andb_prop in Hall as [? Hall]).
  cbv [String.append]. cbn [capture].
  repeat match goal with H : YoutubeManager.id_char _ = true |- _ => rewrite H; clear H end.
  reflexivity.
Qed.

Lemma append_empty s : s +:+ "" = s.
Proof. induction s as [|c s IH]; [reflexivity|]. cbv [String.append]. fold String.append. rewrite IH. reflexivity. Qed.

Lemma match_here_then s id rest :
  head (run YoutubeManager.prefix s) = Some (id +:+ rest) -> is_video_id id = true -> YoutubeManager.match_here s = Some id.
Proof.
  intros Hrun Hid. unfold YoutubeManager.match_here. destruct (run YoutubeManager.prefix s) as [|id' l]; [discriminate|].
  injection Hrun as ->.
  change (omap ?f (?x :: l)) with (match f x with Some y => y :: omap f l | None => omap f l end).
  cbv beta. rewrite (capture_id id rest Hid). reflexivity.
Qed.

Lemma match_here_first s id :
  head (run YoutubeManager.prefix s) = Some id -> is_video_id id = true -> YoutubeManager.match_here s = Some id.
Proof. rewrite <- (append_empty id) at 1. apply match_here_then. Qed.

Lemma every_id s : is_video_id s = true -> every YoutubeManager.id_char s = true.
Proof. unfold is_video_id. rewrite <- every_list. intros [_ H]%andb_prop. exact H. Qed.

Lemma run_Seq r1 r2 s : run (Seq r1 r2) s = concat (map (run r2) (run r1 s)).
Proof. reflexivity. Qed.
Lemma run_Alt r1 r2 s : run (Alt r1 r2) s = run r1 s ++ run r2 s.
Proof. reflexivity. Qed.

Lemma match_here_short id rest :
  is_video_id id = true -> YoutubeManager.match_here ("youtu.be/" +:+ id +:+ rest) = Some id.
Proof. intros Hid. apply (match_here_then _ id rest); [reflexivity | exact Hid]. Qed.


Lemma run_Seq_nil r1 r2 s : run r1 s = [] -> run (Seq r1 r2) s = [].
Proof. intros H. rewrite run_Seq, H. reflexivity. Qed.

Lemma match_here_embed id : is_video_id id = true -> YoutubeManager.match_here ("youtube.com/embed/" +:+ id) = Some id.
Proof.
  intros Hid. apply (match_here_first _ id); [| exact Hid].
  unfold YoutubeManager.prefix. rewrite run_Alt.
  change (run (Lit "youtu.be/") _) with (@nil string).
  rewrite run_Seq. change (run (Lit "youtube.com/") _) with ["embed/" +:+ id].
  cbn [map concat]. rewrite !run_Alt.
  rewrite (run_Seq (Plus YoutubeManager.segment_char)).
  change (run (Plus YoutubeManager.segment_char) _) with ["/" +:+ id; "d/" +:+ id; "ed/" +:+ id; "bed/" +:+ id; "mbed/" +:+ id].
  cbn [map concat].
  rewrite (run_Seq (Lit "/")). change (run (Lit "/") ("/" +:+ id)) with [id].
  cbn [map concat].
  rewrite (run_Seq (Plus YoutubeManager.non_space) (Lit "/") id).
  rewrite (no_match_on_id_headed (Lit "/") _ slash_not_id_headed (plus_id_headed _ _ (every_id _ Hid))).
  reflexivity.
Qed.

Lemma match_here_shorts id : is_video_id id = true -> YoutubeManager.match_here ("youtube.com/shorts/" +:+ id) = Some id.
Proof.
  intros Hid. apply (match_here_first _ id); [| exact Hid].
  unfold YoutubeManager.prefix. rewrite run_Alt.
  change (run (Lit "youtu.be/") _) with (@nil string).
  rewrite run_Seq. change (run (Lit "youtube.com/") _) with ["shorts/" +:+ id].
  cbn [map concat]. rewrite !run_Alt.
  rewrite (run_Seq (Plus YoutubeManager.segment_char)).
  change (run (Plus YoutubeManager.segment_char) _) with ["/" +:+ id; "s/" +:+ id; "ts/" +:+ id; "rts/" +:+ id; "orts/" +:+ id; "horts/" +:+ id].
  cbn [map concat].
  rewrite (run_Seq (Lit "/")). change (run (Lit "/") ("/" +:+ id)) with [id].
  cbn [map concat].
  rewrite (run_Seq (Plus YoutubeManager.non_space) (Lit "/") id).
  rewrite (no_match_on_id_headed (Lit "/") _ slash_not_id_headed (plus_id_headed _ _ (every_id _ Hid))).
  reflexivity.
Qed.

Lemma star_cons p c s : p c = true -> star p (String c s) = star p s ++ [String c s].
Proof. intros H. cbn [star]. rewrite H. reflexivity. Qed.

Lemma match_here_watch id : is_video_id id = true -> YoutubeManager.match_here ("youtube.com/watch?v=" +:+ id) = Some id.
Proof.
  intros Hid. apply (match_here_first _ id); [| exact Hid].
  unfold YoutubeManager.prefix. rewrite run_Alt.
  change (run (Lit "youtu.be/") _) with (@nil string).
  rewrite run_Seq. change (run (Lit "youtube.com/") _) with ["watch?v=" +:+ id].
  cbn [map concat]. rewrite !run_Alt.
  rewrite (run_Seq (Plus YoutubeManager.segment_char)), (run_Seq (Star YoutubeManager.dot)).
  change (run (Plus YoutubeManager.segment_char) ("watch?v=" +:+ id)) with (star YoutubeManager.segment_char ("atch?v=" +:+ id)).
  change (run (Star YoutubeManager.dot) ?s) with (star YoutubeManager.dot s).
  cbv [String.append]. rewrite !star_cons by reflexivity.
  rewrite !map_app, !concat_app.
  rewrite (no_match_on_id_headed _ _ (fun s H => run_Seq_nil _ _ s (slash_not_id_headed s H)) (star_id_headed _ _ (every_id _ Hid))).
  rewrite (no_match_on_id_headed _ _ (sep_not_id_headed _) (star_id_headed _ _ (every_id _ Hid))).
  reflexivity.
Qed.

Lemma search_next c s : YoutubeManager.match_here (String c s) = None -> YoutubeManager.search (String c s) = YoutubeManager.search s.
Proof. intros H. cbn [YoutubeManager.search]. rewrite H. reflexivity. Qed.

Lemma search_here s g : YoutubeManager.match_here s = Some g -> YoutubeManager.search s = Some g.
Proof. intros H. destruct s; cbn [YoutubeManager.search]; rewrite H; reflexivity. Qed.

Ltac search_to lemma :=
  unfold YoutubeManager.extractVideoId; cbv [String.append]; cbn [truthy negb];
  rewrite !search_next by reflexivity;
  let H := fresh in
  pose proof lemma as H; cbv [String.append] in H;
  rewrite (search_here _ _ H); reflexivity.

Lemma extract_from_embed (id : string) :
  is_video_id id = true ->
  YoutubeManager.extractVideoId (YoutubeManager.getEmbedUrl (VStr id)) = VStr id.
Proof.
  intros Hid.
  assert (Hlen : String.length id = 11%nat).
  { unfold is_video_id in Hid. apply andb_prop in Hid as [H _]. apply Nat.eqb_eq, H. }
  unfold YoutubeManager.getEmbedUrl. rewrite Hlen. cbn [Nat.eqb negb].
  search_to (match_here_embed id Hid).
Qed.

(** X13: an identifier of eleven characters from [[a-zA-Z0-9_-]] is read
    back from the embed URL that [getEmbedUrl] builds for it, from the
    watch and shorts URLs of the same identifier, and from the short URL
    whatever follows the identifier there. *)
Theorem extractVideoId_reads_back (id rest : string) :
  is_video_id id = true ->
  YoutubeManager.extractVideoId (YoutubeManager.getEmbedUrl (VStr id)) = VStr id
  /\ YoutubeManager.extractVideoId (VStr ("https://www.youtube.com/watch?v=" +:+ id)) = VStr id
  /\ YoutubeManager.extractVideoId (VStr ("https://www.youtube.com/shorts/" +:+ id)) = VStr id
  /\ YoutubeManager.extractVideoId (VStr ("https://youtu.be/" +:+ id +:+ rest)) = VStr id.
Proof.
  intros Hid. repeat split.
  - apply extract_from_embed, Hid.
  - search_to (match_here_watch id Hid).
  - search_to (match_here_shorts id Hid).
  - search_to (match_here_short id rest Hid).
Qed.

Lemma extractVideoId_reads_back_witness :
  YoutubeManager.extractVideoId (YoutubeManager.getEmbedUrl (VStr "dQw4w9WgXcQ"))
  = VStr "dQw4w9WgXcQ"
  /\ YoutubeManager.extractVideoId (VStr ("https://www.youtube.com/watch?v=" +:+ "dQw4w9WgXcQ"))
     = VStr "dQw4w9WgXcQ"
  /\ YoutubeManager.extractVideoId (VStr ("https://www.youtube.com/shorts/" +:+ "dQw4w9WgXcQ"))
     = VStr "dQw4w9WgXcQ"
  /\ YoutubeManager.extractVideoId (VStr ("https://youtu.be/" +:+ "dQw4w9WgXcQ" +:+ "?t=42"))
     = VStr "dQw4w9WgXcQ".
Proof. apply (extractVideoId_reads_back "dQw4w9WgXcQ" "?t=42"). reflexivity. Defined.

(** X14: normalising a URL twice is normalising it once: for every
    input, the identifier extracted from the embed URL of the extracted
    identifier is the extracted identifier ([null] stays [null]). *)
Theorem extractVideoId_normalises (url : value) :
  YoutubeManager.extractVideoId
    (YoutubeManager.getEmbedUrl (YoutubeManager.extractVideoId url))
  = YoutubeManager.extractVideoId url.
Proof.
  destruct (extractVideoId_cases url) as [-> | (g & -> & Hid)]; [reflexivity|].
  apply extract_from_embed, Hid.
Qed.
(** ** Calendar dates

    The calendar repeats every 400 years (146097 days); one such cycle is
    checked day by day. *)

Local Open Scope Z_scope.

Lemma below_spec n P : below n P = true -> forall z, 0 <= z < Z.of_nat n -> P z = true.
Proof.
  induction n as [|k IH]; cbn [below]; intros H z Hz; [lia|].
  apply andb_prop in H as [Hk H].
  destruct (Z.eq_dec z (Z.of_nat k)) as [-> | Hne]; [exact Hk|].
  apply IH; [exact H | lia].
Qed.

Lemma days_checked :
  below 400 (fun y => below 12 (fun m => below 31 (fun d => same_date (civil_from_days (MakeDay y (m + 1) (d + 1))) (carried y (m + 1) (d + 1))))) = true.
Proof. vm_cast_no_check (eq_refl true). Qed.

Lemma eves_checked : below 400 (fun y => below 12 (fun m => negb (same_date (civil_from_days (MakeDay y (m + 1) 0)) (y, m + 1, 1)))) = true.
Proof. vm_cast_no_check (eq_refl true). Qed.

Lemma same_date_eq a b : same_date a b = true <-> a = b.
Proof.
  destruct a as [[y1 m1] d1], b as [[y2 m2] d2]. unfold same_date.
  rewrite !andb_true_iff, !Z.eqb_eq. split; [intros [[-> ->] ->]; reflexivity | intros [= -> -> ->]; auto].
Qed.

Lemma days_from_civil_period (y m d q : Z) :
  days_from_civil (y + 400 * q) m d = days_from_civil y m d + 146097 * q.
Proof.
  unfold days_from_civil. destruct (m <=? 2); cbv zeta.
  - replace (y + 400 * q - 1) with (y - 1 + q * 400) by lia.
    rewrite Z.div_add by lia.
    replace (y - 1 + q * 400 - ((y - 1) / 400 + q) * 400) with (y - 1 - (y - 1) / 400 * 400) by lia.
    lia.
  - replace (y + 400 * q) with (y + q * 400) by lia.
    rewrite Z.div_add by lia.
    replace (y + q * 400 - (y / 400 + q) * 400) with (y - y / 400 * 400) by lia.
    lia.
Qed.

Lemma civil_from_days_period (z q : Z) :
  civil_from_days (z + 146097 * q) =
  let '(y, m, d) := civil_from_days z in (y + 400 * q, m, d).
Proof.
  unfold civil_from_days. cbv zeta.
  replace (z + 146097 * q + 719468) with (z + 719468 + q * 146097) by lia.
  rewrite Z.div_add by lia.
  replace (z + 719468 + q * 146097 - ((z + 719468) / 146097 + q) * 146097)
    with (z + 719468 - (z + 719468) / 146097 * 146097) by lia.
  set (doe := z + 719468 - (z + 719468) / 146097 * 146097).
  set (yoe := (doe - doe / 1460 + doe / 36524 - doe / 146096) / 365).
  destruct (_ <=? 2); f_equal; f_equal; lia.
Qed.

Lemma is_leap_period (y q : Z) : is_leap (y + 400 * q) = is_leap y.
Proof.
  unfold is_leap.
  replace ((y + 400 * q) mod 4) with (y mod 4) by (replace (y + 400 * q) with (y + (100 * q) * 4) by lia; rewrite Z.mod_add by lia; reflexivity).
  replace ((y + 400 * q) mod 100) with (y mod 100) by (replace (y + 400 * q) with (y + (4 * q) * 100) by lia; rewrite Z.mod_add by lia; reflexivity).
  replace ((y + 400 * q) mod 400) with (y mod 400) by (replace (y + 400 * q) with (y + q * 400) by lia; rewrite Z.mod_add by lia; reflexivity).
  reflexivity.
Qed.

Lemma days_in_month_period (y m q : Z) : days_in_month (y + 400 * q) m = days_in_month y m.
Proof. unfold days_in_month. rewrite is_leap_period. reflexivity. Qed.

Lemma cycle_month (r m : Z) :
  0 <= r < 400 -> 1 <= m <= 12 ->
  negb (same_date (civil_from_days (MakeDay r m 0)) (r, m, 1)) = true /\ forall d, 1 <= d <= 31 -> same_date (civil_from_days (MakeDay r m d)) (carried r m d) = true.
Proof.
  intros Hr Hm. split.
  - pose proof (below_spec 400 _ eves_checked r ltac:(lia)) as H. cbv beta in H.
    pose proof (below_spec 12 _ H (m - 1) ltac:(lia)) as H1. cbv beta in H1.
    replace (m - 1 + 1) with m in H1 by lia. exact H1.
  - intros d Hd.
    pose proof (below_spec 400 _ days_checked r ltac:(lia)) as H. cbv beta in H.
    pose proof (below_spec 12 _ H (m - 1) ltac:(lia)) as H1. cbv beta in H1.
    pose proof (below_spec 31 _ H1 (d - 1) ltac:(lia)) as H2. cbv beta in H2.
    replace (m - 1 + 1) with m in H2 by lia.
    replace (d - 1 + 1) with d in H2 by lia. exact H2.
Qed.

Lemma civil_in_cycle (r m d : Z) :
  0 <= r < 400 -> 1 <= m <= 12 -> 1 <= d <= 31 ->
  civil_from_days (MakeDay r m d) = carried r m d
  /\ civil_from_days (MakeDay r m d - 1) <> (r, m, d).
Proof.
  intros Hr Hm Hd. destruct (cycle_month r m Hr Hm) as [Heve Hdays].
  split; [apply same_date_eq, (Hdays d Hd)|].
  destruct (Z.eq_dec d 1) as [-> | Hne].
  - intros Heq. apply negb_true_iff in Heve.
    replace (MakeDay r m 1 - 1) with (MakeDay r m 0) in Heq by (unfold MakeDay; lia).
    apply same_date_eq in Heq. congruence.
  - replace (MakeDay r m d - 1) with (MakeDay r m (d - 1)) by (unfold MakeDay; lia).
    pose proof (Hdays (d - 1) ltac:(lia)) as H. apply same_date_eq in H. rewrite H.
    unfold carried. destruct (d - 1 <=? days_in_month r m); intros [= ]; lia.
Qed.

Lemma civil_of_MakeDay (y m d : Z) :
  1 <= m <= 12 -> 1 <= d <= 31 ->
  civil_from_days (MakeDay y m d) = carried y m d
  /\ civil_from_days (MakeDay y m d - 1) <> (y, m, d).
Proof.
  intros Hm Hd.
  pose proof (Z.div_mod y 400 ltac:(lia)) as Hy.
  pose proof (Z.mod_pos_bound y 400 ltac:(lia)) as Hr.
  set (r := y mod 400) in *. set (q := y / 400) in *.
  replace y with (r + 400 * q) by lia.
  destruct (civil_in_cycle r m d Hr Hm Hd) as [Hsame Hprev].
  assert (Hshift : forall k, MakeDay (r + 400 * q) m d - k = MakeDay r m d - k + 146097 * q).
  { intros k. unfold MakeDay. rewrite days_from_civil_period. lia. }
  split.
  - rewrite <- (Z.sub_0_r (MakeDay (r + 400 * q) m d)), Hshift, Z.sub_0_r.
    rewrite civil_from_days_period, Hsame.
    unfold carried. rewrite days_in_month_period.
    destruct (d <=? days_in_month r m); reflexivity.
  - rewrite Hshift, civil_from_days_period.
    destruct (civil_from_days (MakeDay r m d - 1)) as [[y' m'] d'] eqn:E.
    intros [= Hy' -> ->]. apply Hprev. f_equal. f_equal. lia.
Qed.

Lemma digit_bounds c : is_digit c = true -> 0 <= digit_of c <= 9.
Proof.
  unfold is_digit, between, digit_of. intros [H1 H2]%andb_prop.
  apply Nat.leb_le in H1, H2. lia.
Qed.

Lemma digit_not_space c : is_digit c = true -> is_space c = false.
Proof. destruct c as [[] [] [] [] [] [] [] []]; vm_compute; congruence. Qed.

Lemma dash_only c : Ascii.eqb "-" c = true -> c = "-"%char.
Proof. intros H. apply Ascii.eqb_eq in H. congruence. Qed.

Lemma run_Class_then p r c s :
  run (Seq (Class p) r) (String c s) = if p c then run r s else [].
Proof.
  rewrite run_Seq. change (run (Class p) (String c s)) with (if p c then [s] else []).
  destruct (p c); cbn [map concat]; [apply app_nil_r | reflexivity].
Qed.

Lemma run_dash_then r c s :
  run (Seq (Lit "-") r) (String c s) = if Ascii.eqb "-" c then run r s else [].
Proof.
  rewrite run_Seq. cbn [run strip_prefix].
  destruct (Ascii.eqb "-" c); cbn [map concat]; [apply app_nil_r | reflexivity].
Qed.

Ltac digit_step H :=
  match type of H with
  | context [run (Seq (Class is_digit) _) ?s] =>
      let c := fresh "c" in
      let s' := fresh "s" in
      destruct s as [|c s']; [discriminate H|];
      rewrite run_Class_then in H;
      let E := fresh "Hd" in
      destruct (is_digit c) eqn:E; [|discriminate H]
  | context [run (Seq (Lit "-") _) ?s] =>
      let c := fresh "c" in
      let s' := fresh "s" in
      destruct s as [|c s']; [discriminate H|];
      rewrite run_dash_then in H;
      let E := fresh "Hdash" in
      destruct (Ascii.eqb "-" c) eqn:E; [apply dash_only in E; subst c|discriminate H]
  end.

Lemma dateFormatRegex_shape (s : string) :
  test_anchored dateFormatRegex s = true ->
  exists y1 y2 y3 y4 m1 m2 d1 d2,
    s = date_text y1 y2 y3 y4 m1 m2 d1 d2
    /\ Forall (fun c => is_digit c = true) [y1; y2; y3; y4; m1; m2; d1; d2].
Proof.
  unfold test_anchored, dateFormatRegex. cbv zeta. intros H.
  do 9 digit_step H.
  match type of H with context [run _ ?s] => destruct s as [|last rest]; [discriminate H|] end.
  cbn [run] in H.
  destruct (is_digit last) eqn:Hlast; [|discriminate H].
  cbn [existsb] in H. rewrite orb_false_r in H. apply String.eqb_eq in H. subst rest.
  eexists _, _, _, _, _, _, _, _. split; [reflexivity|].
  repeat constructor; assumption.
Qed.

Lemma digits_value_digit c s acc :
  is_digit c = true ->
  digits_value (String c s) acc = digits_value s (10 * acc + digit_of c).
Proof. intros H. cbn [digits_value]. rewrite H. unfold digit_of. f_equal. lia. Qed.

Lemma parseInt_digit c s :
  is_digit c = true -> parseInt (String c s) = Some (digits_value (String c s) 0).
Proof. intros H. unfold parseInt. rewrite H. reflexivity. Qed.

Lemma date_text_read y1 y2 y3 y4 m1 m2 d1 d2 :
  Forall (fun c => is_digit c = true) [y1; y2; y3; y4; m1; m2; d1; d2] ->
  let s := date_text y1 y2 y3 y4 m1 m2 d1 d2 in
  let y := 1000 * digit_of y1 + 100 * digit_of y2 + 10 * digit_of y3 + digit_of y4 in
  let m := 10 * digit_of m1 + digit_of m2 in
  let d := 10 * digit_of d1 + digit_of d2 in
  String.eqb (trim s) "" = false
  /\ digits_value (substring 0 4 s) 0 = y /\ parseInt (substring 0 4 s) = Some y
  /\ digits_value (substring 5 2 s) 0 = m /\ parseInt (substring 5 2 s) = Some m
  /\ digits_value (substring 8 2 s) 0 = d /\ parseInt (substring 8 2 s) = Some d.
Proof.
  intros H. repeat match goal with H : Forall _ (_ :: _) |- _ => apply Forall_cons_iff in H as [? H] end.
  cbv zeta. unfold date_text. cbn [substring].
  rewrite !parseInt_digit by assumption.
  rewrite !digits_value_digit by assumption. cbn [digits_value].
  split.
  - unfold trim. cbn [trimStart]. rewrite (digit_not_space y1) by assumption.
    unfold rev_string. cbn [list_ascii_of_string rev app string_of_list_ascii trimStart].
    rewrite (digit_not_space d2) by assumption. reflexivity.
  - repeat split; try f_equal; lia.
Qed.

(** X15: within a day of UTC, [isValidDate] accepts a string exactly when
    the local time is not behind UTC and the string is a calendar date in
    the form YYYY-MM-DD; whether the engine's parser carries an overlong
    day into the next month or rejects it makes no difference.  West of
    UTC it accepts nothing. *)
Theorem isValidDate_by_zone (w : World) (s : string) :
  -1440 < tz_offset w < 1440 ->
  isValidDate w (VStr s) = (0 <=? tz_offset w) && calendar_date s.
Proof.
  intros Htz. unfold calendar_date. cbv zeta.
  destruct (test_anchored dateFormatRegex s) eqn:Hfmt.
  2:{ unfold isValidDate. rewrite Hfmt. cbn [negb andb].
      rewrite andb_false_r. destruct (String.eqb (trim s) ""); reflexivity. }
  destruct (dateFormatRegex_shape s Hfmt) as (y1 & y2 & y3 & y4 & m1 & m2 & d1 & d2 & -> & Hdigits).
  destruct (date_text_read _ _ _ _ _ _ _ _ Hdigits) as (Htrim & Hy & Hpy & Hm & Hpm & Hdd & Hpd).
  repeat match goal with H : Forall _ (_ :: _) |- _ => apply Forall_cons_iff in H as [?%digit_bounds H] end.
  cbv zeta in Htrim, Hy, Hpy, Hm, Hpm, Hdd, Hpd.
  set (t := date_text y1 y2 y3 y4 m1 m2 d1 d2) in *.
  unfold isValidDate. rewrite Htrim, Hfmt. cbn [negb andb].
  unfold Date_parse. rewrite Hy, Hm, Hdd, Hpy, Hpm, Hpd.
  set (y := 1000 * digit_of y1 + 100 * digit_of y2 + 10 * digit_of y3 + digit_of y4).
  set (m := 10 * digit_of m1 + digit_of m2).
  set (d := 10 * digit_of d1 + digit_of d2).
  assert (Hdim : 28 <= days_in_month y m <= 31).
  { unfold days_in_month. repeat case_match; lia. }
  destruct ((m <? 1) || (m >? 12) || (d <? 1) || (d >? 31)) eqn:Hrange.
  { symmetry. apply andb_false_iff. right. lia. }
  assert (Hm' : 1 <= m <= 12) by lia.
  assert (Hd' : 1 <= d <= 31) by lia.
  destruct (civil_of_MakeDay y m d Hm' Hd') as [Hsame Hprev].
  replace ((1 <=? m) && (m <=? 12) && (1 <=? d)) with true by lia.
  cbn [andb].
  destruct (d <=? days_in_month y m) eqn:Hlast.
  - replace (negb (lenient_dates w) && (d >? days_in_month y m)) with false
      by (destruct (lenient_dates w); cbn [negb andb]; lia).
    unfold local_civil.
    destruct (Z.leb_spec 0 (tz_offset w)) as [Hpos | Hneg].
    + rewrite same_local_day by lia. rewrite Hsame. unfold carried. rewrite Hlast.
      cbn [Z_is]. rewrite !Z.eqb_refl. reflexivity.
    + rewrite previous_local_day by lia.
      destruct (civil_from_days (MakeDay y m d - 1)) as [[y' m'] d'].
      cbn [Z_is andb].
      destruct (Z.eqb_spec y' y) as [-> |]; [|reflexivity].
      destruct (Z.eqb_spec m' m) as [-> |]; [|reflexivity].
      destruct (Z.eqb_spec d' d) as [-> |]; [|reflexivity].
      contradiction Hprev. reflexivity.
  - rewrite andb_false_r.
    destruct (lenient_dates w); cbn [negb andb].
    2:{ replace (d >? days_in_month y m) with true by lia. reflexivity. }
    unfold local_civil.
    destruct (Z.leb_spec 0 (tz_offset w)) as [Hpos | Hneg].
    + rewrite same_local_day by lia. rewrite Hsame. unfold carried. rewrite Hlast.
      cbn [Z_is]. replace (m + 1 =? m) with false by lia. rewrite andb_false_r. reflexivity.
    + rewrite previous_local_day by lia.
      destruct (civil_from_days (MakeDay y m d - 1)) as [[y' m'] d'].
      cbn [Z_is andb].
      destruct (Z.eqb_spec y' y) as [-> |]; [|reflexivity].
      destruct (Z.eqb_spec m' m) as [-> |]; [|reflexivity].
      destruct (Z.eqb_spec d' d) as [-> |]; [|reflexivity].
      contradiction Hprev. reflexivity.
Qed.

Lemma isValidDate_by_zone_witness :
  isValidDate (demo_world_at ∅ 120) (VStr "2024-02-29")
  = (0 <=? tz_offset (demo_world_at ∅ 120)) && calendar_date "2024-02-29".
Proof. apply (isValidDate_by_zone (demo_world_at ∅ 120) "2024-02-29"). cbn. lia. Defined.

Local Close Scope Z_scope.

(** ** White space around a text *)

Lemma trimStart_blank (s : string) : every is_space s = true -> trimStart s = EmptyString.
Proof.
  induction s as [|c s IH]; cbn [every trimStart]; [reflexivity|].
  intros [Hc Hs]%andb_prop. rewrite Hc. apply IH, Hs.
Qed.

Lemma trimStart_padded (pre t : string) :
  every is_space pre = true -> trimStart (pre +:+ t) = trimStart t.
Proof.
  induction pre as [|c pre IH]; [reflexivity|]. cbn [every]. intros [Hc Hs]%andb_prop.
  change (String c pre +:+ t) with (String c (pre +:+ t)). cbn [trimStart].
  rewrite Hc. apply IH, Hs.
Qed.

Lemma trimStart_app (s post : string) :
  every is_space post = true ->
  trimStart (s +:+ post) = if every is_space s then EmptyString else trimStart s +:+ post.
Proof.
  intros Hpost. induction s as [|c s IH].
  - cbn [every]. apply trimStart_blank, Hpost.
  - change (String c s +:+ post) with (String c (s +:+ post)). cbn [trimStart every].
    destruct (is_space c); [exact IH | reflexivity].
Qed.

Lemma list_ascii_of_string_app (a b : string) :
  list_ascii_of_string (a +:+ b) = list_ascii_of_string a ++ list_ascii_of_string b.
Proof.
  induction a as [|c a IH]; [reflexivity|].
  change (String c a +:+ b) with (String c (a +:+ b)). cbn [list_ascii_of_string app].
  rewrite IH. reflexivity.
Qed.

Lemma string_of_list_ascii_app (l1 l2 : list ascii) :
  string_of_list_ascii (l1 ++ l2) = string_of_list_ascii l1 +:+ string_of_list_ascii l2.
Proof.
  induction l1 as [|c l1 IH]; [reflexivity|]. cbn [app string_of_list_ascii].
  rewrite IH. reflexivity.
Qed.

Lemma rev_string_app (a b : string) :
  rev_string (a +:+ b) = rev_string b +:+ rev_string a.
Proof.
  unfold rev_string.
  rewrite list_ascii_of_string_app, rev_app_distr, string_of_list_ascii_app. reflexivity.
Qed.

Lemma every_rev_string (p : ascii -> bool) (s : string) :
  every p s = true -> every p (rev_string s) = true.
Proof.
  rewrite !every_list. unfold rev_string. rewrite list_ascii_of_string_of_list_ascii.
  rewrite !forallb_forall. intros H c Hc. apply H, in_rev, Hc.
Qed.

Lemma trim_padded (pre s post : string) :
  every is_space pre = true -> every is_space post = true ->
  trim (pre +:+ s +:+ post) = trim s.
Proof.
  intros Hpre Hpost. unfold trim.
  rewrite (trimStart_padded pre _ Hpre), (trimStart_app s post Hpost).
  destruct (every is_space s) eqn:Hs.
  - rewrite (trimStart_blank s Hs). reflexivity.
  - rewrite rev_string_app.
    rewrite (trimStart_padded _ _ (every_rev_string _ _ Hpost)). reflexivity.
Qed.

Lemma trim_blank (s : string) : every is_space s = true -> trim s = EmptyString.
Proof. intros H. unfold trim. rewrite (trimStart_blank s H). reflexivity. Qed.

(** X16: [isValidText] and [isNonEmpty] do not see the white space around
    a text, and a text of white space only passes neither a minimum length
    of 1 nor [isNonEmpty]. *)
Theorem validators_ignore_padding (pre s post : string) (min max : value) :
  every is_space pre = true ->
  every is_space post = true ->
  isValidText (VStr (pre +:+ s +:+ post)) min max = isValidText (VStr s) min max
  /\ isNonEmpty (VStr (pre +:+ s +:+ post)) = isNonEmpty (VStr s)
  /\ isValidText (VStr (pre +:+ post)) (VNum 1) max = false
  /\ isNonEmpty (VStr (pre +:+ post)) = false.
Proof.
  intros Hpre Hpost.
  unfold isValidText, isNonEmpty. rewrite (trim_padded pre s post Hpre Hpost).
  split; [reflexivity|]. split; [reflexivity|].
  assert (Hblank : every is_space (pre +:+ post) = true).
  { clear -Hpre Hpost. induction pre as [|c pre IH]; [exact Hpost|].
    cbn [every] in Hpre. apply andb_prop in Hpre as [Hc Hs].
    change (String c pre +:+ post) with (String c (pre +:+ post)). cbn [every].
    rewrite Hc. apply IH, Hs. }
  rewrite (trim_blank _ Hblank). split; [|reflexivity].
  destruct max; reflexivity.
Qed.

Lemma validators_ignore_padding_witness :
  isValidText (VStr ("  " +:+ "Buy milk" +:+ " ")) (VNum 1) (VNum 8)
  = isValidText (VStr "Buy milk") (VNum 1) (VNum 8)
  /\ isNonEmpty (VStr ("  " +:+ "Buy milk" +:+ " ")) = isNonEmpty (VStr "Buy milk")
  /\ isValidText (VStr ("  " +:+ " ")) (VNum 1) (VNum 8) = false
  /\ isNonEmpty (VStr ("  " +:+ " ")) = false.
Proof.
  apply (validators_ignore_padding "  " "Buy milk" " " (VNum 1) (VNum 8)); reflexivity.
Defined.

(** ** The storage layer, read back *)

Lemma setItem_ok key v w :
  quota_exceeded w = false -> StorageManager.setItem key v w = (Return tt, saved key v w).
Proof.
  intros Hq. unfold StorageManager.setItem, chrome_storage_local_set. js_unfold.
  rewrite Hq. reflexivity.
Qed.

Lemma removeItem_ok key w :
  unavailable w = false ->
  StorageManager.removeItem key w = (Return tt, with_local (delete key (local w)) (writes w) w).
Proof.
  intros Hav. unfold StorageManager.removeItem, chrome_storage_local_remove. js_unfold.
  rewrite Hav. reflexivity.
Qed.

Lemma clearAll_ok w :
  unavailable w = false ->
  StorageManager.clearAll w = (Return tt, with_local ∅ (writes w) w).
Proof.
  intros Hav. unfold StorageManager.clearAll, chrome_storage_local_clear. js_unfold.
  rewrite Hav. reflexivity.
Qed.

Lemma defined_not_undefined v : v <> VUndefined -> strict_eq v VUndefined = false.
Proof. destruct v; congruence || reflexivity. Qed.

(** X17: what [setItem] stores under a key, [getItem] hands back for that
    key, and for no other; after [removeItem] of the key, or [clearAll],
    [getItem] hands back the default again. *)
Theorem setItem_then_getItem (w : World) (key other : string) (v d : value) :
  unavailable w = false ->
  quota_exceeded w = false ->
  v <> VUndefined ->
  other <> key ->
  let w1 := snd (StorageManager.setItem key v w) in
  let w2 := snd (StorageManager.removeItem key w1) in
  let w3 := snd (StorageManager.clearAll w1) in
  fst (StorageManager.getItem key d w1) = Return v
  /\ fst (StorageManager.getItem other d w1) = fst (StorageManager.getItem other d w)
  /\ fst (StorageManager.getItem key d w2) = Return d
  /\ fst (StorageManager.getItem other d w2) = fst (StorageManager.getItem other d w)
  /\ fst (StorageManager.getItem key d w3) = Return d
  /\ fst (StorageManager.getItem other d w3) = Return d.
Proof.
  intros Hav Hq Hv Hother. cbv zeta.
  rewrite (setItem_ok key v w Hq). cbn [snd].
  rewrite (removeItem_ok key (saved key v w) Hav), (clearAll_ok (saved key v w) Hav). cbn [snd].
  rewrite !getItem_available by exact Hav. cbn [fst local saved with_local].
  rewrite lookup_insert_eq, lookup_delete_eq, !lookup_empty.
  rewrite lookup_delete_ne, !lookup_insert_ne by congruence.
  unfold default. cbn [from_option id]. rewrite (defined_not_undefined v Hv).
  repeat split; reflexivity.
Qed.

Lemma setItem_then_getItem_witness :
  let w1 := snd (StorageManager.setItem "draft" (VStr "text") demo_world) in
  let w2 := snd (StorageManager.removeItem "draft" w1) in
  let w3 := snd (StorageManager.clearAll w1) in
  fst (StorageManager.getItem "draft" VNull w1) = Return (VStr "text")
  /\ fst (StorageManager.getItem StorageManager.TASKS VNull w1)
     = fst (StorageManager.getItem StorageManager.TASKS VNull demo_world)
  /\ fst (StorageManager.getItem "draft" VNull w2) = Return VNull
  /\ fst (StorageManager.getItem StorageManager.TASKS VNull w2)
     = fst (StorageManager.getItem StorageManager.TASKS VNull demo_world)
  /\ fst (StorageManager.getItem "draft" VNull w3) = Return VNull
  /\ fst (StorageManager.getItem StorageManager.TASKS VNull w3) = Return VNull.
Proof.
  apply (setItem_then_getItem demo_world "draft" StorageManager.TASKS (VStr "text") VNull);
    [reflexivity | reflexivity | discriminate | discriminate].
Defined.

(** X18: the three collections do not disturb one another: after tasks,
    notes and settings have been saved, each accessor hands back what was
    saved for it; after [clearAll] the accessors hand back an empty list,
    an empty list and an empty object. *)
Theorem collections_are_independent (w : World) (tasks notes settings : value) :
  unavailable w = false ->
  quota_exceeded w = false ->
  tasks <> VUndefined -> notes <> VUndefined -> settings <> VUndefined ->
  let w' := snd ((StorageManager.saveAllTasks tasks;;
                  StorageManager.saveAllNotes notes;;
                  StorageManager.saveSettings settings) w) in
  let w0 := snd (StorageManager.clearAll w') in
  StorageManager.getAllTasks w' = (Return tasks, w')
  /\ StorageManager.getAllNotes w' = (Return notes, w')
  /\ StorageManager.getSettings w' = (Return settings, w')
  /\ StorageManager.getAllTasks w0 = (Return (VArr []), w0)
  /\ StorageManager.getAllNotes w0 = (Return (VArr []), w0)
  /\ StorageManager.getSettings w0 = (Return (VObj ∅), w0).
Proof.
  intros Hav Hq Ht Hn Hs. cbv zeta.
  unfold StorageManager.saveAllTasks, StorageManager.saveAllNotes, StorageManager.saveSettings.
  unfold mbind, JS_bind.
  rewrite (setItem_ok _ tasks w Hq).
  rewrite (setItem_ok _ notes (saved StorageManager.TASKS tasks w) Hq).
  rewrite (setItem_ok _ settings
             (saved StorageManager.NOTES notes (saved StorageManager.TASKS tasks w)) Hq).
  cbn [snd].
  set (w' := saved StorageManager.SETTINGS settings _).
  rewrite (clearAll_ok w' Hav). cbn [snd].
  unfold StorageManager.getAllTasks, StorageManager.getAllNotes, StorageManager.getSettings.
  rewrite !getItem_available by exact Hav.
  subst w'. cbn [local saved with_local]. rewrite !lookup_empty.
  rewrite lookup_insert_eq.
  rewrite (lookup_insert_ne _ StorageManager.SETTINGS StorageManager.NOTES) by discriminate.
  rewrite lookup_insert_eq.
  rewrite (lookup_insert_ne _ StorageManager.SETTINGS StorageManager.TASKS) by discriminate.
  rewrite (lookup_insert_ne _ StorageManager.NOTES StorageManager.TASKS) by discriminate.
  rewrite lookup_insert_eq. unfold default. cbn [from_option id].
  rewrite (defined_not_undefined _ Ht), (defined_not_undefined _ Hn), (defined_not_undefined _ Hs).
  repeat split; reflexivity.
Qed.

Lemma collections_are_independent_witness :
  let w' := snd ((StorageManager.saveAllTasks (VArr demo_tasks);;
                  StorageManager.saveAllNotes (VArr []);;
                  StorageManager.saveSettings (VObj {[ "theme" := VStr "dark" ]})) demo_world) in
  let w0 := snd (StorageManager.clearAll w') in
  StorageManager.getAllTasks w' = (Return (VArr demo_tasks), w')
  /\ StorageManager.getAllNotes w' = (Return (VArr []), w')
  /\ StorageManager.getSettings w' = (Return (VObj {[ "theme" := VStr "dark" ]}), w')
  /\ StorageManager.getAllTasks w0 = (Return (VArr []), w0)
  /\ StorageManager.getAllNotes w0 = (Return (VArr []), w0)
  /\ StorageManager.getSettings w0 = (Return (VObj ∅), w0).
Proof.
  apply (collections_are_independent demo_world (VArr demo_tasks) (VArr [])
           (VObj {[ "theme" := VStr "dark" ]}));
    [reflexivity | reflexivity | discriminate | discriminate | discriminate].
Defined.

(** ** A stored value that is no list *)

Lemma _getTasks_stored v w :
  unavailable w = false ->
  local w !! StorageManager.TASKS = Some v -> v <> VUndefined ->
  TaskManager._getTasks w = (Return v, w).
Proof.
  intros Hav Hv Hdef. unfold TaskManager._getTasks, StorageManager.getAllTasks, try_catch.
  rewrite getItem_available by exact Hav. rewrite Hv. unfold default. cbn [from_option id].
  rewrite (defined_not_undefined v Hdef). reflexivity.
Qed.

Lemma as_array_other v : is_array v = false -> as_array v = Throw TypeError.
Proof. destruct v; try reflexivity. discriminate. Qed.

(** X19: [getItem] hands back whatever is stored, checked or not.  When
    the value under the tasks key is neither absent nor a list,
    [getAllTasks] returns it as it is, and every other task operation whose
    arguments pass its input check throws a [TypeError], not a
    [StorageError], and leaves the storage area as it found it. *)
Theorem stored_value_is_not_checked (w : World) (v id : value) :
  unavailable w = false ->
  local w !! StorageManager.TASKS = Some v ->
  v <> VUndefined ->
  is_array v = false ->
  truthy id = true ->
  TaskManager.getAllTasks w = (Return v, w)
  /\ TaskManager.getTaskById id w = (Throw TypeError, w)
  /\ TaskManager.deleteTask id w = (Throw TypeError, w)
  /\ (forall newData, object_like newData = true ->
        TaskManager.updateTask id newData w = (Throw TypeError, w))
  /\ (forall b, TaskManager.markTaskStatus id (VBool b) w = (Throw TypeError, w))
  /\ (forall subtaskId, truthy subtaskId = true ->
        TaskManager.deleteSubtask id subtaskId w = (Throw TypeError, w)
        /\ forall b, TaskManager.markSubtaskStatus id subtaskId (VBool b) w
                     = (Throw TypeError, w))
  /\ (forall data, titled_object data = true ->
        TaskManager.addSubtask id data w = (Throw TypeError, w)
        /\ exists w', TaskManager.createTask data w = (Throw TypeError, w')
                      /\ local w' = local w /\ writes w' = writes w).
Proof.
  intros Hav Hv Hdef Harr Hid.
  pose proof (_getTasks_stored v w Hav Hv Hdef) as Hget.
  pose proof (as_array_other v Harr) as Hthrow.
  assert (Hupd : forall newData, object_like newData = true ->
            TaskManager.updateTask id newData w = (Throw TypeError, w)).
  { intros newData [Hty Hnull]%andb_prop. apply negb_true_iff in Hnull.
    unfold TaskManager.updateTask. rewrite Hid, Hty, Hnull. cbn [negb orb].
    js_unfold. rewrite Hget, Hthrow. reflexivity. }
  split; [exact Hget|].
  split. { unfold TaskManager.getTaskById. rewrite Hid. cbn [negb].
           js_unfold. rewrite Hget, Hthrow. reflexivity. }
  split. { unfold TaskManager.deleteTask. rewrite Hid. cbn [negb].
           js_unfold. rewrite Hget, Hthrow. reflexivity. }
  split; [exact Hupd|].
  split. { intros b. unfold TaskManager.markTaskStatus. rewrite Hid. cbn [negb orb typeof String.eqb].
           apply Hupd. reflexivity. }
  split.
  { intros subtaskId Hsub. split.
    - unfold TaskManager.deleteSubtask. rewrite Hid, Hsub. cbn [negb orb].
      js_unfold. rewrite Hget, Hthrow. reflexivity.
    - intros b. unfold TaskManager.markSubtaskStatus. rewrite Hid, Hsub.
      replace (String.eqb (typeof (VBool b)) "boolean") with true by reflexivity.
      cbn [negb orb]. js_unfold. rewrite Hget, Hthrow. reflexivity. }
  intros data Hdata. unfold titled_object, has_title in Hdata.
  apply andb_prop in Hdata as [[Htruthy Hty]%andb_prop Htitle].
  destruct (get_prop data "title") as [title|] eqn:Hprop; [|discriminate].
  split.
  - unfold TaskManager.addSubtask. rewrite Hid, Htruthy, Hty. cbn [negb orb].
    js_unfold. rewrite Hprop, Htitle. cbn [negb]. rewrite Hget, Hthrow. reflexivity.
  - unfold TaskManager.createTask. rewrite Htruthy, Hty. cbn [negb orb].
    js_unfold. rewrite Hprop, Htitle. cbn [negb]. rewrite Hget.
    unfold Date_now. rewrite _generateUniqueId_run.
    assert (Hd : forall p, exists x, get_prop data p = Return x).
    { intros p. destruct data; try discriminate; eexists; reflexivity. }
    destruct (Hd "description") as [x1 ->], (Hd "dueDate") as [x2 ->].
    rewrite Hthrow. eexists. split; [reflexivity|].
    unfold after_generate. destruct (secure_random (tick w)); split; reflexivity.
Qed.

Lemma stored_value_is_not_checked_witness :
  let w := demo_world_at {[ StorageManager.TASKS := VNull ]} 0 in
  TaskManager.getAllTasks w = (Return VNull, w)
  /\ TaskManager.getTaskById (VStr "t1") w = (Throw TypeError, w)
  /\ TaskManager.deleteTask (VStr "t1") w = (Throw TypeError, w)
  /\ (forall newData, object_like newData = true ->
        TaskManager.updateTask (VStr "t1") newData w = (Throw TypeError, w))
  /\ (forall b, TaskManager.markTaskStatus (VStr "t1") (VBool b) w = (Throw TypeError, w))
  /\ (forall subtaskId, truthy subtaskId = true ->
        TaskManager.deleteSubtask (VStr "t1") subtaskId w = (Throw TypeError, w)
        /\ forall b, TaskManager.markSubtaskStatus (VStr "t1") subtaskId (VBool b) w
                     = (Throw TypeError, w))
  /\ (forall data, titled_object data = true ->
        TaskManager.addSubtask (VStr "t1") data w = (Throw TypeError, w)
        /\ exists w', TaskManager.createTask data w = (Throw TypeError, w')
                      /\ local w' = local w /\ writes w' = writes w).
Proof.
  apply (stored_value_is_not_checked (demo_world_at {[ StorageManager.TASKS := VNull ]} 0)
           VNull (VStr "t1")); [reflexivity | reflexivity | discriminate | reflexivity | reflexivity].
Defined.

(** ** Installation *)

(** X24: on installation [handleInstalled] stores empty lists and default
    settings under the keys ['tasks'], ['notes'], ['settings'] and
    ['youtubeVideos'], and under no other; a failure of the storage area is
    swallowed.  None of these is a key that [storage.js] reads: the
    accessors of the three collections answer after the call as they did
    before it, so the default settings are not what [getSettings] hands
    back. *)
Theorem handleInstalled_seeds_other_keys (w : World) (details : value) :
  unavailable w = false ->
  is_object details = true ->
  let run := BackgroundService.handleInstalled details w in
  let w' := snd run in
  fst run = Return tt
  /\ (forall k, k <> "tasks" -> k <> "notes" -> k <> "settings" -> k <> "youtubeVideos" ->
        local w' !! k = local w !! k)
  /\ fst (StorageManager.getAllTasks w') = fst (StorageManager.getAllTasks w)
  /\ fst (StorageManager.getAllNotes w') = fst (StorageManager.getAllNotes w)
  /\ fst (StorageManager.getSettings w') = fst (StorageManager.getSettings w)
  /\ (if strict_eq (field (own_props details) "reason") (VStr "install")
         && negb (quota_exceeded w)
      then local w' !! "tasks" = Some (VArr [])
           /\ local w' !! "notes" = Some (VArr [])
           /\ local w' !! "settings" = Some installed_settings
           /\ local w' !! "youtubeVideos" = Some (VArr [])
      else local w' = local w).
Proof.
  intros Hav Hobj. destruct details as [| | | | | |m]; try discriminate.
  cbv zeta. unfold BackgroundService.handleInstalled. js_unfold.
  unfold get_prop, field. cbn [own_props].
  destruct (strict_eq (default VUndefined (m !! "reason")) (VStr "install")); cbn [andb].
  2:{ cbn [fst snd]. repeat split; reflexivity. }
  unfold chrome_storage_local_set_items.
  destruct (quota_exceeded w) eqn:Hq; cbn [negb fst snd].
  { unfold StorageManager.getAllTasks, StorageManager.getAllNotes, StorageManager.getSettings.
    rewrite !getItem_available by exact Hav. repeat split; reflexivity. }
  set (w' := with_local _ _ w).
  assert (Hother : forall k, k <> "tasks" -> k <> "notes" -> k <> "settings" ->
                     k <> "youtubeVideos" -> local w' !! k = local w !! k).
  { intros k H1 H2 H3 H4. subst w'. cbn [local with_local foldl fst snd].
    rewrite !lookup_insert_ne by congruence. reflexivity. }
  split; [reflexivity|]. split; [exact Hother|].
  unfold StorageManager.getAllTasks, StorageManager.getAllNotes, StorageManager.getSettings.
  rewrite !getItem_available by assumption. cbn [fst].
  rewrite !Hother by discriminate.
  split; [reflexivity|]. split; [reflexivity|]. split; [reflexivity|].
  assert (Hnotes : local w' !! "notes" = Some (VArr [])).
  { subst w'. cbn [local with_local foldl fst snd].
    rewrite lookup_insert_ne, lookup_insert_ne, lookup_insert_eq by discriminate. reflexivity. }
  split. { subst w'. cbn [local with_local foldl fst snd].
           rewrite !lookup_insert_ne, lookup_insert_eq by discriminate. reflexivity. }
  split; [exact Hnotes|].
  split. { subst w'. cbn [local with_local foldl fst snd].
           rewrite lookup_insert_ne, lookup_insert_eq by discriminate. reflexivity. }
  subst w'. cbn [local with_local foldl fst snd].
  rewrite lookup_insert_eq. reflexivity.
Qed.

Lemma handleInstalled_seeds_other_keys_witness :
  let run := BackgroundService.handleInstalled (VObj {[ "reason" := VStr "install" ]})
               demo_note_world in
  let w' := snd run in
  fst run = Return tt
  /\ (forall k, k <> "tasks" -> k <> "notes" -> k <> "settings" -> k <> "youtubeVideos" ->
        local w' !! k = local demo_note_world !! k)
  /\ fst (StorageManager.getAllTasks w') = fst (StorageManager.getAllTasks demo_note_world)
  /\ fst (StorageManager.getAllNotes w') = fst (StorageManager.getAllNotes demo_note_world)
  /\ fst (StorageManager.getSettings w') = fst (StorageManager.getSettings demo_note_world)
  /\ local w' !! "tasks" = Some (VArr [])
  /\ local w' !! "notes" = Some (VArr [])
  /\ local w' !! "settings" = Some installed_settings
  /\ local w' !! "youtubeVideos" = Some (VArr []).
Proof.
  exact (handleInstalled_seeds_other_keys demo_note_world
           (VObj {[ "reason" := VStr "install" ]}) eq_refl eq_refl).
Defined.

(** ** The forms of the popup *)

Lemma getItem_unavailable key d w :
  unavailable w = true -> StorageManager.getItem key d w = (Throw BackendError, w).
Proof.
  intros Hav. unfold StorageManager.getItem, chrome_storage_local_get. js_unfold.
  rewrite Hav. reflexivity.
Qed.

Lemma getItem_unwritten key w :
  local w !! key = None ->
  StorageManager.getItem key VNull w = (Throw BackendError, w)
  \/ StorageManager.getItem key VNull w = (Return VNull, w).
Proof.
  intros Hkey. destruct (unavailable w) eqn:Hav.
  - left. apply getItem_unavailable, Hav.
  - right. rewrite getItem_available by exact Hav. rewrite Hkey. reflexivity.
Qed.

(** X25: the forms of the popup read their list with [getItem] and no
    default.  As long as nothing is stored under the key, no entry can be
    added: a task, a note or a video that passes the input checks ends
    in the alert of a failed save, and nothing is written. *)
Theorem forms_fail_on_an_unwritten_key
    (key : string) (w : World) (taskInput titleInput noteContent urlInput : string) :
  local w !! StorageManager.TASKS = None ->
  local w !! StorageManager.NOTES = None ->
  local w !! key = None ->
  let task := PopupManager.handleTaskFormSubmit taskInput w in
  let note := PopupManager.handleNoteFormSubmit titleInput noteContent w in
  let video := PopupManager.handleYoutubeEmbed key urlInput w in
  (fst task = Return (Some (if isValidText (VStr (trim taskInput)) (VNum 1) VUndefined
                            then addTaskFailed else taskContentRequired))
   /\ local (snd task) = local w /\ writes (snd task) = writes w)
  /\ (fst note = Return (Some (if negb (isValidText (VStr (trim titleInput)) (VNum 1) VUndefined)
                               then noteTitleRequired
                               else if negb (isValidText (VStr noteContent) (VNum 1) VUndefined)
                               then noteContentRequired
                               else addNoteFailed))
      /\ local (snd note) = local w /\ writes (snd note) = writes w)
  /\ ((exists a, fst video = Return (Some a))
      /\ local (snd video) = local w /\ writes (snd video) = writes w).
Proof.
  intros Htasks Hnotes Hkey. cbv zeta.
  unfold PopupManager.handleTaskFormSubmit, PopupManager.handleNoteFormSubmit,
    PopupManager.handleYoutubeEmbed, PopupManager.generateUniqueId.
  split; [|split].
  - destruct (isValidText (VStr (trim taskInput)) (VNum 1) VUndefined); cbn [negb];
      [|repeat split; reflexivity].
    js_unfold. destruct (getItem_unwritten _ w Htasks) as [-> | ->];
      [repeat split; reflexivity|].
    destruct (secure_random w); repeat split; reflexivity.
  - destruct (isValidText (VStr (trim titleInput)) (VNum 1) VUndefined); cbn [negb];
      [|repeat split; reflexivity].
    destruct (isValidText (VStr noteContent) (VNum 1) VUndefined); cbn [negb];
      [|repeat split; reflexivity].
    js_unfold. destruct (getItem_unwritten _ w Hnotes) as [-> | ->];
      [repeat split; reflexivity|].
    destruct (secure_random w); repeat split; reflexivity.
  - destruct (negb (truthy (isValidUrl w (VStr (trim urlInput)))));
      [split; [eexists; reflexivity | split; reflexivity]|].
    destruct (negb (truthy (YoutubeManager.extractVideoId (VStr (trim urlInput)))));
      [split; [eexists; reflexivity | split; reflexivity]|].
    js_unfold. destruct (getItem_unwritten _ w Hkey) as [-> | ->];
      (split; [eexists; reflexivity | split; reflexivity]).
Qed.

Lemma forms_fail_on_an_unwritten_key_witness :
  let w := snd (BackgroundService.handleInstalled (VObj {[ "reason" := VStr "install" ]})
                  (demo_world_at ∅ 0)) in
  let task := PopupManager.handleTaskFormSubmit "Buy milk" w in
  let note := PopupManager.handleNoteFormSubmit "Idea" "<p>call back</p>" w in
  let video := PopupManager.handleYoutubeEmbed "videos" "https://youtu.be/dQw4w9WgXcQ" w in
  (fst task = Return (Some addTaskFailed)
   /\ local (snd task) = local w /\ writes (snd task) = writes w)
  /\ (fst note = Return (Some addNoteFailed)
      /\ local (snd note) = local w /\ writes (snd note) = writes w)
  /\ ((exists a, fst video = Return (Some a))
      /\ local (snd video) = local w /\ writes (snd video) = writes w).
Proof.
  exact (forms_fail_on_an_unwritten_key "videos"
           (snd (BackgroundService.handleInstalled (VObj {[ "reason" := VStr "install" ]})
                   (demo_world_at ∅ 0)))
           "Buy milk" "Idea" "<p>call back</p>" "https://youtu.be/dQw4w9WgXcQ"
           eq_refl eq_refl eq_refl).
Defined.

(** X26: a task added through the form of the popup has the fields [id],
    [content], [completed] and [timestamp], and goes under the key that
    [task.js] reads.  [getTaskById] finds it there; [addSubtask] on it
    throws a [TypeError], because it has no list of subtasks, and writes
    nothing; [markTaskStatus] sets [isComplete] on it and leaves the
    [completed] that the popup shows as it was. *)
Theorem popup_task_under_TaskManager (w : World) (input : string) (arr : list value) :
  unavailable w = false ->
  quota_exceeded w = false ->
  secure_random w = true ->
  local w !! StorageManager.TASKS = Some (VArr arr) ->
  forallb is_object arr = true ->
  isValidText (VStr (trim input)) (VNum 1) VUndefined = true ->
  existsb (carries "id" (VStr (entropy w (draws w)))) arr = false ->
  truthy (VStr (entropy w (draws w))) = true ->
  let id := VStr (entropy w (draws w)) in
  let task := popup_task (trim input) (clock w (reads w)) id in
  let w' := saved StorageManager.TASKS (VArr (arr ++ [VObj task])) (tick (drawn w)) in
  PopupManager.handleTaskFormSubmit input w = (Return None, w')
  /\ TaskManager.getTaskById id w' = (Return (VObj task), w')
  /\ (forall title, truthy title = true ->
        exists w'', TaskManager.addSubtask id (VObj {[ "title" := title ]}) w'
                    = (Throw TypeError, w'')
                    /\ local w'' = local w' /\ writes w'' = writes w')
  /\ (exists marked w'',
        TaskManager.markTaskStatus id (VBool true) w' = (Return (VObj marked), w'')
        /\ field marked "isComplete" = VBool true
        /\ field marked "completed" = VBool false
        /\ field marked "subtasks" = VUndefined).
Proof.
  intros Hav Hq Hrandom Hstore Hobj Hvalid Hfresh Hid. cbv zeta.
  set (id := VStr (entropy w (draws w))).
  set (task := popup_task (trim input) (clock w (reads w)) id).
  set (w' := saved StorageManager.TASKS (VArr (arr ++ [VObj task])) (tick (drawn w))).
  assert (Hcoll : collection StorageManager.TASKS w' = Some (arr ++ [VObj task])).
  { unfold collection. subst w'. cbn [local saved with_local]. rewrite lookup_insert_eq.
    reflexivity. }
  assert (Hobj' : forallb is_object (arr ++ [VObj task]) = true).
  { rewrite forallb_app, Hobj. reflexivity. }
  assert (Hcarries : carries "id" id (VObj task) = true).
  { unfold carries, task, popup_task, field. rewrite lookup_insert_eq. cbn.
    apply String.eqb_refl. }
  assert (Hfirst : first_carrier "id" id (arr ++ [VObj task]) = Some (length arr)).
  { apply first_carrier_app; assumption. }
  assert (Hat : (arr ++ [VObj task]) !! length arr = Some (VObj task)).
  { rewrite lookup_app_r by lia. rewrite Nat.sub_diag. reflexivity. }
  split; [|split; [|split]].
  - unfold PopupManager.handleTaskFormSubmit. rewrite Hvalid. cbn [negb].
    js_unfold. rewrite getItem_available by exact Hav. rewrite Hstore.
    unfold PopupManager.generateUniqueId. rewrite Hrandom. js_unfold.
    unfold draw, Date_now, default. cbn [as_array from_option Datatypes.id strict_eq].
    rewrite setItem_ok by exact Hq. reflexivity.
  - apply (getTaskById_found w' (arr ++ [VObj task]) id (length arr) task);
      try assumption; reflexivity.
  - intros title Htitle. unfold TaskManager.addSubtask.
    fold id in Hid. rewrite Hid. cbn [truthy typeof negb orb].
    replace (String.eqb "object" "object") with true by reflexivity. cbn [negb].
    js_unfold. unfold get_prop at 1. cbn [own_props]. rewrite lookup_singleton_eq.
    unfold default at 1. cbn [from_option Datatypes.id]. rewrite Htitle. cbn [negb].
    rewrite (_getTasks_collection (arr ++ [VObj task]) w') by assumption.
    cbn [as_array]. rewrite findIndex_objects by assumption. rewrite Hfirst.
    unfold Date_now. rewrite _generateUniqueId_run. rewrite Hat.
    eexists. split; [reflexivity|].
    unfold after_generate. destruct (secure_random (tick w')); split; reflexivity.
  - unfold TaskManager.markTaskStatus.
    fold id in Hid. rewrite Hid. cbn [typeof negb orb].
    replace (String.eqb "boolean" "boolean") with true by reflexivity. cbn [negb].
    rewrite (updateTask_found w' (arr ++ [VObj task]) id _ (length arr) task);
      try assumption; try reflexivity.
    eexists _, _. split; [reflexivity|].
    unfold merged, field, task, popup_task. cbn [own_props].
    repeat split.
Qed.

Lemma popup_task_under_TaskManager_witness :
  let w := demo_world in
  let id := VStr (entropy w (draws w)) in
  let task := popup_task (trim " Buy milk ") (clock w (reads w)) id in
  let w' := saved StorageManager.TASKS (VArr (demo_tasks ++ [VObj task])) (tick (drawn w)) in
  PopupManager.handleTaskFormSubmit " Buy milk " w = (Return None, w')
  /\ TaskManager.getTaskById id w' = (Return (VObj task), w')
  /\ (forall title, truthy title = true ->
        exists w'', TaskManager.addSubtask id (VObj {[ "title" := title ]}) w'
                    = (Throw TypeError, w'')
                    /\ local w'' = local w' /\ writes w'' = writes w')
  /\ (exists marked w'',
        TaskManager.markTaskStatus id (VBool true) w' = (Return (VObj marked), w'')
        /\ field marked "isComplete" = VBool true
        /\ field marked "completed" = VBool false
        /\ field marked "subtasks" = VUndefined).
Proof.
  apply (popup_task_under_TaskManager demo_world " Buy milk " demo_tasks); reflexivity.
Defined.

(** ** Removing a video reference *)

Lemma forallb_filter {A} (P f : A -> bool) (l : list A) :
  forallb P l = true -> forallb P (List.filter f l) = true.
Proof.
  induction l as [|x l IH]; cbn; [reflexivity|].
  intros [Hx Hl]%andb_prop. destruct (f x); cbn; [rewrite Hx|]; apply IH, Hl.
Qed.

Lemma NoDup_map_filter {A B} (g : A -> B) (f : A -> bool) (l : list A) :
  NoDup (map g l) -> NoDup (map g (List.filter f l)).
Proof.
  induction l as [|x l IH]; cbn; [trivial|].
  intros H. apply NoDup_cons in H as [Hx Hl].
  destruct (f x); cbn; [|apply IH, Hl].
  apply NoDup_cons. split; [|apply IH, Hl].
  intros Hin. apply Hx. apply list_elem_of_In. apply list_elem_of_In in Hin.
  apply in_map_iff in Hin as (y & Hy & Hin).
  apply in_map_iff. exists y. split; [exact Hy|]. apply filter_In in Hin. tauto.
Qed.

(** X27: a click on the delete button of a video removes every reference
    whose [id] is the one of the clicked item, keeps the others in their
    order, and keeps the collection free of duplicate [videoId]s.  The
    list is written back even when it has not changed; a click on
    anything else in the item changes nothing. *)
Theorem deleting_a_video_keeps_them_distinct
    (key : string) (w : World) (refs : list value) (id : string) (action : value) :
  unavailable w = false ->
  quota_exceeded w = false ->
  local w !! key = Some (VArr refs) ->
  distinct_videos refs ->
  let run := PopupManager.youtubeVideosContainer_click key id action w in
  let remaining := List.filter (fun v => negb (carries "id" (VStr id) v)) refs in
  fst run = Return None
  /\ if strict_eq action (VStr "delete-youtube")
     then snd run = saved key (VArr remaining) w
          /\ distinct_videos remaining
          /\ existsb (carries "id" (VStr id)) remaining = false
     else snd run = w.
Proof.
  intros Hav Hq Hstore [Hrefs Hdistinct]. cbv zeta.
  pose proof (video_refs_are_objects _ Hrefs) as Hobj.
  unfold PopupManager.youtubeVideosContainer_click. js_unfold.
  rewrite getItem_available by exact Hav. rewrite Hstore.
  unfold default. cbn [from_option Datatypes.id strict_eq].
  destruct action as [| | | |a| |]; cbn [strict_eq]; try (split; reflexivity).
  destruct (String.eqb a "delete-youtube"); [|split; reflexivity].
  cbn [as_array]. rewrite (filter_arr_objects _ _ _ Hobj).
  rewrite setItem_ok by exact Hq. cbn [fst snd].
  split; [reflexivity|]. split; [reflexivity|]. split.
  - split; [apply forallb_filter, Hrefs | apply NoDup_map_filter, Hdistinct].
  - clear. induction refs as [|v refs IH]; [reflexivity|]. cbn [List.filter].
    destruct (carries "id" (VStr id) v) eqn:Hv; cbn [negb existsb]; [exact IH|].
    rewrite Hv, IH. reflexivity.
Qed.

Lemma deleting_a_video_keeps_them_distinct_witness :
  let run := PopupManager.youtubeVideosContainer_click "youtubeVideos" "v1"
               (VStr "delete-youtube") demo_video_world in
  let remaining := List.filter (fun v => negb (carries "id" (VStr "v1") v)) demo_videos in
  fst run = Return None
  /\ snd run = saved "youtubeVideos" (VArr remaining) demo_video_world
  /\ distinct_videos remaining
  /\ existsb (carries "id" (VStr "v1")) remaining = false.
Proof.
  exact (deleting_a_video_keeps_them_distinct "youtubeVideos" demo_video_world demo_videos
           "v1" (VStr "delete-youtube") eq_refl eq_refl eq_refl demo_videos_distinct).
Defined.

(** ** Rendering an embed *)

(** X28: [renderVideoEmbed] returns [true] exactly when its first argument
    is an element and an identifier can be extracted from the URL.  The
    element then holds a single iframe, whose [src] is the embed URL of that
    identifier and never [null], and nothing of what it held before.  When
    the result is [false], as it is whenever the first argument is not an
    element, the argument is left as it was. *)
Theorem renderVideoEmbed_result (element : YoutubeManager.target) (youtubeUrl : value) :
  fst (YoutubeManager.renderVideoEmbed element youtubeUrl)
  = is_element element && truthy (YoutubeManager.extractVideoId youtubeUrl)
  /\ if fst (YoutubeManager.renderVideoEmbed element youtubeUrl)
     then exists id, YoutubeManager.extractVideoId youtubeUrl = VStr id
                     /\ is_video_id id = true
                     /\ snd (YoutubeManager.renderVideoEmbed element youtubeUrl)
                        = YoutubeManager.HTMLElement [embed_frame id]
     else snd (YoutubeManager.renderVideoEmbed element youtubeUrl) = element.
Proof.
  unfold YoutubeManager.renderVideoEmbed.
  destruct element as [children | v]; cbn [is_element andb]; [|split; reflexivity].
  destruct youtubeUrl as [| | | |s| |]; cbn [typeof String.eqb negb orb];
    try (split; reflexivity).
  replace (String.eqb "string" "string") with true by reflexivity. cbn [negb orb].
  destruct (truthy (VStr s)) eqn:Hs; cbn [negb].
  2:{ destruct s; [|discriminate]. split; reflexivity. }
  destruct (extractVideoId_cases (VStr s)) as [-> | (g & -> & Hid)]; [split; reflexivity|].
  assert (Hlen : String.length g = 11).
  { unfold is_video_id in Hid. apply andb_prop in Hid as [H _]. apply Nat.eqb_eq, H. }
  assert (Hg : truthy (VStr g) = true) by (destruct g; [discriminate | reflexivity]).
  rewrite Hg. cbn [negb fst snd]. split; [reflexivity|].
  exists g. split; [reflexivity|]. split; [exact Hid|].
  unfold YoutubeManager.getEmbedUrl. rewrite Hlen. reflexivity.
Qed.
